(** * xlink dispatcher (drivers/misc/xlink-core/xlink-dispatcher.c)

    A shallow embedding of the dispatcher: the event queues, the event
    buffer pool, the synchronous send path, the receive loop and the
    start/submit state machine, followed by the properties established
    about them.

    Conventions.
    - A C unsigned integer of width w is a [Z] and every arithmetic
      operation of the source on it is followed by its wrap-around
      ([u32], [size_t]).
    - A pointer to a [struct xlink_event] is an address ([Z]) into the
      store [events] of the system state; a pointer that may be NULL is
      an [option].  Dereferencing an address with no event behind it is
      undefined behaviour in C and a fault ([None]) of the model.
    - An intrusive [list_head] list is the list of the addresses of the
      events linked on it, head first.
    - Mutexes and semaphores order concurrent executions and carry no
      data; the model runs one call at a time and keeps of them only the
      dereference of the object that holds the mutex.  A wait on a
      completion stands for what the worker does up to its signal: the call
      goes on from the state the worker has left, and has no outcome
      ([None], as for a fault) when no worker will ever signal.
    - Everything the dispatcher calls but does not define (the transport,
      the multiplexer, the kthread API) is a collaborator: its replies are
      given by the class [collaborators], as functions of the calls made so
      far, and every call is appended to the [log] of the system state. *)

From Stdlib Require Import ZArith Lia List.
From stdpp Require Import base option list gmap.

Local Open Scope Z_scope.

(** ** Machine integers *)

Definition u32 (z : Z) : Z := z mod 2 ^ 32.
Definition size_t (z : Z) : Z := z mod 2 ^ 64.

(** ** Enumerations *)

(* enum dispatcher_state *)
Inductive dispatcher_state :=
| XLINK_DISPATCHER_INIT      (* dispatcher has been initialized but not used *)
| XLINK_DISPATCHER_RUNNING   (* dispatcher is currently servicing a link *)
| XLINK_DISPATCHER_STOPPED   (* dispatcher is no longer servicing a link *)
| XLINK_DISPATCHER_ERROR.    (* dispatcher fatal error *)

#[global] Instance dispatcher_state_eq_dec : EqDecision dispatcher_state.
Proof. solve_decision. Defined.

(* enum xlink_event_type is declared in xlink-defs.h; these are the
   enumerators the dispatcher names, and [XLINK_EVENT_TYPE_OTHER] stands
   for every enumerator it does not name. *)
Inductive xlink_event_type :=
| XLINK_WRITE_REQ
| XLINK_WRITE_VOLATILE_REQ
| XLINK_WRITE_CONTROL_REQ
| XLINK_PASSTHRU_WRITE_REQ
| XLINK_PASSTHRU_VOLATILE_WRITE_REQ
| XLINK_PASSTHRU_READ_REQ
| XLINK_PASSTHRU_READ_TO_BUFFER_REQ
| XLINK_EVENT_TYPE_OTHER (n : Z).

#[global] Instance xlink_event_type_eq_dec : EqDecision xlink_event_type.
Proof. solve_decision. Defined.

(* enum xlink_event_origin *)
Inductive xlink_event_origin := EVENT_TX | EVENT_RX.

#[global] Instance xlink_event_origin_eq_dec : EqDecision xlink_event_origin.
Proof. solve_decision. Defined.

(* enum xlink_error: the two values the dispatcher returns *)
Inductive xlink_error := X_LINK_SUCCESS | X_LINK_ERROR.

#[global] Instance xlink_error_eq_dec : EqDecision xlink_error.
Proof. solve_decision. Defined.

(* memory kind argument of xlink_platform_deallocate *)
Inductive xlink_memory_kind := XLINK_NORMAL_MEMORY | XLINK_CMA_MEMORY.

#[global] Instance xlink_memory_kind_eq_dec : EqDecision xlink_memory_kind.
Proof. solve_decision. Defined.

(** ** Data model *)

(* struct xlink_handle: the device identity; only sw_device_id is read *)
Record xlink_handle := { sw_device_id : Z }.

(* struct xlink_event_header *)
Record xlink_event_header := {
  h_magic : Z;
  h_id : Z;
  h_type : xlink_event_type;
  h_chan : Z;
  h_size : Z;
  h_timeout : Z
}.

(* struct xlink_event; [ev_handle] is NULL when [None] *)
Record xlink_event := {
  ev_header : xlink_event_header;
  ev_origin : xlink_event_origin;
  ev_link_id : Z;
  ev_handle : option xlink_handle;
  ev_interface : Z;
  ev_data : Z;
  ev_paddr : Z;
  ev_user_data : Z
}.

(* struct event_queue *)
Record event_queue := {
  q_count : Z;          (* number of events in the queue *)
  q_capacity : Z;       (* capacity of events in the queue *)
  q_head : list Z       (* head of event linked list *)
}.

(* struct dispatcher *)
Record dispatcher := {
  d_link_id : Z;
  d_state : dispatcher_state;
  d_handle : option xlink_handle;
  d_interface : Z;
  d_rxthread : option Z;
  d_txthread : option Z;
  d_queue : event_queue;
  d_buff_queue : event_queue
}.

(* struct xlink_dispatcher *)
Record xlink_dispatcher := {
  dispatchers : list dispatcher;
  dev : Z
}.

(** ** Event queues *)

Definition set_q (q : event_queue) (c : Z) (l : list Z) : event_queue :=
  {| q_count := c; q_capacity := q_capacity q; q_head := l |}.

(* struct xlink_event *event_dequeue_buffer(struct event_queue *queue) *)
Definition event_dequeue_buffer (queue : event_queue) : option Z * event_queue :=
  match q_head queue with
  | event :: rest => (Some event, set_q queue (u32 (q_count queue - 1)) rest)
  | [] => (None, queue)
  end.

(* int event_enqueue_buffer(struct event_queue *queue, struct xlink_event *event) *)
Definition event_enqueue_buffer (queue : event_queue) (event : Z) : Z * event_queue :=
  (0, set_q queue (u32 (q_count queue + 1)) (q_head queue ++ [event])).

(* static struct xlink_event *event_dequeue(struct event_queue *queue) *)
Definition event_dequeue (queue : event_queue) : option Z * event_queue :=
  match q_head queue with
  | event :: rest => (Some event, set_q queue (u32 (q_count queue - 1)) rest)
  | [] => (None, queue)
  end.

(* static int event_enqueue(struct event_queue *queue, struct xlink_event *event)
   (CONFIG_XLINK_LOCAL_HOST) *)
Definition event_enqueue (queue : event_queue) (event : Z) : Z * event_queue :=
  if q_count queue <? u32 (u32 (q_capacity queue / 10) * 7) then
    (0, set_q queue (u32 (q_count queue + 1)) (q_head queue ++ [event]))
  else
    (-1, queue).

(* count == number of events linked on the list *)
Definition queue_inv (q : event_queue) : Prop :=
  q_count q = Z.of_nat (length (q_head q)).

(* the fields hold values of their C type *)
Definition queue_wf (q : event_queue) : Prop :=
  0 <= q_count q < 2 ^ 32 /\ 0 <= q_capacity q < 2 ^ 32.

(** ** Constants and collaborators *)

(* The constants of xlink-defs.h that the dispatcher uses.
   [sizeof_xlink_event_header] is sizeof(struct xlink_event_header),
   [XLINK_EVENT_TYPE_ZERO] the enumerator of value 0 (the receive thread
   passes the literal 0 as an event type), [CONFIG_XLINK_LOCAL_HOST] the
   build option that compiles the passthrough dispatcher in. *)
Class xlink_defs := {
  XLINK_MAX_CONNECTIONS : Z;
  XLINK_EVENT_HEADER_MAGIC : Z;
  XLINK_INVALID_EVENT_ID : Z;
  XLINK_MAX_CONTROL_DATA_PCIE_SIZE : Z;
  XLINK_PACKET_ALIGNMENT : Z;
  XLINK_EVENT_QUEUE_CAPACITY : Z;
  XLINK_EVENT_TYPE_ZERO : xlink_event_type;
  sizeof_xlink_event_header : Z;
  CONFIG_XLINK_LOCAL_HOST : bool
}.

(* what a transport write reads from: &event->header or event->data *)
Inductive xlink_buffer :=
| header_buffer (h : xlink_event_header)
| data_buffer (data : Z).

(* the thread functions handed to kthread_run *)
Inductive thread_fn :=
| xlink_dispatcher_txthread_fn
| xlink_dispatcher_rxthread_fn
| xlink_dispatcher_ipc_passthru_rxthread_fn.

(* the context handed to a thread: &xlinkd->dispatchers[i] or &ipc_disp *)
Inductive thread_context :=
| context_disp (i : Z)
| context_ipc_disp.

(* One entry per call that leaves the dispatcher. *)
Inductive call :=
| call_platform_write (interface sw_device_id : Z) (buf : xlink_buffer)
    (length timeout : Z)
| call_platform_read (interface sw_device_id length timeout : Z)
| call_platform_deallocate (dev buf paddr size alignment : Z)
    (mem : xlink_memory_kind)
| call_multiplexer_rx (event : Z) (ev : xlink_event)
| call_kthread_run (fn : thread_fn) (context : thread_context)
| call_kthread_stop (task : Z)
| call_pr_err_write_header_failed (rc : Z)
| call_pr_err_write_data_failed (rc : Z).

(* The replies of the collaborators.  The first argument is the log of the
   calls made before this one, so a reply may depend on the whole history.
   - xlink_platform_write returns (rc, bytes written);
   - xlink_platform_read returns (rc, bytes read, header buffer afterwards);
   - xlink_multiplexer_rx returns its status;
   - kthread_run returns the task pointer; NULL ([None]) is the one value
     the source takes for a worker that was not created;
   - kthread_stop returns the exit status of the thread. *)
Class collaborators := {
  get_interface_from_sw_device_id : Z -> Z;
  xlink_platform_write :
    list call -> Z -> Z -> xlink_buffer -> Z -> Z -> Z * Z;
  xlink_platform_read :
    list call -> Z -> Z -> xlink_event_header -> Z -> Z ->
    Z * Z * xlink_event_header;
  xlink_multiplexer_rx : list call -> Z -> xlink_event -> Z;
  kthread_run : list call -> thread_fn -> thread_context -> option Z;
  kthread_stop : list call -> Z -> Z
}.

(** ** System state *)

Record sys := {
  xlinkd : option xlink_dispatcher;   (* static struct xlink_dispatcher *xlinkd *)
  ipc_disp : dispatcher;              (* static struct dispatcher ipc_disp *)
  events : gmap Z xlink_event;        (* the event objects in memory *)
  event_id : Z;                       (* static uint32_t id of event_generate_id *)
  error_printed : Z;                  (* static int error_printed of dispatcher_event_send *)
  log : list call
}.

Definition set_xlinkd (x : option xlink_dispatcher) (s : sys) : sys :=
  {| xlinkd := x; ipc_disp := ipc_disp s; events := events s;
     event_id := event_id s; error_printed := error_printed s; log := log s |}.
Definition set_ipc_disp (d : dispatcher) (s : sys) : sys :=
  {| xlinkd := xlinkd s; ipc_disp := d; events := events s;
     event_id := event_id s; error_printed := error_printed s; log := log s |}.
Definition set_events (m : gmap Z xlink_event) (s : sys) : sys :=
  {| xlinkd := xlinkd s; ipc_disp := ipc_disp s; events := m;
     event_id := event_id s; error_printed := error_printed s; log := log s |}.
Definition set_event_id (i : Z) (s : sys) : sys :=
  {| xlinkd := xlinkd s; ipc_disp := ipc_disp s; events := events s;
     event_id := i; error_printed := error_printed s; log := log s |}.
Definition set_error_printed (b : Z) (s : sys) : sys :=
  {| xlinkd := xlinkd s; ipc_disp := ipc_disp s; events := events s;
     event_id := event_id s; error_printed := b; log := log s |}.
Definition set_log (l : list call) (s : sys) : sys :=
  {| xlinkd := xlinkd s; ipc_disp := ipc_disp s; events := events s;
     event_id := event_id s; error_printed := error_printed s; log := l |}.

(* field updates of the structures *)
Definition set_h_id (v : Z) (h : xlink_event_header) : xlink_event_header :=
  {| h_magic := h_magic h; h_id := v; h_type := h_type h; h_chan := h_chan h;
     h_size := h_size h; h_timeout := h_timeout h |}.
Definition set_h_magic (v : Z) (h : xlink_event_header) : xlink_event_header :=
  {| h_magic := v; h_id := h_id h; h_type := h_type h; h_chan := h_chan h;
     h_size := h_size h; h_timeout := h_timeout h |}.
Definition set_h_type (v : xlink_event_type) (h : xlink_event_header) : xlink_event_header :=
  {| h_magic := h_magic h; h_id := h_id h; h_type := v; h_chan := h_chan h;
     h_size := h_size h; h_timeout := h_timeout h |}.
Definition set_h_chan (v : Z) (h : xlink_event_header) : xlink_event_header :=
  {| h_magic := h_magic h; h_id := h_id h; h_type := h_type h; h_chan := v;
     h_size := h_size h; h_timeout := h_timeout h |}.
Definition set_h_size (v : Z) (h : xlink_event_header) : xlink_event_header :=
  {| h_magic := h_magic h; h_id := h_id h; h_type := h_type h; h_chan := h_chan h;
     h_size := v; h_timeout := h_timeout h |}.
Definition set_h_timeout (v : Z) (h : xlink_event_header) : xlink_event_header :=
  {| h_magic := h_magic h; h_id := h_id h; h_type := h_type h; h_chan := h_chan h;
     h_size := h_size h; h_timeout := v |}.

Definition set_ev_header (v : xlink_event_header) (e : xlink_event) : xlink_event :=
  {| ev_header := v; ev_origin := ev_origin e; ev_link_id := ev_link_id e;
     ev_handle := ev_handle e; ev_interface := ev_interface e;
     ev_data := ev_data e; ev_paddr := ev_paddr e; ev_user_data := ev_user_data e |}.
Definition set_ev_origin (v : xlink_event_origin) (e : xlink_event) : xlink_event :=
  {| ev_header := ev_header e; ev_origin := v; ev_link_id := ev_link_id e;
     ev_handle := ev_handle e; ev_interface := ev_interface e;
     ev_data := ev_data e; ev_paddr := ev_paddr e; ev_user_data := ev_user_data e |}.
Definition set_ev_link_id (v : Z) (e : xlink_event) : xlink_event :=
  {| ev_header := ev_header e; ev_origin := ev_origin e; ev_link_id := v;
     ev_handle := ev_handle e; ev_interface := ev_interface e;
     ev_data := ev_data e; ev_paddr := ev_paddr e; ev_user_data := ev_user_data e |}.
Definition set_ev_handle (v : option xlink_handle) (e : xlink_event) : xlink_event :=
  {| ev_header := ev_header e; ev_origin := ev_origin e; ev_link_id := ev_link_id e;
     ev_handle := v; ev_interface := ev_interface e;
     ev_data := ev_data e; ev_paddr := ev_paddr e; ev_user_data := ev_user_data e |}.
Definition set_ev_interface (v : Z) (e : xlink_event) : xlink_event :=
  {| ev_header := ev_header e; ev_origin := ev_origin e; ev_link_id := ev_link_id e;
     ev_handle := ev_handle e; ev_interface := v;
     ev_data := ev_data e; ev_paddr := ev_paddr e; ev_user_data := ev_user_data e |}.
Definition set_ev_user_data (v : Z) (e : xlink_event) : xlink_event :=
  {| ev_header := ev_header e; ev_origin := ev_origin e; ev_link_id := ev_link_id e;
     ev_handle := ev_handle e; ev_interface := ev_interface e;
     ev_data := ev_data e; ev_paddr := ev_paddr e; ev_user_data := v |}.

Definition set_d_state (v : dispatcher_state) (d : dispatcher) : dispatcher :=
  {| d_link_id := d_link_id d; d_state := v; d_handle := d_handle d;
     d_interface := d_interface d; d_rxthread := d_rxthread d;
     d_txthread := d_txthread d; d_queue := d_queue d;
     d_buff_queue := d_buff_queue d |}.
Definition set_d_link_id (v : Z) (d : dispatcher) : dispatcher :=
  {| d_link_id := v; d_state := d_state d; d_handle := d_handle d;
     d_interface := d_interface d; d_rxthread := d_rxthread d;
     d_txthread := d_txthread d; d_queue := d_queue d;
     d_buff_queue := d_buff_queue d |}.
Definition set_d_handle (v : option xlink_handle) (d : dispatcher) : dispatcher :=
  {| d_link_id := d_link_id d; d_state := d_state d; d_handle := v;
     d_interface := d_interface d; d_rxthread := d_rxthread d;
     d_txthread := d_txthread d; d_queue := d_queue d;
     d_buff_queue := d_buff_queue d |}.
Definition set_d_interface (v : Z) (d : dispatcher) : dispatcher :=
  {| d_link_id := d_link_id d; d_state := d_state d; d_handle := d_handle d;
     d_interface := v; d_rxthread := d_rxthread d;
     d_txthread := d_txthread d; d_queue := d_queue d;
     d_buff_queue := d_buff_queue d |}.
Definition set_d_rxthread (v : option Z) (d : dispatcher) : dispatcher :=
  {| d_link_id := d_link_id d; d_state := d_state d; d_handle := d_handle d;
     d_interface := d_interface d; d_rxthread := v;
     d_txthread := d_txthread d; d_queue := d_queue d;
     d_buff_queue := d_buff_queue d |}.
Definition set_d_txthread (v : option Z) (d : dispatcher) : dispatcher :=
  {| d_link_id := d_link_id d; d_state := d_state d; d_handle := d_handle d;
     d_interface := d_interface d; d_rxthread := d_rxthread d;
     d_txthread := v; d_queue := d_queue d;
     d_buff_queue := d_buff_queue d |}.
Definition set_d_buff_queue (v : event_queue) (d : dispatcher) : dispatcher :=
  {| d_link_id := d_link_id d; d_state := d_state d; d_handle := d_handle d;
     d_interface := d_interface d; d_rxthread := d_rxthread d;
     d_txthread := d_txthread d; d_queue := d_queue d;
     d_buff_queue := v |}.

(** ** The monad of the dispatcher: state, with faults *)

Definition M (A : Type) : Type := sys -> option (A * sys).

#[global] Instance M_ret : MRet M := fun A a s => Some (a, s).
#[global] Instance M_bind : MBind M := fun A B f m s =>
  match m s with
  | Some (a, s') => f a s'
  | None => None
  end.

Definition fault {A} : M A := fun _ => None.
(* a wait that nothing ever answers: the call does not return *)
Definition blocked {A} : M A := fun _ => None.
Definition get_sys : M sys := fun s => Some (s, s).
Definition modify_sys (f : sys -> sys) : M unit := fun s => Some (tt, f s).

(* *p for a pointer that may be NULL *)
Definition deref {A} (p : option A) : M A :=
  match p with
  | Some a => mret a
  | None => fault
  end.

(* reading and writing an event through its address *)
Definition load_event (event : Z) : M xlink_event :=
  s ← get_sys; deref (events s !! event).
Definition modify_event (event : Z) (f : xlink_event -> xlink_event) : M unit :=
  ev ← load_event event;
  modify_sys (fun s => set_events (<[event := f ev]> (events s)) s).

(* reading and writing xlinkd->dispatchers[i] *)
Definition load_disp (i : Z) : M dispatcher :=
  s ← get_sys; x ← deref (xlinkd s); deref (dispatchers x !! Z.to_nat i).
Definition modify_disp (i : Z) (f : dispatcher -> dispatcher) : M unit :=
  d ← load_disp i;
  modify_sys (fun s =>
    set_xlinkd
      ((fun x => {| dispatchers := <[Z.to_nat i := f d]> (dispatchers x);
                    dev := dev x |}) <$> xlinkd s) s).

(* appending a call to the log *)
Definition emit (c : call) : M unit :=
  modify_sys (fun s => set_log (log s ++ [c]) s).

(** ** The dispatcher *)

Definition DISPATCHER_RX_TIMEOUT_MSEC : Z := 0.

(* (int)x for a value x of an unsigned type *)
Definition int_cast (z : Z) : Z := (z + 2 ^ 31) mod 2 ^ 32 - 2 ^ 31.

Section dispatcher.
Context `{Defs : xlink_defs} `{Ext : collaborators}.

(* static struct dispatcher *get_dispatcher_by_id(u32 id)
   The pointer &xlinkd->dispatchers[id] is the index id. *)
Definition get_dispatcher_by_id (id : Z) : M (option Z) :=
  s ← get_sys;
  match xlinkd s with
  | None => mret None
  | Some _ =>
      if bool_decide (id >= XLINK_MAX_CONNECTIONS) then mret None
      else mret (Some id)
  end.

(* struct xlink_event *alloc_event(uint32_t link_id) *)
Definition alloc_event (link_id : Z) : M (option Z) :=
  disp ← get_dispatcher_by_id link_id;
  match disp with
  | None => mret None
  | Some disp =>
      d ← load_disp disp;
      let '(new_event, q) := event_dequeue_buffer (d_buff_queue d) in
      modify_disp disp (set_d_buff_queue q);;
      match new_event with
      | None => mret None
      | Some new_event => mret (Some new_event)
      end
  end.

(* void free_event(struct xlink_event *event) *)
Definition free_event (event : Z) : M unit :=
  ev ← load_event event;
  disp ← get_dispatcher_by_id (ev_link_id ev);
  match disp with
  | None => mret tt
  | Some disp =>
      d ← load_disp disp;
      let '(_, q) := event_enqueue_buffer (d_buff_queue d) event in
      modify_disp disp (set_d_buff_queue q)
  end.

(* struct xlink_event *xlink_create_event(uint32_t link_id,
     enum xlink_event_type type, struct xlink_handle *handle,
     uint16_t chan, uint32_t size, uint32_t timeout) *)
Definition xlink_create_event (link_id : Z) (type : xlink_event_type)
    (handle : option xlink_handle) (chan size timeout : Z) : M (option Z) :=
  new_event ← alloc_event link_id;
  match new_event with
  | None => mret None
  | Some new_event =>
      modify_event new_event (set_ev_link_id link_id);;
      modify_event new_event (set_ev_handle handle);;
      h ← deref handle;
      modify_event new_event
        (set_ev_interface (get_interface_from_sw_device_id (sw_device_id h)));;
      modify_event new_event (set_ev_user_data 0);;
      modify_event new_event
        (fun e => set_ev_header (set_h_magic XLINK_EVENT_HEADER_MAGIC (ev_header e)) e);;
      modify_event new_event
        (fun e => set_ev_header (set_h_id XLINK_INVALID_EVENT_ID (ev_header e)) e);;
      modify_event new_event
        (fun e => set_ev_header (set_h_type type (ev_header e)) e);;
      modify_event new_event
        (fun e => set_ev_header (set_h_chan chan (ev_header e)) e);;
      modify_event new_event
        (fun e => set_ev_header (set_h_size size (ev_header e)) e);;
      modify_event new_event
        (fun e => set_ev_header (set_h_timeout timeout (ev_header e)) e);;
      mret (Some new_event)
  end.

(* void xlink_destroy_event(struct xlink_event *event) *)
Definition xlink_destroy_event (event : Z) : M unit :=
  free_event event.

(* static uint32_t event_generate_id(void) *)
Definition event_generate_id : M Z :=
  s ← get_sys;
  modify_sys (set_event_id (u32 (event_id s + 1)));;
  mret (event_id s).

(* static int is_valid_event_header(struct xlink_event *event) *)
Definition is_valid_event_header (event : Z) : M Z :=
  ev ← load_event event;
  if bool_decide (h_magic (ev_header ev) ≠ XLINK_EVENT_HEADER_MAGIC) then mret 0
  else mret 1.

(* a call of xlink_platform_write(interface, sw_device_id, buf, &length,
   timeout, NULL): the status and the length written back *)
Definition platform_write (interface dev : Z) (buf : xlink_buffer)
    (length timeout : Z) : M (Z * Z) :=
  s ← get_sys;
  emit (call_platform_write interface dev buf length timeout);;
  mret (xlink_platform_write (log s) interface dev buf length timeout).

(* a call of xlink_platform_deallocate(xlinkd->dev, ...) *)
Definition platform_deallocate (buf paddr size alignment : Z)
    (mem : xlink_memory_kind) : M unit :=
  s ← get_sys;
  x ← deref (xlinkd s);
  emit (call_platform_deallocate (dev x) buf paddr size alignment mem).

(* static int dispatcher_event_send(struct xlink_event *event) *)
Definition dispatcher_event_send (event : Z) : M Z :=
  ev ← load_event event;
  h ← deref (ev_handle ev);
  let event_header_size :=
    size_t (sizeof_xlink_event_header - XLINK_MAX_CONTROL_DATA_PCIE_SIZE) in
  let event_header_size :=
    if bool_decide (h_type (ev_header ev) = XLINK_WRITE_CONTROL_REQ)
    then size_t (event_header_size + h_size (ev_header ev))
    else event_header_size in
  let transfer_size := event_header_size in
  '(rc, event_header_size) ←
    platform_write (ev_interface ev) (sw_device_id h)
      (header_buffer (ev_header ev)) event_header_size
      (h_timeout (ev_header ev));
  if bool_decide (rc ≠ 0) || bool_decide (event_header_size ≠ transfer_size)
  then
    s ← get_sys;
    (if bool_decide (error_printed s = 0)
     then emit (call_pr_err_write_header_failed rc) else mret tt);;
    modify_sys (set_error_printed 1);;
    mret rc
  else if bool_decide (h_type (ev_header ev) = XLINK_WRITE_REQ)
       || bool_decide (h_type (ev_header ev) = XLINK_WRITE_VOLATILE_REQ)
       || bool_decide (h_type (ev_header ev) = XLINK_PASSTHRU_VOLATILE_WRITE_REQ)
       || bool_decide (h_type (ev_header ev) = XLINK_PASSTHRU_WRITE_REQ)
  then
    modify_sys (set_error_printed 0);;
    '(rc, size) ←
      platform_write (ev_interface ev) (sw_device_id h)
        (data_buffer (ev_data ev)) (h_size (ev_header ev))
        (h_timeout (ev_header ev));
    (* the transport writes the transferred length back to event->header.size *)
    modify_event event (fun e => set_ev_header (set_h_size size (ev_header e)) e);;
    (if bool_decide (rc ≠ 0)
     then emit (call_pr_err_write_data_failed rc) else mret tt);;
    ev ← load_event event;
    (if bool_decide (ev_user_data ev = 1) then
       if bool_decide (ev_paddr ev ≠ 0) then
         platform_deallocate (ev_data ev) (ev_paddr ev)
           (h_size (ev_header ev)) XLINK_PACKET_ALIGNMENT XLINK_CMA_MEMORY
       else
         platform_deallocate (ev_data ev) (ev_paddr ev)
           (h_size (ev_header ev)) XLINK_PACKET_ALIGNMENT XLINK_NORMAL_MEMORY
     else mret tt);;
    mret rc
  else mret rc.

(* the outcome of one turn of the loop of a worker *)
Inductive loop_step :=
| loop_continue (event : Z)    (* next turn, with this current event *)
| loop_return (rc : Z).        (* the thread function returns rc *)

(* static int xlink_dispatcher_rxthread(void *context): one turn of
   while (!kthread_should_stop()) { ... }, for the dispatcher [disp]
   with the current event [event]. *)
Definition xlink_dispatcher_rxthread_body (disp event : Z) : M loop_step :=
  d ← load_disp disp;
  let size :=
    size_t (sizeof_xlink_event_header - XLINK_MAX_CONTROL_DATA_PCIE_SIZE) in
  h ← deref (d_handle d);
  ev ← load_event event;
  s ← get_sys;
  emit (call_platform_read (d_interface d) (sw_device_id h) size
          DISPATCHER_RX_TIMEOUT_MSEC);;
  let '(rc, size, header) :=
    xlink_platform_read (log s) (d_interface d) (sw_device_id h)
      (ev_header ev) size DISPATCHER_RX_TIMEOUT_MSEC in
  modify_event event (set_ev_header header);;
  if bool_decide (rc ≠ 0)
     || bool_decide (size ≠
          size_t (int_cast (size_t (sizeof_xlink_event_header
                                    - XLINK_MAX_CONTROL_DATA_PCIE_SIZE))))
  then mret (loop_continue event)
  else
    valid ← is_valid_event_header event;
    if bool_decide (valid ≠ 0) then
      modify_event event (set_ev_link_id (d_link_id d));;
      ev ← load_event event;
      _ ← deref (ev_handle ev);          (* trace_xlink_event_receive *)
      s ← get_sys;
      emit (call_multiplexer_rx event ev);;
      let rc := xlink_multiplexer_rx (log s) event ev in
      if bool_decide (rc = 0) then
        new_event ← xlink_create_event (d_link_id d) XLINK_EVENT_TYPE_ZERO
                      (d_handle d) 0 0 0;
        match new_event with
        | None => mret (loop_return (-1))
        | Some new_event => mret (loop_continue new_event)
        end
      else mret (loop_continue event)
    else mret (loop_continue event).

(* The loop of xlink_dispatcher_rxthread.  kthread_should_stop() is
   answered by the caller of kthread_stop, outside the dispatcher: [turns]
   is the number of turns taken before it answers true, after which the
   thread completes rx_done and exits with 0. *)
Fixpoint xlink_dispatcher_rxthread_loop (turns : nat) (disp event : Z) : M Z :=
  match turns with
  | O => mret 0
  | S turns =>
      step ← xlink_dispatcher_rxthread_body disp event;
      match step with
      | loop_continue event => xlink_dispatcher_rxthread_loop turns disp event
      | loop_return rc => mret rc
      end
  end.

(* static int xlink_dispatcher_rxthread(void *context) *)
Definition xlink_dispatcher_rxthread (turns : nat) (disp : Z) : M Z :=
  d ← load_disp disp;
  event ← xlink_create_event (d_link_id d) XLINK_EVENT_TYPE_ZERO
            (d_handle d) 0 0 0;
  match event with
  | None => mret (-1)
  | Some event => xlink_dispatcher_rxthread_loop turns disp event
  end.

(* IS_ERR(ptr) of linux/err.h, for a 64-bit pointer: the last 4095
   addresses encode an errno.  kthread_run hands back such a pointer, not
   NULL, for a worker it could not create. *)
Definition IS_ERR (ptr : Z) : bool := bool_decide (2 ^ 64 - 4095 <= ptr).

(* kthread_run(fn, context, ...) *)
Definition do_kthread_run (fn : thread_fn) (context : thread_context)
    : M (option Z) :=
  s ← get_sys;
  emit (call_kthread_run fn context);;
  mret (kthread_run (log s) fn context).

(* kthread_stop(task) *)
Definition do_kthread_stop (task : option Z) : M Z :=
  t ← deref task;
  s ← get_sys;
  emit (call_kthread_stop t);;
  mret (kthread_stop (log s) t).

(* wait_for_completion(&disp->tx_done) and (&ipc_disp.rx_done) in
   xlink_dispatcher_start.  The TX worker and the passthrough worker signal
   on entry (lines 346 and 386), before they touch any state.  An error
   pointer stands for no worker: nothing signals, the wait never ends. *)
Definition wait_for_entry (thread : Z) : M unit :=
  if IS_ERR thread then blocked else mret tt.

(* wait_for_completion(&disp->rx_done) in xlink_dispatcher_start.  The RX
   worker signals once it holds its first event (lines 300-305); with an
   empty pool it returns -1 without signalling and the wait never ends.  The
   state is the one at the signal: what the worker does from there on is
   xlink_dispatcher_rxthread_loop. *)
Definition wait_for_rxthread (thread : Z) (disp : Z) : M unit :=
  if IS_ERR thread then blocked
  else
    d ← load_disp disp;
    event ← xlink_create_event (d_link_id d) XLINK_EVENT_TYPE_ZERO
              (d_handle d) 0 0 0;
    match event with
    | None => blocked
    | Some _ => mret tt
    end.

(* the labels of xlink_dispatcher_start; [disp] is NULL when the id selects
   no dispatcher *)
Definition start_r_error (disp : option Z) : M xlink_error :=
  _ ← deref disp;                        (* mutex_destroy(&disp->disp_mutex) *)
  mret X_LINK_ERROR.
Definition start_r_txthread (disp : Z) : M xlink_error :=
  modify_disp disp (set_d_state XLINK_DISPATCHER_STOPPED);;
  start_r_error (Some disp).
Definition start_r_rxthread (disp : Z) : M xlink_error :=
  d ← load_disp disp;
  do_kthread_stop (d_txthread d);;
  start_r_txthread disp.

(* enum xlink_error xlink_dispatcher_start(int id, struct xlink_handle *handle) *)
Definition xlink_dispatcher_start (id : Z) (handle : option xlink_handle)
    : M xlink_error :=
  s ← get_sys;
  _ ← deref (xlinkd s);                  (* mutex_lock(&xlinkd->lock) *)
  disp ← get_dispatcher_by_id (u32 id);
  match disp with
  | None => start_r_error None
  | Some disp =>
    d ← load_disp disp;
    if bool_decide (d_state d = XLINK_DISPATCHER_RUNNING)
       || bool_decide (d_state d = XLINK_DISPATCHER_ERROR)
    then start_r_error (Some disp)
    else
      modify_disp disp (set_d_handle handle);;
      h ← deref handle;
      modify_disp disp
        (set_d_interface (get_interface_from_sw_device_id (sw_device_id h)));;
      txthread ← do_kthread_run xlink_dispatcher_txthread_fn (context_disp disp);
      modify_disp disp (set_d_txthread txthread);;
      match txthread with
      | None => start_r_txthread disp
      | Some t =>
        wait_for_entry t;;
        modify_disp disp (set_d_state XLINK_DISPATCHER_RUNNING);;
        rxthread ← do_kthread_run xlink_dispatcher_rxthread_fn (context_disp disp);
        modify_disp disp (set_d_rxthread rxthread);;
        match rxthread with
        | None => start_r_rxthread disp
        | Some t' =>
          wait_for_rxthread t' disp;;
          if CONFIG_XLINK_LOCAL_HOST then
            s ← get_sys;
            if bool_decide (d_state (ipc_disp s) ≠ XLINK_DISPATCHER_RUNNING) then
              d ← load_disp disp;
              modify_sys (fun s => set_ipc_disp (set_d_link_id (d_link_id d) (ipc_disp s)) s);;
              ipcthread ← do_kthread_run xlink_dispatcher_ipc_passthru_rxthread_fn
                            context_ipc_disp;
              modify_sys (fun s => set_ipc_disp (set_d_rxthread ipcthread (ipc_disp s)) s);;
              match ipcthread with
              | None => start_r_rxthread disp
              | Some ti =>
                modify_sys (fun s =>
                  set_ipc_disp (set_d_state XLINK_DISPATCHER_RUNNING (ipc_disp s)) s);;
                wait_for_entry ti;;
                mret X_LINK_SUCCESS
              end
            else mret X_LINK_SUCCESS
          else mret X_LINK_SUCCESS
        end
      end
  end.

(* enum xlink_error xlink_dispatcher_event_add(enum xlink_event_origin origin,
     struct xlink_event *event) *)
Definition xlink_dispatcher_event_add (origin : xlink_event_origin)
    (event : Z) : M xlink_error :=
  ev ← load_event event;
  disp ← get_dispatcher_by_id (ev_link_id ev);
  match disp with
  | None => mret X_LINK_ERROR
  | Some disp =>
    d ← load_disp disp;
    if bool_decide (d_state d ≠ XLINK_DISPATCHER_RUNNING) then mret X_LINK_ERROR
    else
      (if bool_decide (origin = EVENT_TX) then
         id ← event_generate_id;
         modify_event event (fun e => set_ev_header (set_h_id id (ev_header e)) e)
       else mret tt);;
      modify_event event (set_ev_origin origin);;
      dispatcher_event_send event;;
      xlink_destroy_event event;;
      mret X_LINK_SUCCESS
  end.

End dispatcher.

(** ** Observations on states and logs *)

(* xlinkd->dispatchers[i] = d *)
Definition set_dispatcher (i : Z) (d : dispatcher) (x : xlink_dispatcher)
    : xlink_dispatcher :=
  {| dispatchers := <[Z.to_nat i := d]> (dispatchers x); dev := dev x |}.

(* the pointer of a worker that exists: neither NULL nor an error pointer *)
Definition worker (thread : option Z) : Prop :=
  exists t, thread = Some t /\ IS_ERR t = false.

(* NULL, or the pointer of a worker that exists *)
Definition not_error (thread : option Z) : Prop :=
  forall t, thread = Some t -> IS_ERR t = false.

Section observations.
Context `{Defs : xlink_defs} `{Ext : collaborators}.

(* sizeof(event->header) - XLINK_MAX_CONTROL_DATA_PCIE_SIZE, a size_t *)
Definition event_header_size : Z :=
  size_t (sizeof_xlink_event_header - XLINK_MAX_CONTROL_DATA_PCIE_SIZE).

(* the length of the header transfer of dispatcher_event_send *)
Definition header_transfer_size (h : xlink_event_header) : Z :=
  if bool_decide (h_type h = XLINK_WRITE_CONTROL_REQ)
  then size_t (event_header_size + h_size h)
  else event_header_size.

(* the four write variants *)
Definition write_variant (t : xlink_event_type) : bool :=
  bool_decide (t = XLINK_WRITE_REQ)
  || bool_decide (t = XLINK_WRITE_VOLATILE_REQ)
  || bool_decide (t = XLINK_PASSTHRU_VOLATILE_WRITE_REQ)
  || bool_decide (t = XLINK_PASSTHRU_WRITE_REQ).

(* the dispatcher selected by [id] is missing or is not RUNNING *)
Definition not_running (s : sys) (id : Z) : Prop :=
  match xlinkd s with
  | None => True
  | Some x =>
      XLINK_MAX_CONNECTIONS <= id
      \/ exists d, dispatchers x !! Z.to_nat id = Some d
                   /\ d_state d <> XLINK_DISPATCHER_RUNNING
  end.

(* the event as xlink_create_event leaves it *)
Definition created_event (ev0 : xlink_event) (link_id : Z)
    (type : xlink_event_type) (h : xlink_handle) (chan size timeout : Z)
    : xlink_event :=
  {| ev_header := {| h_magic := XLINK_EVENT_HEADER_MAGIC;
                     h_id := XLINK_INVALID_EVENT_ID;
                     h_type := type; h_chan := chan; h_size := size;
                     h_timeout := timeout |};
     ev_origin := ev_origin ev0;
     ev_link_id := link_id;
     ev_handle := Some h;
     ev_interface := get_interface_from_sw_device_id (sw_device_id h);
     ev_data := ev_data ev0;
     ev_paddr := ev_paddr ev0;
     ev_user_data := 0 |}.

(* the passthrough thread is not needed, is already there, or starts *)
Definition ipc_thread_ready (s : sys) (l : list call) : Prop :=
  CONFIG_XLINK_LOCAL_HOST = false
  \/ d_state (ipc_disp s) = XLINK_DISPATCHER_RUNNING
  \/ worker (kthread_run l xlink_dispatcher_ipc_passthru_rxthread_fn
               context_ipc_disp).

End observations.

Definition is_platform_write (c : call) : bool :=
  match c with call_platform_write _ _ _ _ _ => true | _ => false end.
Definition is_platform_deallocate (c : call) : bool :=
  match c with call_platform_deallocate _ _ _ _ _ _ => true | _ => false end.
Definition is_multiplexer_rx (c : call) : bool :=
  match c with call_multiplexer_rx _ _ => true | _ => false end.

(* the transport writes, the releases of transport memory and the
   hand-offs to the multiplexer recorded in a log *)
Definition transport_writes (l : list call) : list call :=
  List.filter is_platform_write l.
Definition deallocations (l : list call) : list call :=
  List.filter is_platform_deallocate l.
Definition deliveries (l : list call) : list call :=
  List.filter is_multiplexer_rx l.

(** ** A sample configuration

    Concrete constants, mock collaborators and small system states, on
    which the model is run. The values of the constants are samples. *)

Definition sample_defs : xlink_defs := {|
  XLINK_MAX_CONNECTIONS := 2;
  XLINK_EVENT_HEADER_MAGIC := 0x5844;
  XLINK_INVALID_EVENT_ID := 0xDEADBEEF;
  XLINK_MAX_CONTROL_DATA_PCIE_SIZE := 100;
  XLINK_PACKET_ALIGNMENT := 64;
  XLINK_EVENT_QUEUE_CAPACITY := 10000;
  XLINK_EVENT_TYPE_ZERO := XLINK_WRITE_REQ;
  sizeof_xlink_event_header := 128;
  CONFIG_XLINK_LOCAL_HOST := false
|}.

Definition sample_handle : xlink_handle := {| sw_device_id := 9 |}.

(* the header every mock transport delivers: magic=M, id=7, type=WRITE,
   channel=3, size=4, timeout=500 *)
Definition sample_header : xlink_event_header :=
  {| h_magic := 0x5844; h_id := 7; h_type := XLINK_WRITE_REQ; h_chan := 3;
     h_size := 4; h_timeout := 500 |}.

(* a transport on which every transfer completes in full, a multiplexer
   that takes every event, and threads that always start *)
Definition mock_ok : collaborators := {|
  get_interface_from_sw_device_id := fun id => id mod 4;
  xlink_platform_write := fun _ _ _ _ length _ => (0, length);
  xlink_platform_read := fun _ _ _ _ length _ => (0, length, sample_header);
  xlink_multiplexer_rx := fun _ _ _ => 0;
  kthread_run := fun l _ _ => Some (Z.of_nat (length l) + 1);
  kthread_stop := fun _ _ => 0
|}.

Definition sample_event (link : Z) : xlink_event :=
  {| ev_header := {| h_magic := 0; h_id := 0; h_type := XLINK_EVENT_TYPE_OTHER 0;
                     h_chan := 0; h_size := 0; h_timeout := 0 |};
     ev_origin := EVENT_TX; ev_link_id := link; ev_handle := None;
     ev_interface := 0; ev_data := 0; ev_paddr := 0; ev_user_data := 5 |}.

Definition sample_dispatcher (link : Z) (st : dispatcher_state) (pool : list Z)
    : dispatcher :=
  {| d_link_id := link; d_state := st; d_handle := Some sample_handle;
     d_interface := 1; d_rxthread := None; d_txthread := None;
     d_queue := {| q_count := 0; q_capacity := 10000; q_head := [] |};
     d_buff_queue := {| q_count := Z.of_nat (length pool); q_capacity := 1024;
                        q_head := pool |} |}.

(* two links, the first in state [st], with two pooled events each *)
Definition sample_sys (st : dispatcher_state) : sys :=
  {| xlinkd := Some {| dispatchers := [sample_dispatcher 0 st [4096; 4097];
                                       sample_dispatcher 1 XLINK_DISPATCHER_INIT [8192; 8193]];
                       dev := 77 |};
     ipc_disp := sample_dispatcher 0 XLINK_DISPATCHER_INIT [];
     events := list_to_map [(4096, sample_event 0); (4097, sample_event 0);
                            (8192, sample_event 1); (8193, sample_event 1)];
     event_id := 0xa; error_printed := 0; log := [] |}.

(* a transport whose payload writes fail with -5 after the header went through *)
Definition mock_data_write_fails : collaborators := {|
  get_interface_from_sw_device_id := fun id => id mod 4;
  xlink_platform_write := fun _ _ _ buf length _ =>
    match buf with
    | header_buffer _ => (0, length)
    | data_buffer _ => (-5, 0)
    end;
  xlink_platform_read := fun _ _ _ _ length _ => (0, length, sample_header);
  xlink_multiplexer_rx := fun _ _ _ => 0;
  kthread_run := fun l _ _ => Some (Z.of_nat (length l) + 1);
  kthread_stop := fun _ _ => 0
|}.

(* a kthread API whose very first kthread_run returns NULL *)
Definition mock_first_spawn_fails : collaborators := {|
  get_interface_from_sw_device_id := fun id => id mod 4;
  xlink_platform_write := fun _ _ _ _ length _ => (0, length);
  xlink_platform_read := fun _ _ _ _ length _ => (0, length, sample_header);
  xlink_multiplexer_rx := fun _ _ _ => 0;
  kthread_run := fun l _ _ =>
    match l with
    | [] => None
    | _ => Some (Z.of_nat (length l) + 1)
    end;
  kthread_stop := fun _ _ => 0
|}.

(* an event of link 0 ready to be submitted: 4 bytes of payload at 0x2000 *)
Definition tx_event (type : xlink_event_type) (user_data paddr : Z)
    : xlink_event :=
  {| ev_header := {| h_magic := 0x5844; h_id := 0xDEADBEEF; h_type := type;
                     h_chan := 3; h_size := 4; h_timeout := 500 |};
     ev_origin := EVENT_TX; ev_link_id := 0; ev_handle := Some sample_handle;
     ev_interface := 1; ev_data := 0x2000; ev_paddr := paddr;
     ev_user_data := user_data |}.

(* link 0 is RUNNING and the event at 12288 is in flight *)
Definition tx_sys (type : xlink_event_type) (user_data paddr : Z) : sys :=
  set_events (<[12288 := tx_event type user_data paddr]>
                (events (sample_sys XLINK_DISPATCHER_RUNNING)))
    (sample_sys XLINK_DISPATCHER_RUNNING).

(* the statuses of successive event_enqueue calls, and the queue at the end *)
Fixpoint event_enqueue_all (l : list Z) (q : event_queue)
    : list Z * event_queue :=
  match l with
  | [] => ([], q)
  | e :: l' =>
      let '(rc, q') := event_enqueue q e in
      let '(rcs, q'') := event_enqueue_all l' q' in
      (rc :: rcs, q'')
  end.

(** ** The rest of the dispatcher

    The functions below complete the life cycle: pool set-up and
    tear-down, initialisation, stop, destroy, the queued transmit worker and
    the admission to the passthrough queue.  Signals (send_sig) and the
    semaphore operation up() are left out; the status of down_interruptible
    is an argument of the code that reads it. *)

(* What kzalloc does: the address it picks for a new struct xlink_event,
   given the events in memory (NULL, [None], when it fails); whether the
   allocation of struct xlink_dispatcher succeeds; and, for the zero-filled
   memory it returns, the enumerator of value 0 of enum xlink_event_origin. *)
Class allocator := {
  kzalloc_event : gmap Z xlink_event -> option Z;
  kzalloc_xlink_dispatcher : bool;
  EVENT_ORIGIN_ZERO : xlink_event_origin
}.

Definition set_d_queue (v : event_queue) (d : dispatcher) : dispatcher :=
  {| d_link_id := d_link_id d; d_state := d_state d; d_handle := d_handle d;
     d_interface := d_interface d; d_rxthread := d_rxthread d;
     d_txthread := d_txthread d; d_queue := v;
     d_buff_queue := d_buff_queue d |}.

(* kfree(p); kfree(NULL) does nothing *)
Definition kfree (p : option Z) (mem : gmap Z xlink_event) : gmap Z xlink_event :=
  match p with
  | Some a => delete a mem
  | None => mem
  end.

(* void deinit_buffers(struct event_queue *queue): the loop
   for (j = 0; j < queue->capacity; j++), with [n] turns left, on the queue
   and the events in memory *)
Fixpoint deinit_buffers_loop (n : nat) (queue : event_queue)
    (mem : gmap Z xlink_event) : event_queue * gmap Z xlink_event :=
  match n with
  | O => (queue, mem)
  | S n =>
      let '(new_event, queue) := event_dequeue_buffer queue in
      deinit_buffers_loop n queue (kfree new_event mem)
  end.

Definition deinit_buffers (queue : event_queue) (mem : gmap Z xlink_event)
    : event_queue * gmap Z xlink_event :=
  deinit_buffers_loop (Z.to_nat (q_capacity queue)) queue mem.

Section dispatcher_rest.
Context `{Defs : xlink_defs} `{Ext : collaborators} `{Alloc : allocator}.

(* the contents of kzalloc(sizeof(struct xlink_event), GFP_KERNEL) *)
Definition zeroed_event : xlink_event :=
  {| ev_header := {| h_magic := 0; h_id := 0; h_type := XLINK_EVENT_TYPE_ZERO;
                     h_chan := 0; h_size := 0; h_timeout := 0 |};
     ev_origin := EVENT_ORIGIN_ZERO; ev_link_id := 0; ev_handle := None;
     ev_interface := 0; ev_data := 0; ev_paddr := 0; ev_user_data := 0 |}.

(* int init_buffers(struct event_queue *queue): the loop, with [n] turns
   left and the current value of rc *)
Fixpoint init_buffers_loop (n : nat) (rc : Z) (queue : event_queue)
    (mem : gmap Z xlink_event) : Z * event_queue * gmap Z xlink_event :=
  match n with
  | O => (rc, queue, mem)
  | S n =>
      match kzalloc_event mem with
      | None => (rc, queue, mem)
      | Some new_event =>
          let mem := <[new_event := zeroed_event]> mem in
          let '(rc, queue) := event_enqueue_buffer queue new_event in
          if bool_decide (rc = -1) then (rc, queue, mem)
          else init_buffers_loop n rc queue mem
      end
  end.

Definition init_buffers (queue : event_queue) (mem : gmap Z xlink_event)
    : Z * event_queue * gmap Z xlink_event :=
  init_buffers_loop (Z.to_nat (q_capacity queue)) (-1) queue mem.

(* enum xlink_error xlink_dispatcher_init(void *dev): the body of the loop
   over the links, on the zero-filled slot i *)
Definition init_dispatcher (i : Z) (mem : gmap Z xlink_event)
    : dispatcher * gmap Z xlink_event :=
  let '(_, buff_queue, mem) :=
    init_buffers {| q_count := 0; q_capacity := 1024; q_head := [] |} mem in
  ({| d_link_id := i;
      d_state := XLINK_DISPATCHER_INIT;
      d_handle := None; d_interface := 0;
      d_rxthread := None; d_txthread := None;
      d_queue := {| q_count := 0; q_capacity := XLINK_EVENT_QUEUE_CAPACITY;
                    q_head := [] |};
      d_buff_queue := buff_queue |}, mem).

Fixpoint init_dispatchers (n : nat) (i : Z) (mem : gmap Z xlink_event)
    : list dispatcher * gmap Z xlink_event :=
  match n with
  | O => ([], mem)
  | S n =>
      let '(d, mem) := init_dispatcher i mem in
      let '(ds, mem) := init_dispatchers n (i + 1) mem in
      (d :: ds, mem)
  end.

(* enum xlink_error xlink_dispatcher_init(void *dev); [dev] stands for
   &plat_dev->dev *)
Definition xlink_dispatcher_init (dev : Z) : M xlink_error :=
  if kzalloc_xlink_dispatcher then
    s ← get_sys;
    let '(ds, mem) :=
      init_dispatchers (Z.to_nat XLINK_MAX_CONNECTIONS) 0 (events s) in
    modify_sys (set_xlinkd (Some {| dispatchers := ds; dev := dev |}));;
    modify_sys (set_events mem);;
    (if CONFIG_XLINK_LOCAL_HOST then
       modify_sys (fun s =>
         set_ipc_disp
           (set_d_state XLINK_DISPATCHER_INIT
              (set_d_queue {| q_count := 0;
                              q_capacity := XLINK_EVENT_QUEUE_CAPACITY;
                              q_head := [] |}
                 (set_d_state XLINK_DISPATCHER_INIT (ipc_disp s)))) s)
     else mret tt);;
    mret X_LINK_SUCCESS
  else
    modify_sys (set_xlinkd None);;
    mret X_LINK_ERROR.

(* the labels of xlink_dispatcher_stop *)
Definition stop_r_error : M xlink_error :=
  mret X_LINK_ERROR.
Definition stop_r_thread (disp : Z) : M xlink_error :=
  modify_disp disp (set_d_state XLINK_DISPATCHER_ERROR);;
  stop_r_error.

(* if (thread) { get_task_struct(thread); ...; rc = kthread_stop(thread);
   ... }, from rc == 0; an error pointer is no task to take a reference on *)
Definition stop_thread (thread : option Z) : M Z :=
  match thread with
  | Some t => if IS_ERR t then fault else do_kthread_stop thread
  | None => mret 0
  end.

(* wait_for_completion(&disp->rx_done) and (&disp->tx_done) in
   xlink_dispatcher_stop.  A worker that kthread_stop saw exit with status 0
   left its loop and signalled on its way out (lines 334 and 356).  Where
   there is no worker nothing signals and the wait never ends. *)
Definition wait_for_exit (thread : option Z) : M unit :=
  match thread with
  | Some _ => mret tt
  | None => blocked
  end.

(* enum xlink_error xlink_dispatcher_stop(int id) *)
Definition xlink_dispatcher_stop (id : Z) : M xlink_error :=
  s ← get_sys;
  _ ← deref (xlinkd s);                  (* mutex_lock(&xlinkd->lock) *)
  disp ← get_dispatcher_by_id (u32 id);
  match disp with
  | None => stop_r_error
  | Some disp =>
    d ← load_disp disp;
    if bool_decide (d_state d ≠ XLINK_DISPATCHER_RUNNING) then stop_r_error
    else
      rc ← stop_thread (d_rxthread d);
      if bool_decide (rc ≠ 0) then stop_r_thread disp
      else
        wait_for_exit (d_rxthread d);;
        d ← load_disp disp;
        rc ← stop_thread (d_txthread d);
        if bool_decide (rc ≠ 0) then stop_r_thread disp
        else
          wait_for_exit (d_txthread d);;
          modify_disp disp (set_d_state XLINK_DISPATCHER_STOPPED);;
          mret X_LINK_SUCCESS
  end.

(* enum xlink_error xlink_dispatcher_ipc_passthru_event_add(
     struct xlink_event *event), in both builds *)
Definition xlink_dispatcher_ipc_passthru_event_add (event : Z) : M xlink_error :=
  if CONFIG_XLINK_LOCAL_HOST then
    s ← get_sys;
    if bool_decide (d_state (ipc_disp s) ≠ XLINK_DISPATCHER_RUNNING)
    then mret X_LINK_ERROR
    else
      let '(rc, q) := event_enqueue (d_queue (ipc_disp s)) event in
      modify_sys (fun s => set_ipc_disp (set_d_queue q (ipc_disp s)) s);;
      if bool_decide (rc ≠ 0) then mret X_LINK_ERROR
      else mret X_LINK_SUCCESS
  else mret X_LINK_SUCCESS.

(* static struct xlink_event *dispatcher_event_get(struct dispatcher *disp);
   [down] is the status of down_interruptible(&disp->event_sem) *)
Definition dispatcher_event_get (down : Z) (disp : Z) : M (option Z) :=
  if bool_decide (down = 0) then
    d ← load_disp disp;
    let '(event, q) := event_dequeue (d_queue d) in
    modify_disp disp (set_d_queue q);;
    mret event
  else mret None.

(* static int xlink_dispatcher_txthread(void *context): one turn of the
   loop *)
Definition xlink_dispatcher_txthread_body (down : Z) (disp : Z) : M unit :=
  event ← dispatcher_event_get down disp;
  match event with
  | None => mret tt
  | Some event =>
      dispatcher_event_send event;;
      xlink_destroy_event event
  end.

(* the loop of xlink_dispatcher_txthread: one status of down_interruptible
   per turn taken before kthread_should_stop() answers true *)
Fixpoint xlink_dispatcher_txthread_loop (downs : list Z) (disp : Z) : M Z :=
  match downs with
  | [] => mret 0
  | down :: downs =>
      xlink_dispatcher_txthread_body down disp;;
      xlink_dispatcher_txthread_loop downs disp
  end.

(* deinit_buffers(&xlinkd->dispatchers[i].buff_queue) *)
Definition deinit_dispatcher_buffers (disp : Z) : M unit :=
  d ← load_disp disp;
  s ← get_sys;
  let '(q, mem) := deinit_buffers (d_buff_queue d) (events s) in
  modify_disp disp (set_d_buff_queue q);;
  modify_sys (set_events mem).

(* enum xlink_error xlink_dispatcher_destroy(void): the loop
   while (!list_empty(&disp->queue.head)) { ... }.  Every turn takes one
   event off the queue, so [fuel] turns are enough for a queue of [fuel]
   events; running out of fuel is a fault. *)
Fixpoint destroy_pending_events (fuel : nat) (disp : Z) : M unit :=
  d ← load_disp disp;
  match q_head (d_queue d) with
  | [] => mret tt
  | _ :: _ =>
      match fuel with
      | O => fault
      | S fuel =>
          let '(event, q) := event_dequeue (d_queue d) in
          modify_disp disp (set_d_queue q);;
          match event with
          | Some event =>
              ev ← load_event event;
              (if bool_decide (h_type (ev_header ev) = XLINK_WRITE_REQ)
                  || bool_decide (h_type (ev_header ev) = XLINK_WRITE_VOLATILE_REQ)
               then platform_deallocate (ev_data ev) (ev_paddr ev)
                      (h_size (ev_header ev)) XLINK_PACKET_ALIGNMENT
                      XLINK_NORMAL_MEMORY
               else mret tt);;
              xlink_destroy_event event
          | None => mret tt
          end;;
          destroy_pending_events fuel disp
      end
  end.

(* the body of the loop of xlink_dispatcher_destroy over the links *)
Definition destroy_dispatcher (i : Z) : M unit :=
  disp ← get_dispatcher_by_id i;
  match disp with
  | None => mret tt
  | Some disp =>
      d ← load_disp disp;
      (if bool_decide (d_state d = XLINK_DISPATCHER_RUNNING)
       then xlink_dispatcher_stop i;; mret tt else mret tt);;
      d ← load_disp disp;
      if bool_decide (d_state d = XLINK_DISPATCHER_INIT) then
        deinit_dispatcher_buffers i
      else
        destroy_pending_events (length (q_head (d_queue d))) disp;;
        deinit_dispatcher_buffers i
  end.

Fixpoint destroy_dispatchers (n : nat) (i : Z) : M unit :=
  match n with
  | O => mret tt
  | S n => destroy_dispatcher i;; destroy_dispatchers n (i + 1)
  end.

(* enum xlink_error xlink_dispatcher_destroy(void) *)
Definition xlink_dispatcher_destroy : M xlink_error :=
  destroy_dispatchers (Z.to_nat XLINK_MAX_CONNECTIONS) 0;;
  s ← get_sys;
  _ ← deref (xlinkd s);                  (* mutex_destroy(&xlinkd->lock) *)
  mret X_LINK_SUCCESS.

(* n successive calls of event_generate_id, and the ids they return *)
Fixpoint event_generate_ids (n : nat) : M (list Z) :=
  match n with
  | O => mret []
  | S n =>
      id ← event_generate_id;
      ids ← event_generate_ids n;
      mret (id :: ids)
  end.

End dispatcher_rest.

(* there is no pooled event to hand out for [link_id] *)
Definition pool_unavailable `{Defs : xlink_defs} (s : sys) (link_id : Z) : Prop :=
  match xlinkd s with
  | None => True
  | Some x =>
      XLINK_MAX_CONNECTIONS <= link_id
      \/ exists d, dispatchers x !! Z.to_nat link_id = Some d
                   /\ q_head (d_buff_queue d) = []
  end.

(* the allocator never hands out an address that holds an event *)
Definition allocator_fresh `{Alloc : allocator} : Prop :=
  forall m a, kzalloc_event m = Some a -> m !! a = None.


(* the pool once the events of [new] were queued on it, one by one, and the
   events in memory once each of them was allocated zero-filled *)
Definition pool_with (new : list Z) (queue : event_queue) : event_queue :=
  foldl (fun q a => (event_enqueue_buffer q a).2) queue new.
Definition zero_filled `{Defs : xlink_defs} `{Alloc : allocator}
    (new : list Z) (mem : gmap Z xlink_event) : gmap Z xlink_event :=
  foldl (fun m a => <[a := zeroed_event]> m) mem new.

(* the events on the buffer pools of the dispatchers of a table *)
Definition pooled_events (ds : list dispatcher) : list Z :=
  concat ((fun d => q_head (d_buff_queue d)) <$> ds).

(* a dispatcher as xlink_dispatcher_init leaves it, but for its pool *)
Definition initialised `{Defs : xlink_defs} (i : Z) (d : dispatcher) : Prop :=
  d_link_id d = i
  /\ d_state d = XLINK_DISPATCHER_INIT
  /\ d_handle d = None
  /\ d_rxthread d = None /\ d_txthread d = None
  /\ d_queue d = {| q_count := 0; q_capacity := XLINK_EVENT_QUEUE_CAPACITY;
                    q_head := [] |}
  /\ q_capacity (d_buff_queue d) = 1024.

(* a dispatcher that xlink_dispatcher_destroy has nothing to stop or drain
   for, with a pool that fits its capacity *)
Definition idle (d : dispatcher) : Prop :=
  d_state d <> XLINK_DISPATCHER_RUNNING
  /\ q_head (d_queue d) = []
  /\ queue_inv (d_buff_queue d)
  /\ q_count (d_buff_queue d) <= q_capacity (d_buff_queue d) < 2 ^ 32.

(* the dispatcher with its pool emptied *)
Definition emptied (d : dispatcher) : dispatcher :=
  set_d_buff_queue
    {| q_count := 0; q_capacity := q_capacity (d_buff_queue d); q_head := [] |} d.

(* the call that releases the data buffer of a pending event, for the
   events that xlink_dispatcher_destroy releases one for *)
Definition payload_deallocation `{Defs : xlink_defs} (dev : Z) (ev : xlink_event)
    : list call :=
  if bool_decide (h_type (ev_header ev) = XLINK_WRITE_REQ)
     || bool_decide (h_type (ev_header ev) = XLINK_WRITE_VOLATILE_REQ)
  then [call_platform_deallocate dev (ev_data ev) (ev_paddr ev)
          (h_size (ev_header ev)) XLINK_PACKET_ALIGNMENT XLINK_NORMAL_MEMORY]
  else [].
Definition payload_deallocations `{Defs : xlink_defs} (dev : Z)
    (mem : gmap Z xlink_event) (l : list Z) : list call :=
  flat_map (fun e => match mem !! e with
                     | Some ev => payload_deallocation dev ev
                     | None => []
                     end) l.

(** ** Further sample configurations *)

(* the table of [sample_sys], with a given pool for link 0 *)
Definition sample_table (st : dispatcher_state) (pool : list Z)
    : xlink_dispatcher :=
  {| dispatchers := [sample_dispatcher 0 st pool;
                     sample_dispatcher 1 XLINK_DISPATCHER_INIT [8192; 8193]];
     dev := 77 |}.

(* the state before xlink_dispatcher_init *)
Definition boot_sys : sys :=
  {| xlinkd := None;
     ipc_disp := sample_dispatcher 0 XLINK_DISPATCHER_INIT [];
     events := ∅; event_id := 0; error_printed := 0; log := [] |}.

(* link 0 in state [st], and an event of link 0 at 12288 *)
Definition submit_sys (st : dispatcher_state) : sys :=
  set_events (<[12288 := tx_event XLINK_WRITE_REQ 0 0]> (events (sample_sys st)))
    (sample_sys st).

(* link 0 is RUNNING with its two workers, TX at 1 and RX at 2, and an
   event of link 0 at 12288 *)
Definition working_dispatcher : dispatcher :=
  set_d_rxthread (Some 2)
    (set_d_txthread (Some 1)
       (sample_dispatcher 0 XLINK_DISPATCHER_RUNNING [4096; 4097])).
Definition working_sys : sys :=
  set_xlinkd
    (Some (set_dispatcher 0 working_dispatcher
             (sample_table XLINK_DISPATCHER_RUNNING [4096; 4097])))
    (submit_sys XLINK_DISPATCHER_RUNNING).

(* link 0 has handed out all its events *)
Definition drained_sys : sys :=
  set_xlinkd (Some (sample_table XLINK_DISPATCHER_RUNNING []))
    (sample_sys XLINK_DISPATCHER_RUNNING).

(* link 0 in state [st], with the event at 12288 on its pending queue *)
Definition pending_sys (st : dispatcher_state) : sys :=
  set_xlinkd
    (Some (set_dispatcher 0
             (set_d_queue {| q_count := 1; q_capacity := 10000;
                             q_head := [12288] |}
                (sample_dispatcher 0 st [4096; 4097]))
             (sample_table st [4096; 4097])))
    (submit_sys st).

(* the build with the passthrough dispatcher *)
Definition local_host_defs : xlink_defs := {|
  XLINK_MAX_CONNECTIONS := 2;
  XLINK_EVENT_HEADER_MAGIC := 0x5844;
  XLINK_INVALID_EVENT_ID := 0xDEADBEEF;
  XLINK_MAX_CONTROL_DATA_PCIE_SIZE := 100;
  XLINK_PACKET_ALIGNMENT := 64;
  XLINK_EVENT_QUEUE_CAPACITY := 10000;
  XLINK_EVENT_TYPE_ZERO := XLINK_WRITE_REQ;
  sizeof_xlink_event_header := 128;
  CONFIG_XLINK_LOCAL_HOST := true
|}.

(* a transport on which every write fails with -5 and every read times out
   with -110, leaving the header buffer as it was *)
Definition mock_dead_link : collaborators := {|
  get_interface_from_sw_device_id := fun id => id mod 4;
  xlink_platform_write := fun _ _ _ _ _ _ => (-5, 0);
  xlink_platform_read := fun _ _ _ hdr _ _ => (-110, 0, hdr);
  xlink_multiplexer_rx := fun _ _ _ => 0;
  kthread_run := fun l _ _ => Some (Z.of_nat (length l) + 1);
  kthread_stop := fun _ _ => 0
|}.

(* an RX worker, the task at 2, that exits with -4 *)
Definition mock_rx_worker_failed : collaborators := {|
  get_interface_from_sw_device_id := fun id => id mod 4;
  xlink_platform_write := fun _ _ _ _ length _ => (0, length);
  xlink_platform_read := fun _ _ _ _ length _ => (0, length, sample_header);
  xlink_multiplexer_rx := fun _ _ _ => 0;
  kthread_run := fun l _ _ => Some (Z.of_nat (length l) + 1);
  kthread_stop := fun _ t => if bool_decide (t = 2) then -4 else 0
|}.

(* a kthread API that creates every worker: TX at 1, RX at 2, passthrough
   at 3 *)
Definition mock_workers : collaborators := {|
  get_interface_from_sw_device_id := fun id => id mod 4;
  xlink_platform_write := fun _ _ _ _ length _ => (0, length);
  xlink_platform_read := fun _ _ _ _ length _ => (0, length, sample_header);
  xlink_multiplexer_rx := fun _ _ _ => 0;
  kthread_run := fun _ fn _ =>
    match fn with
    | xlink_dispatcher_txthread_fn => Some 1
    | xlink_dispatcher_rxthread_fn => Some 2
    | xlink_dispatcher_ipc_passthru_rxthread_fn => Some 3
    end;
  kthread_stop := fun _ _ => 0
|}.

(* a kthread API that cannot create the passthrough worker *)
Definition mock_no_passthru_thread : collaborators := {|
  get_interface_from_sw_device_id := fun id => id mod 4;
  xlink_platform_write := fun _ _ _ _ length _ => (0, length);
  xlink_platform_read := fun _ _ _ _ length _ => (0, length, sample_header);
  xlink_multiplexer_rx := fun _ _ _ => 0;
  kthread_run := fun l fn _ =>
    match fn with
    | xlink_dispatcher_ipc_passthru_rxthread_fn => None
    | _ => Some (Z.of_nat (length l) + 1)
    end;
  kthread_stop := fun _ _ => 0
|}.

(* an allocator that always finds an unused address *)
Definition sample_allocator : allocator := {|
  kzalloc_event := fun m => Some (fresh (dom m));
  kzalloc_xlink_dispatcher := true;
  EVENT_ORIGIN_ZERO := EVENT_TX
|}.

(* an allocator with room for the table and for no event *)
Definition no_event_allocator : allocator := {|
  kzalloc_event := fun _ => None;
  kzalloc_xlink_dispatcher := true;
  EVENT_ORIGIN_ZERO := EVENT_TX
|}.

(** * Properties *)

(** ** Event queues *)

Lemma u32_small (z : Z) : 0 <= z < 2 ^ 32 -> u32 z = z.
Proof. intros Hz. unfold u32. apply Z.mod_small. exact Hz. Qed.

Lemma event_dequeue_buffer_eq (q : event_queue) :
  event_dequeue_buffer q = event_dequeue q.
Proof. reflexivity. Qed.

(* Whatever the count, it follows the length of the list modulo 2^32. *)
Lemma event_enqueue_buffer_count_mod (q : event_queue) (e : Z) :
  q_count q = u32 (Z.of_nat (length (q_head q))) ->
  q_count (snd (event_enqueue_buffer q e))
  = u32 (Z.of_nat (length (q_head (snd (event_enqueue_buffer q e))))).
Proof.
  intros Hc. simpl. rewrite length_app. simpl. rewrite Hc. unfold u32.
  rewrite Nat2Z.inj_add. simpl (Z.of_nat 1).
  rewrite Zplus_mod_idemp_l. reflexivity.
Qed.

(* the admission threshold of event_enqueue, for fields of type uint32_t *)
Lemma event_enqueue_threshold (q : event_queue) :
  queue_wf q ->
  u32 (u32 (q_capacity q / 10) * 7) = 7 * (q_capacity q / 10).
Proof.
  intros [_ Hcap].
  assert (0 <= q_capacity q / 10 < 2 ^ 32 / 10 + 1) as Hd.
  { split; [apply Z.div_pos; lia |].
    apply Z.lt_succ_r. apply Z.div_le_mono; lia. }
  change (2 ^ 32 / 10 + 1) with 429496730 in Hd.
  rewrite (u32_small (q_capacity q / 10)) by (change (2 ^ 32) with 4294967296; lia).
  rewrite u32_small by (change (2 ^ 32) with 4294967296; lia).
  lia.
Qed.

Lemma event_enqueue_accept (q : event_queue) (e : Z) :
  queue_wf q -> q_count q < 7 * (q_capacity q / 10) ->
  event_enqueue q e = (0, set_q q (q_count q + 1) (q_head q ++ [e])).
Proof.
  intros Hwf Hlt. unfold event_enqueue.
  rewrite event_enqueue_threshold by exact Hwf.
  destruct (Z.ltb_spec (q_count q) (7 * (q_capacity q / 10))) as [_ | Hge]; [| lia].
  rewrite u32_small; [reflexivity |].
  destruct Hwf as [Hc Hcap].
  assert (q_capacity q / 10 <= 2 ^ 32 / 10) by (apply Z.div_le_mono; lia).
  change (2 ^ 32 / 10) with 429496729 in *. change (2 ^ 32) with 4294967296. lia.
Qed.

Lemma event_enqueue_reject (q : event_queue) (e : Z) :
  queue_wf q -> 7 * (q_capacity q / 10) <= q_count q ->
  event_enqueue q e = (-1, q).
Proof.
  intros Hwf Hge. unfold event_enqueue.
  rewrite event_enqueue_threshold by exact Hwf.
  destruct (Z.ltb_spec (q_count q) (7 * (q_capacity q / 10))); [lia | reflexivity].
Qed.

(** C8: every queue operation keeps count equal to the number of events
    on the list.  event_enqueue_buffer always succeeds (returns 0), puts the
    event at the tail and adds one to count; event_dequeue and
    event_dequeue_buffer on a non-empty queue take the head event off and
    subtract one from count, and on an empty queue return NULL and leave the
    queue as it is; the admission-controlled event_enqueue keeps the
    invariant as well.  The counter is a uint32_t, so the statement is for
    queues whose list can still grow by one without the counter wrapping. *)
Theorem queue_operations_keep_count (q : event_queue) (e : Z) :
  queue_inv q ->
  Z.of_nat (length (q_head q)) < 2 ^ 32 - 1 ->
  (exists q',
      event_enqueue_buffer q e = (0, q')
      /\ q_head q' = q_head q ++ [e]
      /\ q_count q' = q_count q + 1
      /\ q_capacity q' = q_capacity q
      /\ queue_inv q')
  /\ (forall x rest, q_head q = x :: rest ->
      exists q',
        event_dequeue q = (Some x, q')
        /\ event_dequeue_buffer q = (Some x, q')
        /\ q_head q' = rest
        /\ q_count q' = q_count q - 1
        /\ q_capacity q' = q_capacity q
        /\ queue_inv q')
  /\ (q_head q = [] ->
      event_dequeue q = (None, q) /\ event_dequeue_buffer q = (None, q))
  /\ queue_inv (snd (event_enqueue q e)).
Proof.
  unfold queue_inv. intros Hinv Hroom.
  assert (u32 (q_count q + 1) = q_count q + 1) as Hinc
    by (apply u32_small; lia).
  split; [| split; [| split]].
  - eexists. split; [reflexivity |]. simpl. rewrite Hinc, length_app. simpl.
    repeat split; lia.
  - intros x rest Hhead. unfold event_dequeue_buffer, event_dequeue.
    rewrite Hhead. eexists. split; [reflexivity |]. split; [reflexivity |].
    simpl. rewrite Hhead in Hinv, Hroom. simpl in Hinv, Hroom.
    rewrite u32_small by lia. repeat split; lia.
  - intros Hhead. unfold event_dequeue_buffer, event_dequeue.
    rewrite Hhead. split; reflexivity.
  - unfold event_enqueue.
    destruct (q_count q <? u32 (u32 (q_capacity q / 10) * 7)); simpl.
    + rewrite Hinc, length_app. simpl. lia.
    + exact Hinv.
Qed.

Lemma queue_operations_keep_count_witness :
  let q := {| q_count := 2; q_capacity := 1024; q_head := [4096; 8192] |} in
  (exists q',
      event_enqueue_buffer q 12288 = (0, q')
      /\ q_head q' = q_head q ++ [12288]
      /\ q_count q' = q_count q + 1
      /\ q_capacity q' = q_capacity q
      /\ queue_inv q')
  /\ (forall x rest, q_head q = x :: rest ->
      exists q',
        event_dequeue q = (Some x, q')
        /\ event_dequeue_buffer q = (Some x, q')
        /\ q_head q' = rest
        /\ q_count q' = q_count q - 1
        /\ q_capacity q' = q_capacity q
        /\ queue_inv q')
  /\ (q_head q = [] ->
      event_dequeue q = (None, q) /\ event_dequeue_buffer q = (None, q))
  /\ queue_inv (snd (event_enqueue q 12288)).
Proof.
  apply (queue_operations_keep_count
           {| q_count := 2; q_capacity := 1024; q_head := [4096; 8192] |} 12288).
  - reflexivity.
  - simpl. lia.
Defined.

(** C6, as stated, fails: a queue of capacity 105 holding 70 events is
    below 70% of its capacity (73.5), and event_enqueue rejects the push,
    because the threshold is computed as (capacity / 10) * 7 = 70. *)
Lemma event_enqueue_capacity_105_counterexample :
  let q := {| q_count := 70; q_capacity := 105;
              q_head := Z.of_nat <$> seq 1 70 |} in
  queue_inv q /\ queue_wf q
  /\ 10 * q_count q < 7 * q_capacity q
  /\ event_enqueue q 71 = (-1, q).
Proof. vm_compute. repeat split; congruence. Qed.

(** C6, amended: event_enqueue accepts the event exactly when count is
    below 7 * (capacity / 10), with the integer division of C; this is
    "below 70% of capacity" whenever capacity is a multiple of 10, and for
    capacity 100 it is count < 70.  An accepted event goes to the tail and
    count grows by one; a rejected call returns -1 and leaves the queue
    unchanged. *)
Theorem event_enqueue_admission (q : event_queue) (e : Z) :
  queue_wf q ->
  (fst (event_enqueue q e) = 0 <-> q_count q < 7 * (q_capacity q / 10))
  /\ (q_count q < 7 * (q_capacity q / 10) ->
      event_enqueue q e = (0, set_q q (q_count q + 1) (q_head q ++ [e])))
  /\ (7 * (q_capacity q / 10) <= q_count q -> event_enqueue q e = (-1, q))
  /\ (q_capacity q mod 10 = 0 ->
      (fst (event_enqueue q e) = 0 <-> 10 * q_count q < 7 * q_capacity q))
  /\ (q_capacity q = 100 ->
      (fst (event_enqueue q e) = 0 <-> q_count q < 70)).
Proof.
  intros Hwf.
  assert (fst (event_enqueue q e) = 0 <-> q_count q < 7 * (q_capacity q / 10))
    as Hiff.
  { destruct (Z.lt_ge_cases (q_count q) (7 * (q_capacity q / 10))) as [Hlt | Hge].
    - rewrite event_enqueue_accept by assumption. simpl. tauto.
    - rewrite event_enqueue_reject by assumption. simpl. split; intros; lia. }
  split; [exact Hiff |].
  split; [apply event_enqueue_accept; exact Hwf |].
  split; [apply event_enqueue_reject; exact Hwf |].
  split.
  - intros Hmod. rewrite Hiff.
    pose proof (Z.div_mod (q_capacity q) 10 ltac:(lia)) as Hdm. lia.
  - intros Hcap. rewrite Hiff, Hcap. change (100 / 10) with 10. lia.
Qed.

Lemma event_enqueue_admission_witness :
  let q := {| q_count := 69; q_capacity := 100;
              q_head := Z.of_nat <$> seq 1 69 |} in
  (fst (event_enqueue q 70) = 0 <-> q_count q < 7 * (q_capacity q / 10))
  /\ (q_count q < 7 * (q_capacity q / 10) ->
      event_enqueue q 70 = (0, set_q q (q_count q + 1) (q_head q ++ [70])))
  /\ (7 * (q_capacity q / 10) <= q_count q -> event_enqueue q 70 = (-1, q))
  /\ (q_capacity q mod 10 = 0 ->
      (fst (event_enqueue q 70) = 0 <-> 10 * q_count q < 7 * q_capacity q))
  /\ (q_capacity q = 100 ->
      (fst (event_enqueue q 70) = 0 <-> q_count q < 70)).
Proof.
  apply (event_enqueue_admission
           {| q_count := 69; q_capacity := 100;
              q_head := Z.of_nat <$> seq 1 69 |} 70).
  unfold queue_wf. simpl. lia.
Defined.

(** ** Running the monad *)

Lemma bind_run {A B} (m : M A) (f : A -> M B) (s : sys) :
  (m ≫= f) s = match m s with Some (a, s') => f a s' | None => None end.
Proof. reflexivity. Qed.

Lemma bind_Some {A B} (m : M A) (f : A -> M B) (s s1 : sys) (a : A) :
  m s = Some (a, s1) -> (m ≫= f) s = f a s1.
Proof. intros Hm. rewrite bind_run, Hm. reflexivity. Qed.

(* a failed step makes the whole computation fail *)
Lemma bind_None {A B} (m : M A) (f : A -> M B) (s : sys) :
  m s = None -> (m ≫= f) s = None.
Proof. intros Hm. rewrite bind_run, Hm. reflexivity. Qed.

Lemma ret_run {A} (a : A) (s : sys) : mret (M := M) a s = Some (a, s).
Proof. reflexivity. Qed.

Lemma bind_ret {A B} (a : A) (f : A -> M B) (s : sys) :
  (mret a ≫= f) s = f a s.
Proof. reflexivity. Qed.

Lemma bind_deref_Some {A B} (a : A) (f : A -> M B) (s : sys) :
  (deref (Some a) ≫= f) s = f a s.
Proof. reflexivity. Qed.

Lemma bind_get_sys {B} (f : sys -> M B) (s : sys) :
  (get_sys ≫= f) s = f s s.
Proof. reflexivity. Qed.

Lemma bind_modify_sys {B} (g : sys -> sys) (f : unit -> M B) (s : sys) :
  (modify_sys g ≫= f) s = f tt (g s).
Proof. reflexivity. Qed.

Lemma bind_emit {B} (c : call) (f : unit -> M B) (s : sys) :
  (emit c ≫= f) s = f tt (set_log (log s ++ [c]) s).
Proof. reflexivity. Qed.

Lemma load_event_Some (s : sys) (event : Z) (ev : xlink_event) :
  events s !! event = Some ev -> load_event event s = Some (ev, s).
Proof.
  intros Hev. unfold load_event. rewrite bind_get_sys, Hev. reflexivity.
Qed.

Lemma bind_load_event {B} (s : sys) (event : Z) (ev : xlink_event)
    (k : xlink_event -> M B) :
  events s !! event = Some ev -> (load_event event ≫= k) s = k ev s.
Proof. intros Hev. apply bind_Some, load_event_Some, Hev. Qed.

Lemma modify_event_Some (s : sys) (event : Z) (ev : xlink_event) f :
  events s !! event = Some ev ->
  modify_event event f s
  = Some (tt, set_events (<[event := f ev]> (events s)) s).
Proof.
  intros Hev. unfold modify_event.
  rewrite (bind_load_event _ _ _ _ Hev). reflexivity.
Qed.

Lemma modify_event_None (s : sys) (event : Z) f :
  events s !! event = None -> modify_event event f s = None.
Proof.
  intros Hev. unfold modify_event, load_event.
  rewrite bind_run, bind_get_sys, Hev. reflexivity.
Qed.

Lemma bind_modify_event {B} (s : sys) (event : Z) (ev : xlink_event) f
    (k : unit -> M B) :
  events s !! event = Some ev ->
  (modify_event event f ≫= k) s
  = k tt (set_events (<[event := f ev]> (events s)) s).
Proof. intros Hev. apply bind_Some, modify_event_Some, Hev. Qed.

Lemma load_disp_Some (s : sys) (i : Z) x d :
  xlinkd s = Some x -> dispatchers x !! Z.to_nat i = Some d ->
  load_disp i s = Some (d, s).
Proof.
  intros Hx Hd. unfold load_disp.
  rewrite bind_get_sys, Hx, bind_deref_Some, Hd. reflexivity.
Qed.

Lemma bind_load_disp {B} (s : sys) (i : Z) x d (k : dispatcher -> M B) :
  xlinkd s = Some x -> dispatchers x !! Z.to_nat i = Some d ->
  (load_disp i ≫= k) s = k d s.
Proof. intros Hx Hd. apply bind_Some, (load_disp_Some _ _ _ _ Hx Hd). Qed.

Lemma modify_disp_Some (s : sys) (i : Z) x d f :
  xlinkd s = Some x -> dispatchers x !! Z.to_nat i = Some d ->
  modify_disp i f s = Some (tt, set_xlinkd (Some (set_dispatcher i (f d) x)) s).
Proof.
  intros Hx Hd. unfold modify_disp.
  rewrite (bind_load_disp _ _ _ _ _ Hx Hd).
  unfold modify_sys. rewrite Hx. reflexivity.
Qed.

Lemma bind_modify_disp {B} (s : sys) (i : Z) x d f (k : unit -> M B) :
  xlinkd s = Some x -> dispatchers x !! Z.to_nat i = Some d ->
  (modify_disp i f ≫= k) s
  = k tt (set_xlinkd (Some (set_dispatcher i (f d) x)) s).
Proof. intros Hx Hd. apply bind_Some, (modify_disp_Some _ _ _ _ _ Hx Hd). Qed.

Lemma set_dispatcher_lookup (i : Z) (d d' : dispatcher) (x : xlink_dispatcher) :
  dispatchers x !! Z.to_nat i = Some d ->
  dispatchers (set_dispatcher i d' x) !! Z.to_nat i = Some d'.
Proof.
  intros Hd. simpl. apply list_lookup_insert_eq.
  apply (lookup_lt_Some _ _ _ Hd).
Qed.

Lemma set_dispatcher_twice (i : Z) (d d' : dispatcher) (x : xlink_dispatcher) :
  set_dispatcher i d' (set_dispatcher i d x) = set_dispatcher i d' x.
Proof. unfold set_dispatcher. simpl. rewrite list_insert_insert_eq. reflexivity. Qed.

(* successive writes to the event store collapse *)
Lemma set_events_twice (m m' : gmap Z xlink_event) (s : sys) :
  set_events m (set_events m' s) = set_events m s.
Proof. reflexivity. Qed.

(* the fields of a state, after a field was written *)
Ltac sys_fields :=
  cbv beta;
  cbn [xlinkd ipc_disp events event_id error_printed log
       set_xlinkd set_ipc_disp set_events set_event_id set_error_printed
       set_log].

Lemma set_dispatcher_is_Some (i : Z) (n : nat) (d' : dispatcher)
    (x : xlink_dispatcher) :
  is_Some (dispatchers x !! n) ->
  is_Some (dispatchers (set_dispatcher i d' x) !! n).
Proof.
  intros Hd. apply lookup_lt_is_Some. simpl. rewrite length_insert.
  apply lookup_lt_is_Some. exact Hd.
Qed.

Lemma set_dispatcher_lookup_is_Some (i : Z) (d' : dispatcher)
    (x : xlink_dispatcher) :
  is_Some (dispatchers x !! Z.to_nat i) ->
  dispatchers (set_dispatcher i d' x) !! Z.to_nat i = Some d'.
Proof. intros [d Hd]. exact (set_dispatcher_lookup i d d' x Hd). Qed.

(* a lookup in the event store or in the dispatcher table *)
Ltac solve_lookup :=
  sys_fields;
  first [ eassumption
        | apply lookup_insert_eq
        | reflexivity
        | eapply set_dispatcher_lookup_is_Some;
          repeat apply set_dispatcher_is_Some; eexists; eassumption ].

(* run the first step of a computation whose outcome is determined *)
Ltac mstep :=
  first
    [ rewrite bind_ret
    | rewrite bind_deref_Some
    | rewrite bind_get_sys
    | rewrite bind_modify_sys
    | rewrite bind_emit
    | erewrite bind_load_event by solve_lookup
    | erewrite bind_modify_event by solve_lookup
    | erewrite bind_load_disp by solve_lookup
    | erewrite bind_modify_disp by solve_lookup
    | rewrite ret_run ];
  sys_fields.

Section dispatcher_properties.
Context `{Defs : xlink_defs} `{Ext : collaborators}.

Lemma bind_platform_write {B} (s : sys) (interface dev : Z) (buf : xlink_buffer)
    (length timeout : Z) (k : Z * Z -> M B) :
  (platform_write interface dev buf length timeout ≫= k) s
  = k (xlink_platform_write (log s) interface dev buf length timeout)
      (set_log (log s ++ [call_platform_write interface dev buf length timeout]) s).
Proof. reflexivity. Qed.

Lemma platform_deallocate_Some (s : sys) x (buf paddr size alignment : Z)
    (mem : xlink_memory_kind) :
  xlinkd s = Some x ->
  platform_deallocate buf paddr size alignment mem s
  = Some (tt, set_log (log s ++ [call_platform_deallocate (dev x) buf paddr
                                   size alignment mem]) s).
Proof.
  intros Hx. unfold platform_deallocate.
  rewrite bind_get_sys, Hx, bind_deref_Some. reflexivity.
Qed.

Lemma bind_platform_deallocate {B} (s : sys) x (buf paddr size alignment : Z)
    (mem : xlink_memory_kind) (k : unit -> M B) :
  xlinkd s = Some x ->
  (platform_deallocate buf paddr size alignment mem ≫= k) s
  = k tt (set_log (log s ++ [call_platform_deallocate (dev x) buf paddr
                               size alignment mem]) s).
Proof. intros Hx. apply bind_Some, platform_deallocate_Some, Hx. Qed.

Lemma bind_do_kthread_run {B} (s : sys) (fn : thread_fn)
    (context : thread_context) (k : option Z -> M B) :
  (do_kthread_run fn context ≫= k) s
  = k (kthread_run (log s) fn context)
      (set_log (log s ++ [call_kthread_run fn context]) s).
Proof. reflexivity. Qed.

Lemma bind_do_kthread_stop {B} (s : sys) (t : Z) (k : Z -> M B) :
  (do_kthread_stop (Some t) ≫= k) s
  = k (kthread_stop (log s) t) (set_log (log s ++ [call_kthread_stop t]) s).
Proof. reflexivity. Qed.

Lemma get_dispatcher_by_id_absent (s : sys) (id : Z) :
  xlinkd s = None \/ XLINK_MAX_CONNECTIONS <= id ->
  get_dispatcher_by_id id s = Some (None, s).
Proof.
  intros Habs. unfold get_dispatcher_by_id. rewrite bind_get_sys.
  destruct (xlinkd s) as [x |]; [| reflexivity].
  destruct Habs as [Hx | Hid]; [discriminate |].
  rewrite bool_decide_eq_true_2 by lia. reflexivity.
Qed.

Lemma get_dispatcher_by_id_present (s : sys) (id : Z) x :
  xlinkd s = Some x -> id < XLINK_MAX_CONNECTIONS ->
  get_dispatcher_by_id id s = Some (Some id, s).
Proof.
  intros Hx Hid. unfold get_dispatcher_by_id. rewrite bind_get_sys, Hx.
  rewrite bool_decide_eq_false_2 by lia. reflexivity.
Qed.

(** C10: free_event (and so xlink_destroy_event) on an event whose link_id
    selects no dispatcher (xlinkd is NULL, or link_id is not below
    XLINK_MAX_CONNECTIONS) returns with the whole system state as it was:
    the event is put on no buffer pool and nothing is reported. *)
Theorem free_event_without_dispatcher (s : sys) (event : Z) (ev : xlink_event) :
  events s !! event = Some ev ->
  xlinkd s = None \/ XLINK_MAX_CONNECTIONS <= ev_link_id ev ->
  free_event event s = Some (tt, s)
  /\ xlink_destroy_event event s = Some (tt, s).
Proof.
  intros Hev Habs.
  assert (free_event event s = Some (tt, s)) as Hfree.
  { unfold free_event. mstep.
    rewrite (bind_Some _ _ _ _ _ (get_dispatcher_by_id_absent _ _ Habs)).
    reflexivity. }
  split; [exact Hfree | exact Hfree].
Qed.

(** C1: xlink_dispatcher_event_add returns X_LINK_ERROR and leaves the
    whole system state untouched (no transport write is logged, the event
    and every dispatcher are as before) when the dispatcher selected by
    event->link_id is not RUNNING, also when there is no such dispatcher. *)
Theorem event_add_rejected_unless_running
    (s : sys) (origin : xlink_event_origin) (event : Z) (ev : xlink_event) :
  events s !! event = Some ev ->
  not_running s (ev_link_id ev) ->
  xlink_dispatcher_event_add origin event s = Some (X_LINK_ERROR, s).
Proof.
  intros Hev Hnr. unfold xlink_dispatcher_event_add. mstep.
  unfold not_running in Hnr.
  destruct (xlinkd s) as [x |] eqn:Hx.
  - destruct (Z.lt_ge_cases (ev_link_id ev) XLINK_MAX_CONNECTIONS) as [Hlt | Hge].
    + destruct Hnr as [Hge | (d & Hd & Hst)]; [lia |].
      rewrite (bind_Some _ _ _ _ _ (get_dispatcher_by_id_present _ _ _ Hx Hlt)).
      mstep. rewrite bool_decide_eq_true_2 by exact Hst. reflexivity.
    + rewrite (bind_Some _ _ _ _ _
                 (get_dispatcher_by_id_absent _ _ (or_intror Hge))).
      reflexivity.
  - rewrite (bind_Some _ _ _ _ _
               (get_dispatcher_by_id_absent _ _ (or_introl Hx))).
    reflexivity.
Qed.

(** ** The send path *)

(* What dispatcher_event_send does, case by case, on an event whose
   handle is set, with xlinkd allocated. *)
Lemma dispatcher_event_send_run (s : sys) (event : Z) (ev : xlink_event)
    (h : xlink_handle) (x : xlink_dispatcher) :
  events s !! event = Some ev -> ev_handle ev = Some h -> xlinkd s = Some x ->
  let hdr := ev_header ev in
  let c1 := call_platform_write (ev_interface ev) (sw_device_id h)
              (header_buffer hdr) (header_transfer_size hdr) (h_timeout hdr) in
  let r1 := xlink_platform_write (log s) (ev_interface ev) (sw_device_id h)
              (header_buffer hdr) (header_transfer_size hdr) (h_timeout hdr) in
  let c2 := call_platform_write (ev_interface ev) (sw_device_id h)
              (data_buffer (ev_data ev)) (h_size hdr) (h_timeout hdr) in
  let r2 := xlink_platform_write (log s ++ [c1]) (ev_interface ev)
              (sw_device_id h) (data_buffer (ev_data ev)) (h_size hdr)
              (h_timeout hdr) in
  let release := call_platform_deallocate (dev x) (ev_data ev) (ev_paddr ev)
                   r2.2 XLINK_PACKET_ALIGNMENT
                   (if bool_decide (ev_paddr ev ≠ 0) then XLINK_CMA_MEMORY
                    else XLINK_NORMAL_MEMORY) in
  let lw := (log s ++ [c1]) ++ [c2] in
  let le := if bool_decide (r2.1 ≠ 0)
            then lw ++ [call_pr_err_write_data_failed r2.1] else lw in
  let ld := if bool_decide (ev_user_data ev = 1) then le ++ [release] else le in
  dispatcher_event_send event s =
    if bool_decide (r1.1 ≠ 0)
       || bool_decide (r1.2 ≠ header_transfer_size hdr)
    then
      Some (r1.1,
            set_error_printed 1
              (set_log (if bool_decide (error_printed s = 0)
                        then (log s ++ [c1])
                             ++ [call_pr_err_write_header_failed r1.1]
                        else log s ++ [c1]) s))
    else if write_variant (h_type hdr) then
      Some (r2.1,
            set_log ld
              (set_events
                 (<[event := set_ev_header (set_h_size r2.2 hdr) ev]> (events s))
                 (set_error_printed 0 s)))
    else Some (r1.1, set_log (log s ++ [c1]) s).
Proof.
  intros Hev Hh Hx. cbv zeta.
  unfold dispatcher_event_send, header_transfer_size, event_header_size,
    write_variant.
  mstep. rewrite Hh. mstep.
  rewrite bind_platform_write. sys_fields.
  destruct (xlink_platform_write (log s) (ev_interface ev) (sw_device_id h)
              (header_buffer (ev_header ev)) _ (h_timeout (ev_header ev)))
    as [rc1 len1].
  cbn [fst snd].
  destruct (bool_decide (rc1 ≠ 0) || bool_decide (len1 ≠ _)).
  - mstep. destruct (bool_decide (error_printed s = 0)); repeat mstep; reflexivity.
  - destruct (bool_decide (h_type (ev_header ev) = XLINK_WRITE_REQ)
              || bool_decide (h_type (ev_header ev) = XLINK_WRITE_VOLATILE_REQ)
              || bool_decide (h_type (ev_header ev) = XLINK_PASSTHRU_VOLATILE_WRITE_REQ)
              || bool_decide (h_type (ev_header ev) = XLINK_PASSTHRU_WRITE_REQ));
      [| reflexivity].
    mstep. rewrite bind_platform_write. sys_fields.
    destruct (xlink_platform_write (log s ++ [_]) (ev_interface ev)
                (sw_device_id h) (data_buffer (ev_data ev)) _ _)
      as [rc2 len2].
    cbn [fst snd]. mstep.
    destruct (bool_decide (rc2 ≠ 0)); repeat mstep;
      cbn [ev_user_data ev_paddr ev_data ev_header h_size set_ev_header set_h_size];
      destruct (bool_decide (ev_user_data ev = 1));
      try (destruct (bool_decide (ev_paddr ev ≠ 0)));
      repeat first [ erewrite bind_platform_deallocate by solve_lookup
                   | mstep ];
      reflexivity.
Qed.

Lemma transport_writes_app (l1 l2 : list call) :
  transport_writes (l1 ++ l2) = transport_writes l1 ++ transport_writes l2.
Proof. apply List.filter_app. Qed.

Lemma deallocations_app (l1 l2 : list call) :
  deallocations (l1 ++ l2) = deallocations l1 ++ deallocations l2.
Proof. apply List.filter_app. Qed.

Lemma header_transfer_size_write_variant (h : xlink_event_header) :
  write_variant (h_type h) = true -> header_transfer_size h = event_header_size.
Proof.
  unfold write_variant, header_transfer_size. intros Hw.
  destruct (h_type h); try discriminate; reflexivity.
Qed.

(** C2, amended: dispatcher_event_send first writes the header.  The
    length of that transfer is the fixed header size, sizeof(event->header)
    - XLINK_MAX_CONTROL_DATA_PCIE_SIZE, for every event type except
    XLINK_WRITE_CONTROL_REQ, for which header.size is added to it; for the
    four write variants it is the fixed header size alone.  When the header
    write returned 0 and transferred the whole length, then exactly for the
    four write variants a second transport write follows, of header.size
    bytes from event->data; in every other case the header write is the
    only transport write. *)
Theorem dispatcher_event_send_transfers (s : sys) (event : Z)
    (ev : xlink_event) (h : xlink_handle) (x : xlink_dispatcher) :
  events s !! event = Some ev -> ev_handle ev = Some h -> xlinkd s = Some x ->
  let hdr := ev_header ev in
  let c1 := call_platform_write (ev_interface ev) (sw_device_id h)
              (header_buffer hdr) (header_transfer_size hdr) (h_timeout hdr) in
  let r1 := xlink_platform_write (log s) (ev_interface ev) (sw_device_id h)
              (header_buffer hdr) (header_transfer_size hdr) (h_timeout hdr) in
  let c2 := call_platform_write (ev_interface ev) (sw_device_id h)
              (data_buffer (ev_data ev)) (h_size hdr) (h_timeout hdr) in
  (exists rc s',
      dispatcher_event_send event s = Some (rc, s')
      /\ transport_writes (log s')
         = transport_writes (log s)
           ++ c1 :: (if bool_decide (r1.1 = 0)
                        && bool_decide (r1.2 = header_transfer_size hdr)
                        && write_variant (h_type hdr)
                     then [c2] else []))
  /\ (h_type hdr <> XLINK_WRITE_CONTROL_REQ ->
      header_transfer_size hdr = event_header_size)
  /\ (h_type hdr = XLINK_WRITE_CONTROL_REQ ->
      header_transfer_size hdr = size_t (event_header_size + h_size hdr))
  /\ (write_variant (h_type hdr) = true ->
      header_transfer_size hdr = event_header_size).
Proof.
  intros Hev Hh Hx. cbv zeta. split; [| split; [| split]].
  - rewrite (dispatcher_event_send_run s event ev h x Hev Hh Hx). cbv zeta.
    destruct (xlink_platform_write (log s) _ _ (header_buffer _) _ _)
      as [rc1 len1]. cbn [fst snd].
    destruct (decide (rc1 = 0)) as [Hrc | Hrc];
      [destruct (decide (len1 = header_transfer_size (ev_header ev)))
         as [Hlen | Hlen] |].
    + rewrite (bool_decide_eq_false_2 (rc1 ≠ 0)) by (intros Hn; apply Hn, Hrc).
      rewrite (bool_decide_eq_false_2 (len1 ≠ _)) by (intros Hn; apply Hn, Hlen).
      rewrite (bool_decide_eq_true_2 (rc1 = 0)) by exact Hrc.
      rewrite (bool_decide_eq_true_2 (len1 = _)) by exact Hlen.
      cbn [orb andb].
      destruct (write_variant (h_type (ev_header ev))).
      * eexists _, _. split; [reflexivity |]. sys_fields.
        destruct (xlink_platform_write (log s ++ _) _ _ (data_buffer _) _ _)
          as [rc2 len2]. cbn [fst snd].
        destruct (bool_decide (ev_user_data ev = 1)), (bool_decide (rc2 ≠ 0));
          rewrite ?transport_writes_app; cbn; rewrite ?app_nil_r, <- ?app_assoc;
          reflexivity.
      * eexists _, _. split; [reflexivity |]. sys_fields.
        rewrite transport_writes_app. reflexivity.
    + rewrite (bool_decide_eq_true_2 (len1 ≠ _)) by exact Hlen.
      rewrite (bool_decide_eq_false_2 (len1 = _)) by exact Hlen.
      rewrite orb_true_r, andb_false_r. cbn [andb].
      eexists _, _. split; [reflexivity |]. sys_fields.
      destruct (bool_decide (error_printed s = 0));
        rewrite ?transport_writes_app; cbn; rewrite ?app_nil_r; reflexivity.
    + rewrite (bool_decide_eq_true_2 (rc1 ≠ 0)) by exact Hrc.
      rewrite (bool_decide_eq_false_2 (rc1 = 0)) by exact Hrc.
      cbn [orb andb].
      eexists _, _. split; [reflexivity |]. sys_fields.
      destruct (bool_decide (error_printed s = 0));
        rewrite ?transport_writes_app; cbn; rewrite ?app_nil_r; reflexivity.
  - intros Hty. unfold header_transfer_size.
    rewrite bool_decide_eq_false_2 by exact Hty. reflexivity.
  - intros Hty. unfold header_transfer_size.
    rewrite bool_decide_eq_true_2 by exact Hty. reflexivity.
  - apply header_transfer_size_write_variant.
Qed.

(** C5, amended: in dispatcher_event_send the payload buffer is released
    (xlink_platform_deallocate) exactly when the header write succeeded in
    full, the event type is one of the four write variants and user_data ==
    1; the release comes after the data write, whether that write succeeded
    or failed.  The release uses XLINK_CMA_MEMORY exactly when event->paddr
    is non-zero and XLINK_NORMAL_MEMORY otherwise. *)
Theorem dispatcher_event_send_release (s : sys) (event : Z)
    (ev : xlink_event) (h : xlink_handle) (x : xlink_dispatcher) :
  events s !! event = Some ev -> ev_handle ev = Some h -> xlinkd s = Some x ->
  let hdr := ev_header ev in
  let c1 := call_platform_write (ev_interface ev) (sw_device_id h)
              (header_buffer hdr) (header_transfer_size hdr) (h_timeout hdr) in
  let r1 := xlink_platform_write (log s) (ev_interface ev) (sw_device_id h)
              (header_buffer hdr) (header_transfer_size hdr) (h_timeout hdr) in
  let c2 := call_platform_write (ev_interface ev) (sw_device_id h)
              (data_buffer (ev_data ev)) (h_size hdr) (h_timeout hdr) in
  let r2 := xlink_platform_write (log s ++ [c1]) (ev_interface ev)
              (sw_device_id h) (data_buffer (ev_data ev)) (h_size hdr)
              (h_timeout hdr) in
  let release := call_platform_deallocate (dev x) (ev_data ev) (ev_paddr ev)
                   r2.2 XLINK_PACKET_ALIGNMENT
                   (if bool_decide (ev_paddr ev ≠ 0) then XLINK_CMA_MEMORY
                    else XLINK_NORMAL_MEMORY) in
  let released := bool_decide (r1.1 = 0)
                  && bool_decide (r1.2 = header_transfer_size hdr)
                  && write_variant (h_type hdr)
                  && bool_decide (ev_user_data ev = 1) in
  exists rc s',
    dispatcher_event_send event s = Some (rc, s')
    /\ deallocations (log s')
       = deallocations (log s) ++ (if released then [release] else [])
    /\ (released = true ->
        rc = r2.1
        /\ exists l, log s' = ((log s ++ [c1]) ++ [c2]) ++ l ++ [release]).
Proof.
  intros Hev Hh Hx. cbv zeta.
  rewrite (dispatcher_event_send_run s event ev h x Hev Hh Hx). cbv zeta.
  destruct (xlink_platform_write (log s) _ _ (header_buffer _) _ _)
    as [rc1 len1]. cbn [fst snd].
  destruct (decide (rc1 = 0)) as [Hrc | Hrc];
    [destruct (decide (len1 = header_transfer_size (ev_header ev)))
       as [Hlen | Hlen] |].
  - rewrite (bool_decide_eq_false_2 (rc1 ≠ 0)) by (intros Hn; apply Hn, Hrc).
    rewrite (bool_decide_eq_false_2 (len1 ≠ _)) by (intros Hn; apply Hn, Hlen).
    rewrite (bool_decide_eq_true_2 (rc1 = 0)) by exact Hrc.
    rewrite (bool_decide_eq_true_2 (len1 = _)) by exact Hlen.
    cbn [orb andb].
    destruct (write_variant (h_type (ev_header ev))); cbn [andb].
    + eexists _, _. split; [reflexivity |]. sys_fields.
      destruct (xlink_platform_write (log s ++ _) _ _ (data_buffer _) _ _)
        as [rc2 len2]. cbn [fst snd].
      destruct (bool_decide (ev_user_data ev = 1)), (bool_decide (rc2 ≠ 0));
        rewrite ?deallocations_app; cbn; rewrite ?app_nil_r;
        (split; [reflexivity |]); intros Hrel; try discriminate;
        (split; [reflexivity |]).
      * exists [call_pr_err_write_data_failed rc2].
        rewrite <- !app_assoc. reflexivity.
      * exists []. reflexivity.
    + eexists _, _. split; [reflexivity |]. sys_fields.
      rewrite deallocations_app. cbn. rewrite !app_nil_r.
      split; [reflexivity | discriminate].
  - rewrite (bool_decide_eq_true_2 (len1 ≠ _)) by exact Hlen.
    rewrite (bool_decide_eq_false_2 (len1 = _)) by exact Hlen.
    rewrite orb_true_r, andb_false_r. cbn [andb].
    eexists _, _. split; [reflexivity |]. sys_fields.
    destruct (bool_decide (error_printed s = 0));
      rewrite ?deallocations_app; cbn; rewrite ?app_nil_r;
      (split; [reflexivity | discriminate]).
  - rewrite (bool_decide_eq_true_2 (rc1 ≠ 0)) by exact Hrc.
    rewrite (bool_decide_eq_false_2 (rc1 = 0)) by exact Hrc.
    cbn [orb andb].
    eexists _, _. split; [reflexivity |]. sys_fields.
    destruct (bool_decide (error_printed s = 0));
      rewrite ?deallocations_app; cbn; rewrite ?app_nil_r;
      (split; [reflexivity | discriminate]).
Qed.

(* dispatcher_event_send always returns on such an event; it touches
   neither the dispatchers nor the link_id of the event *)
Lemma dispatcher_event_send_frame (s : sys) (event : Z) (ev : xlink_event)
    (h : xlink_handle) (x : xlink_dispatcher) :
  events s !! event = Some ev -> ev_handle ev = Some h -> xlinkd s = Some x ->
  exists rc s' ev',
    dispatcher_event_send event s = Some (rc, s')
    /\ xlinkd s' = Some x
    /\ events s' !! event = Some ev'
    /\ ev_link_id ev' = ev_link_id ev.
Proof.
  intros Hev Hh Hx.
  rewrite (dispatcher_event_send_run s event ev h x Hev Hh Hx). cbv zeta.
  destruct (bool_decide _ || bool_decide _);
    [| destruct (write_variant (h_type (ev_header ev)))].
  - eexists _, _, ev. split; [reflexivity |]. sys_fields. auto.
  - eexists _, _, _. split; [reflexivity |]. sys_fields.
    split; [exact Hx |]. split; [apply lookup_insert_eq | reflexivity].
  - eexists _, _, ev. split; [reflexivity |]. sys_fields. auto.
Qed.

Lemma bind_event_generate_id {B} (k : Z -> M B) (s : sys) :
  (event_generate_id ≫= k) s
  = k (event_id s) (set_event_id (u32 (event_id s + 1)) s).
Proof. reflexivity. Qed.

(* free_event on an event of a registered link puts it on the pool *)
Lemma free_event_registered (s : sys) (event : Z) (ev : xlink_event)
    (x : xlink_dispatcher) (d : dispatcher) :
  events s !! event = Some ev -> xlinkd s = Some x ->
  ev_link_id ev < XLINK_MAX_CONNECTIONS ->
  dispatchers x !! Z.to_nat (ev_link_id ev) = Some d ->
  free_event event s
  = Some (tt, set_xlinkd
                (Some (set_dispatcher (ev_link_id ev)
                         (set_d_buff_queue
                            (snd (event_enqueue_buffer (d_buff_queue d) event)) d)
                         x)) s).
Proof.
  intros Hev Hx Hlt Hd. unfold free_event. mstep.
  rewrite (bind_Some _ _ _ _ _ (get_dispatcher_by_id_present _ _ _ Hx Hlt)).
  mstep. cbn [event_enqueue_buffer snd].
  apply (modify_disp_Some _ _ _ _ _ Hx Hd).
Qed.

(** C4: on a RUNNING dispatcher xlink_dispatcher_event_add configures the
    event, runs dispatcher_event_send, and whatever status that returns
    (so whether the transport writes succeeded or failed) destroys the event
    next: free_event puts it at the tail of the buffer pool of its link,
    nothing is logged in between, and the call returns X_LINK_SUCCESS. *)
Theorem event_add_running_sends_then_destroys
    (s : sys) (origin : xlink_event_origin) (event : Z) (ev : xlink_event)
    (h : xlink_handle) (x : xlink_dispatcher) (d : dispatcher) :
  events s !! event = Some ev ->
  ev_handle ev = Some h ->
  xlinkd s = Some x ->
  0 <= ev_link_id ev < XLINK_MAX_CONNECTIONS ->
  dispatchers x !! Z.to_nat (ev_link_id ev) = Some d ->
  d_state d = XLINK_DISPATCHER_RUNNING ->
  let ev1 := set_ev_origin origin
               (if bool_decide (origin = EVENT_TX)
                then set_ev_header (set_h_id (event_id s) (ev_header ev)) ev
                else ev) in
  let s1 := set_events (<[event := ev1]> (events s))
              (if bool_decide (origin = EVENT_TX)
               then set_event_id (u32 (event_id s + 1)) s else s) in
  exists rc s2 s',
    dispatcher_event_send event s1 = Some (rc, s2)
    /\ xlink_destroy_event event s2 = Some (tt, s')
    /\ xlink_dispatcher_event_add origin event s = Some (X_LINK_SUCCESS, s')
    /\ log s' = log s2
    /\ events s' = events s2
    /\ exists x' d',
        xlinkd s' = Some x'
        /\ dispatchers x' !! Z.to_nat (ev_link_id ev) = Some d'
        /\ d_state d' = XLINK_DISPATCHER_RUNNING
        /\ q_head (d_buff_queue d') = q_head (d_buff_queue d) ++ [event]
        /\ q_count (d_buff_queue d') = u32 (q_count (d_buff_queue d) + 1).
Proof.
  intros Hev Hh Hx [Hge Hlt] Hd Hst. cbv zeta.
  set (ev1 := set_ev_origin origin _).
  set (s1 := set_events _ _).
  assert (events s1 !! event = Some ev1) as Hev1
    by (subst s1; sys_fields; apply lookup_insert_eq).
  assert (ev_handle ev1 = Some h) as Hh1
    by (subst ev1; destruct (bool_decide (origin = EVENT_TX)); exact Hh).
  assert (ev_link_id ev1 = ev_link_id ev) as Hlink1
    by (subst ev1; destruct (bool_decide (origin = EVENT_TX)); reflexivity).
  assert (xlinkd s1 = Some x) as Hx1
    by (subst s1; destruct (bool_decide (origin = EVENT_TX)); exact Hx).
  destruct (dispatcher_event_send_frame s1 event ev1 h x Hev1 Hh1 Hx1)
    as (rc & s2 & ev2 & Hsend & Hx2 & Hev2 & Hlink2).
  rewrite Hlink1 in Hlink2.
  assert (ev_link_id ev2 < XLINK_MAX_CONNECTIONS) as Hlt2 by lia.
  assert (dispatchers x !! Z.to_nat (ev_link_id ev2) = Some d) as Hd2
    by (rewrite Hlink2; exact Hd).
  pose proof (free_event_registered s2 event ev2 x d Hev2 Hx2 Hlt2 Hd2) as Hfree.
  eexists rc, s2, _. split; [exact Hsend |]. split; [exact Hfree |].
  split; [| split; [reflexivity | split; [reflexivity |]]].
  - unfold xlink_dispatcher_event_add. mstep.
    rewrite (bind_Some _ _ _ _ _ (get_dispatcher_by_id_present _ _ _ Hx Hlt)).
    mstep. rewrite bool_decide_eq_false_2 by (intros Hn; apply Hn, Hst).
    subst s1 ev1. destruct (bool_decide (origin = EVENT_TX)).
    + rewrite bind_run, bind_event_generate_id.
      erewrite modify_event_Some by solve_lookup. cbv beta iota.
      erewrite bind_modify_event by solve_lookup. sys_fields.
      rewrite set_events_twice, insert_insert_eq.
      rewrite (bind_Some _ _ _ _ _ Hsend).
      unfold xlink_destroy_event. rewrite (bind_Some _ _ _ _ _ Hfree).
      reflexivity.
    + rewrite bind_ret.
      erewrite bind_modify_event by solve_lookup.
      rewrite (bind_Some _ _ _ _ _ Hsend).
      unfold xlink_destroy_event. rewrite (bind_Some _ _ _ _ _ Hfree).
      reflexivity.
  - eexists _, _. split; [reflexivity |].
    split; [rewrite Hlink2; eapply set_dispatcher_lookup; exact Hd |].
    cbn. rewrite Hst. auto.
Qed.

(** ** Creating events *)

(* one assignment event->field = v, on a state whose event is known *)
Ltac step_event :=
  erewrite bind_modify_event by solve_lookup;
  sys_fields;
  rewrite ?set_events_twice, ?insert_insert_eq.

(** C9: whatever link_id, type, handle, chan, size and timeout are, an
    event returned by a successful xlink_create_event has header.magic ==
    XLINK_EVENT_HEADER_MAGIC, header.id == XLINK_INVALID_EVENT_ID and
    user_data == 0, and is_valid_event_header answers 1 on it. *)
Theorem xlink_create_event_initialises
    (s s' : sys) (link_id : Z) (type : xlink_event_type)
    (handle : option xlink_handle) (chan size timeout : Z) (event : Z) :
  xlink_create_event link_id type handle chan size timeout s
  = Some (Some event, s') ->
  exists ev,
    events s' !! event = Some ev
    /\ h_magic (ev_header ev) = XLINK_EVENT_HEADER_MAGIC
    /\ h_id (ev_header ev) = XLINK_INVALID_EVENT_ID
    /\ ev_user_data ev = 0
    /\ is_valid_event_header event s' = Some (1, s').
Proof.
  unfold xlink_create_event. rewrite bind_run.
  destruct (alloc_event link_id s) as [[[e |] s1] |]; try discriminate.
  cbv beta iota.
  destruct (events s1 !! e) as [ev0 |] eqn:Hev0.
  2: { rewrite (bind_None _ _ _ (modify_event_None _ _ _ Hev0)). discriminate. }
  do 2 step_event.
  destruct handle as [h |]; [| discriminate].
  rewrite bind_deref_Some.
  do 8 step_event. rewrite ret_run.
  intros [= <- <-]. eexists. split; [solve_lookup |].
  cbn. split; [reflexivity |]. split; [reflexivity |]. split; [reflexivity |].
  unfold is_valid_event_header. mstep. cbn.
  rewrite bool_decide_eq_false_2 by (intros Hne; apply Hne; reflexivity).
  reflexivity.
Qed.

(* with an event on the pool, xlink_create_event takes the head of the pool *)
Lemma xlink_create_event_pooled (s : sys) (link_id : Z) (type : xlink_event_type)
    (h : xlink_handle) (chan size timeout : Z)
    (x : xlink_dispatcher) (d : dispatcher) (e : Z) (rest : list Z)
    (ev0 : xlink_event) :
  xlinkd s = Some x -> link_id < XLINK_MAX_CONNECTIONS ->
  dispatchers x !! Z.to_nat link_id = Some d ->
  q_head (d_buff_queue d) = e :: rest ->
  events s !! e = Some ev0 ->
  xlink_create_event link_id type (Some h) chan size timeout s
  = Some (Some e,
          set_events
            (<[e := created_event ev0 link_id type h chan size timeout]> (events s))
            (set_xlinkd
               (Some (set_dispatcher link_id
                        (set_d_buff_queue
                           (set_q (d_buff_queue d)
                              (u32 (q_count (d_buff_queue d) - 1)) rest) d) x))
               s)).
Proof.
  intros Hx Hlt Hd Hq Hev0. unfold xlink_create_event, alloc_event.
  rewrite bind_run, (bind_Some _ _ _ _ _ (get_dispatcher_by_id_present _ _ _ Hx Hlt)).
  mstep. unfold event_dequeue_buffer. rewrite Hq. mstep. mstep.
  cbv beta iota.
  do 2 step_event. rewrite bind_deref_Some. do 8 step_event. rewrite ret_run.
  reflexivity.
Qed.

(* with an empty pool it returns NULL and changes nothing *)
Lemma xlink_create_event_exhausted (s : sys) (link_id : Z)
    (type : xlink_event_type) (handle : option xlink_handle)
    (chan size timeout : Z) (x : xlink_dispatcher) (d : dispatcher) :
  xlinkd s = Some x -> link_id < XLINK_MAX_CONNECTIONS ->
  dispatchers x !! Z.to_nat link_id = Some d ->
  q_head (d_buff_queue d) = [] ->
  xlink_create_event link_id type handle chan size timeout s = Some (None, s).
Proof.
  intros Hx Hlt Hd Hq. unfold xlink_create_event, alloc_event.
  rewrite bind_run, (bind_Some _ _ _ _ _ (get_dispatcher_by_id_present _ _ _ Hx Hlt)).
  mstep. unfold event_dequeue_buffer. rewrite Hq. mstep. mstep.
  cbv beta iota. rewrite ret_run. do 2 f_equal.
  assert (set_d_buff_queue (d_buff_queue d) d = d) as -> by (destruct d; reflexivity).
  unfold set_dispatcher. rewrite (list_insert_id _ _ _ Hd).
  destruct s as [xd ipc evs eid ep lg]. cbn in Hx. subst xd.
  destruct x; reflexivity.
Qed.

(** ** The receive loop *)

Lemma int_cast_small (z : Z) : 0 <= z < 2 ^ 31 -> size_t (int_cast z) = z.
Proof.
  intros Hz. unfold size_t, int_cast.
  rewrite (Z.mod_small (z + 2 ^ 31)) by lia.
  replace (z + 2 ^ 31 - 2 ^ 31) with z by lia.
  apply Z.mod_small. lia.
Qed.

Lemma event_header_size_range : 0 <= event_header_size < 2 ^ 64.
Proof. unfold event_header_size, size_t. apply Z.mod_pos_bound. lia. Qed.

Lemma deliveries_app (l1 l2 : list call) :
  deliveries (l1 ++ l2) = deliveries l1 ++ deliveries l2.
Proof. apply List.filter_app. Qed.

(** C7: one turn of the loop of xlink_dispatcher_rxthread in which the
    header was read in full.  The event goes to xlink_multiplexer_rx exactly
    when header.magic is XLINK_EVENT_HEADER_MAGIC.  With another magic the
    turn ends with nothing but the read in the log, the thread goes on and
    the current event stays the same buffer, now holding the header read.
    With the right magic event->link_id is disp->link_id when the event is
    handed over; if the multiplexer returns non-zero the loop keeps the
    current event and the pool is untouched, and if it returns zero the next
    current event is the head of the buffer pool of the link (the thread
    returns -1 when the pool is empty). *)
Theorem rxthread_body_forwards_valid_headers
    (s : sys) (disp event : Z) (x : xlink_dispatcher) (d : dispatcher)
    (h he : xlink_handle) (ev : xlink_event) (header : xlink_event_header) :
  xlinkd s = Some x ->
  0 <= disp < XLINK_MAX_CONNECTIONS ->
  dispatchers x !! Z.to_nat disp = Some d ->
  d_link_id d = disp ->
  d_handle d = Some h ->
  events s !! event = Some ev ->
  ev_handle ev = Some he ->
  Forall (fun e => is_Some (events s !! e)) (q_head (d_buff_queue d)) ->
  event_header_size < 2 ^ 31 ->
  let read := call_platform_read (d_interface d) (sw_device_id h)
                event_header_size DISPATCHER_RX_TIMEOUT_MSEC in
  xlink_platform_read (log s) (d_interface d) (sw_device_id h) (ev_header ev)
    event_header_size DISPATCHER_RX_TIMEOUT_MSEC
  = (0, event_header_size, header) ->
  let ev_read := set_ev_header header ev in
  let ev_fwd := set_ev_link_id (d_link_id d) ev_read in
  let status := xlink_multiplexer_rx (log s ++ [read]) event ev_fwd in
  exists step s',
    xlink_dispatcher_rxthread_body disp event s = Some (step, s')
    /\ (h_magic header <> XLINK_EVENT_HEADER_MAGIC ->
        step = loop_continue event
        /\ log s' = log s ++ [read]
        /\ deliveries (log s') = deliveries (log s)
        /\ xlinkd s' = xlinkd s
        /\ events s' !! event = Some ev_read)
    /\ (h_magic header = XLINK_EVENT_HEADER_MAGIC ->
        deliveries (log s')
        = deliveries (log s) ++ [call_multiplexer_rx event ev_fwd]
        /\ ev_link_id ev_fwd = d_link_id d
        /\ (status <> 0 ->
            step = loop_continue event
            /\ xlinkd s' = xlinkd s
            /\ events s' !! event = Some ev_fwd)
        /\ (status = 0 ->
            match q_head (d_buff_queue d) with
            | new_event :: rest =>
                step = loop_continue new_event
                /\ exists x' d',
                    xlinkd s' = Some x'
                    /\ dispatchers x' !! Z.to_nat disp = Some d'
                    /\ q_head (d_buff_queue d') = rest
            | [] => step = loop_return (-1) /\ xlinkd s' = xlinkd s
            end)).
Proof.
  intros Hx [Hge Hlt] Hd Hlink Hh Hev Hhe Hpool Hsmall read Hread ev_read ev_fwd
    status.
  unfold xlink_dispatcher_rxthread_body. fold event_header_size.
  mstep. rewrite Hh. do 4 mstep. fold read. rewrite Hread.
  mstep.
  rewrite (bool_decide_eq_false_2 (0 ≠ 0)) by (intros Hn; apply Hn; reflexivity).
  rewrite int_cast_small by (pose proof event_header_size_range; lia).
  rewrite (bool_decide_eq_false_2 (event_header_size ≠ event_header_size))
    by (intros Hn; apply Hn; reflexivity).
  cbn [orb]. unfold is_valid_event_header.
  rewrite bind_run. mstep. cbn [ev_header set_ev_header].
  destruct (decide (h_magic header = XLINK_EVENT_HEADER_MAGIC)) as [Hm | Hm].
  - rewrite (bool_decide_eq_false_2 (h_magic header ≠ _))
      by (intros Hn; apply Hn, Hm).
    rewrite ret_run. cbv beta iota.
    rewrite (bool_decide_eq_true_2 (1 ≠ 0)) by lia.
    step_event. mstep. cbn [ev_handle set_ev_link_id set_ev_header].
    rewrite Hhe. do 3 mstep.
    fold ev_read. fold ev_fwd. fold status.
    destruct (decide (status = 0)) as [Hst | Hst].
    + rewrite (bool_decide_eq_true_2 _ Hst).
      destruct (q_head (d_buff_queue d)) as [| e rest] eqn:Hq.
      * erewrite bind_Some
          by (eapply xlink_create_event_exhausted;
              [solve_lookup | rewrite Hlink; exact Hlt
               | rewrite Hlink; exact Hd | exact Hq]).
        cbv beta iota. rewrite ret_run. eexists _, _. split; [reflexivity |]. sys_fields.
        split; [intros Hn; contradiction |]. intros _.
        rewrite !deliveries_app. cbn. rewrite app_nil_r.
        split; [reflexivity |]. split; [reflexivity |].
        split; [intros Hn; contradiction |]. intros _. auto.
      * apply Forall_cons in Hpool as [[ev0 Hev0] _].
        assert (exists ev0', <[event := ev_fwd]> (events s) !! e = Some ev0')
          as [ev0' Hev0'].
        { destruct (decide (event = e)) as [-> | Hne].
          - eexists. apply lookup_insert_eq.
          - exists ev0. rewrite lookup_insert_ne by exact Hne. exact Hev0. }
        erewrite bind_Some
          by (eapply xlink_create_event_pooled;
              [solve_lookup | rewrite Hlink; exact Hlt
               | rewrite Hlink; exact Hd | exact Hq | sys_fields; exact Hev0']).
        cbv beta iota. rewrite ret_run. eexists _, _. split; [reflexivity |]. sys_fields.
        split; [intros Hn; contradiction |]. intros _.
        rewrite !deliveries_app. cbn. rewrite app_nil_r.
        split; [reflexivity |]. split; [reflexivity |].
        split; [intros Hn; contradiction |]. intros _.
        split; [reflexivity |]. eexists _, _. split; [reflexivity |].
        rewrite Hlink.
        split; [eapply set_dispatcher_lookup; exact Hd | reflexivity].
    + rewrite (bool_decide_eq_false_2 _ Hst). rewrite ret_run.
      eexists _, _. split; [reflexivity |]. sys_fields.
      split; [intros Hn; contradiction |]. intros _.
      rewrite !deliveries_app. cbn. rewrite app_nil_r.
      split; [reflexivity |]. split; [reflexivity |].
      split; [| intros Hn; contradiction]. intros _.
      split; [reflexivity |]. split; [reflexivity | apply lookup_insert_eq].
  - rewrite (bool_decide_eq_true_2 (h_magic header ≠ _)) by exact Hm.
    rewrite ret_run. cbv beta iota.
    rewrite (bool_decide_eq_false_2 (0 ≠ 0)) by (intros Hn; apply Hn; reflexivity).
    rewrite ret_run. eexists _, _. split; [reflexivity |]. sys_fields.
    split; [| intros Hn; contradiction]. intros _.
    split; [reflexivity |]. split; [reflexivity |].
    split; [| split; [reflexivity | apply lookup_insert_eq]].
    rewrite deliveries_app. cbn. apply app_nil_r.
Qed.

(* a turn that continues hands its event to the next turn *)
Lemma xlink_dispatcher_rxthread_loop_turn (turns : nat) (disp event next : Z)
    (s s' : sys) :
  xlink_dispatcher_rxthread_body disp event s = Some (loop_continue next, s') ->
  xlink_dispatcher_rxthread_loop (S turns) disp event s
  = xlink_dispatcher_rxthread_loop turns disp next s'.
Proof.
  intros Hbody. cbn [xlink_dispatcher_rxthread_loop].
  rewrite (bind_Some _ _ _ _ _ Hbody). reflexivity.
Qed.

(** ** Starting a dispatcher *)

Lemma bind_wait_for_entry {B} (t : Z) (k : unit -> M B) (s : sys) :
  (wait_for_entry t ≫= k) s = if IS_ERR t then None else k tt s.
Proof. unfold wait_for_entry. destruct (IS_ERR t); reflexivity. Qed.

(* the RX worker up to its signal, on a dispatcher whose link id is its
   index *)
Lemma wait_for_rxthread_run (s : sys) (x : xlink_dispatcher) (d : dispatcher)
    (h : xlink_handle) (t : Z) (id : Z) :
  xlinkd s = Some x -> id < XLINK_MAX_CONNECTIONS ->
  dispatchers x !! Z.to_nat id = Some d ->
  d_link_id d = id -> d_handle d = Some h ->
  wait_for_rxthread t id s
  = if IS_ERR t then None else
    match q_head (d_buff_queue d) with
    | [] => None
    | e :: rest =>
        match events s !! e with
        | None => None
        | Some ev0 =>
            Some (tt,
                  set_events
                    (<[e := created_event ev0 id XLINK_EVENT_TYPE_ZERO h 0 0 0]>
                       (events s))
                    (set_xlinkd
                       (Some (set_dispatcher id
                                (set_d_buff_queue
                                   (set_q (d_buff_queue d)
                                      (u32 (q_count (d_buff_queue d) - 1)) rest)
                                   d) x)) s))
        end
    end.
Proof.
  intros Hx Hlt Hd Hlink Hh. unfold wait_for_rxthread.
  destruct (IS_ERR t); [reflexivity |].
  rewrite (bind_load_disp _ _ _ _ _ Hx Hd), Hlink, Hh.
  destruct (q_head (d_buff_queue d)) as [| e rest] eqn:Hq.
  - rewrite (bind_Some _ _ _ _ _
               (xlink_create_event_exhausted s id XLINK_EVENT_TYPE_ZERO (Some h)
                  0 0 0 x d Hx Hlt Hd Hq)).
    reflexivity.
  - destruct (events s !! e) as [ev0 |] eqn:Hev0.
    + rewrite (bind_Some _ _ _ _ _
                 (xlink_create_event_pooled s id XLINK_EVENT_TYPE_ZERO h 0 0 0
                    x d e rest ev0 Hx Hlt Hd Hq Hev0)).
      reflexivity.
    + unfold xlink_create_event, alloc_event.
      rewrite !bind_run.
      rewrite (get_dispatcher_by_id_present _ id _ Hx Hlt).
      rewrite (bind_load_disp _ _ _ _ _ Hx Hd).
      unfold event_dequeue_buffer. rewrite Hq. mstep. rewrite ret_run.
      unfold modify_event. rewrite !bind_run.
      unfold load_event. rewrite bind_get_sys. sys_fields.
      rewrite Hev0. reflexivity.
Qed.

(* xlink_dispatcher_start on a dispatcher that is RUNNING or failed *)
Lemma start_not_startable (s : sys) (id : Z) (handle : option xlink_handle)
    (x : xlink_dispatcher) (d : dispatcher) :
  xlinkd s = Some x ->
  0 <= id < XLINK_MAX_CONNECTIONS -> id < 2 ^ 32 ->
  dispatchers x !! Z.to_nat id = Some d ->
  d_state d = XLINK_DISPATCHER_RUNNING \/ d_state d = XLINK_DISPATCHER_ERROR ->
  xlink_dispatcher_start id handle s = Some (X_LINK_ERROR, s).
Proof.
  intros Hx [Hge Hlt] Hu32 Hd Hst. unfold xlink_dispatcher_start.
  mstep. rewrite Hx. mstep. rewrite (u32_small id) by lia.
  rewrite (bind_Some _ _ _ _ _ (get_dispatcher_by_id_present _ _ _ Hx Hlt)).
  mstep.
  assert (bool_decide (d_state d = XLINK_DISPATCHER_RUNNING)
          || bool_decide (d_state d = XLINK_DISPATCHER_ERROR) = true) as ->.
  { destruct Hst as [-> | ->]; reflexivity. }
  reflexivity.
Qed.

(* What xlink_dispatcher_start does from INIT or STOPPED, case by case, on
   a dispatcher whose link id is its index. *)
Lemma xlink_dispatcher_start_run (s : sys) (id : Z) (h : xlink_handle)
    (x : xlink_dispatcher) (d : dispatcher) :
  xlinkd s = Some x ->
  0 <= id < XLINK_MAX_CONNECTIONS -> id < 2 ^ 32 ->
  dispatchers x !! Z.to_nat id = Some d ->
  d_link_id d = id ->
  d_state d <> XLINK_DISPATCHER_RUNNING ->
  d_state d <> XLINK_DISPATCHER_ERROR ->
  let run_tx := call_kthread_run xlink_dispatcher_txthread_fn (context_disp id) in
  let run_rx := call_kthread_run xlink_dispatcher_rxthread_fn (context_disp id) in
  let run_ipc := call_kthread_run xlink_dispatcher_ipc_passthru_rxthread_fn
                   context_ipc_disp in
  let tx := kthread_run (log s) xlink_dispatcher_txthread_fn (context_disp id) in
  let rx := kthread_run (log s ++ [run_tx]) xlink_dispatcher_rxthread_fn
              (context_disp id) in
  let ipc := kthread_run ((log s ++ [run_tx]) ++ [run_rx])
               xlink_dispatcher_ipc_passthru_rxthread_fn context_ipc_disp in
  let d_tx := set_d_txthread tx
                (set_d_interface
                   (get_interface_from_sw_device_id (sw_device_id h))
                   (set_d_handle (Some h) d)) in
  let d_rx := set_d_rxthread rx (set_d_state XLINK_DISPATCHER_RUNNING d_tx) in
  let ipc_d := set_d_rxthread ipc (set_d_link_id (d_link_id d) (ipc_disp s)) in
  let put d' l s := set_xlinkd (Some (set_dispatcher id d' x)) (set_log l s) in
  xlink_dispatcher_start id (Some h) s =
    match tx with
    | None =>
        Some (X_LINK_ERROR,
              put (set_d_state XLINK_DISPATCHER_STOPPED d_tx) (log s ++ [run_tx]) s)
    | Some t =>
        if IS_ERR t then None else
        match rx with
        | None =>
            Some (X_LINK_ERROR,
                  put (set_d_state XLINK_DISPATCHER_STOPPED d_rx)
                    (((log s ++ [run_tx]) ++ [run_rx]) ++ [call_kthread_stop t]) s)
        | Some t' =>
            if IS_ERR t' then None else
            match q_head (d_buff_queue d) with
            | [] => None
            | e :: rest =>
                match events s !! e with
                | None => None
                | Some ev0 =>
                    let d_ready :=
                      set_d_buff_queue
                        (set_q (d_buff_queue d)
                           (u32 (q_count (d_buff_queue d) - 1)) rest) in
                    let ready :=
                      set_events
                        (<[e := created_event ev0 id XLINK_EVENT_TYPE_ZERO h
                                  0 0 0]> (events s)) in
                    if CONFIG_XLINK_LOCAL_HOST
                       && bool_decide (d_state (ipc_disp s)
                                       ≠ XLINK_DISPATCHER_RUNNING)
                    then
                      match ipc with
                      | None =>
                          Some (X_LINK_ERROR,
                                ready
                                  (put (set_d_state XLINK_DISPATCHER_STOPPED
                                          (d_ready d_rx))
                                     ((((log s ++ [run_tx]) ++ [run_rx])
                                       ++ [run_ipc]) ++ [call_kthread_stop t])
                                     (set_ipc_disp ipc_d s)))
                      | Some ti =>
                          if IS_ERR ti then None else
                          Some (X_LINK_SUCCESS,
                                ready
                                  (put (d_ready d_rx)
                                     (((log s ++ [run_tx]) ++ [run_rx])
                                      ++ [run_ipc])
                                     (set_ipc_disp
                                        (set_d_state XLINK_DISPATCHER_RUNNING
                                           ipc_d) s)))
                      end
                    else
                      Some (X_LINK_SUCCESS,
                            ready (put (d_ready d_rx)
                                     ((log s ++ [run_tx]) ++ [run_rx]) s))
                end
            end
        end
    end.
Proof.
  intros Hx [Hge Hlt] Hu32 Hd Hlink Hrun Herror. cbv zeta.
  unfold xlink_dispatcher_start.
  mstep. rewrite Hx. mstep.
  rewrite (u32_small id) by lia.
  rewrite (bind_Some _ _ _ _ _ (get_dispatcher_by_id_present _ _ _ Hx Hlt)).
  mstep.
  rewrite (bool_decide_eq_false_2 _ Hrun), (bool_decide_eq_false_2 _ Herror).
  cbn [orb].
  do 3 mstep. rewrite bind_do_kthread_run. sys_fields. mstep.
  destruct (kthread_run (log s) xlink_dispatcher_txthread_fn (context_disp id))
    as [t |].
  - rewrite bind_wait_for_entry. destruct (IS_ERR t); [reflexivity |].
    mstep. rewrite bind_do_kthread_run. sys_fields. mstep.
    destruct (kthread_run (log s ++ _) xlink_dispatcher_rxthread_fn
                (context_disp id)) as [t' |].
    + rewrite bind_run.
      erewrite (wait_for_rxthread_run _ _ _ h t' id);
        [| sys_fields; reflexivity | exact Hlt | solve_lookup | exact Hlink
         | reflexivity].
      cbn [d_buff_queue set_d_rxthread set_d_state set_d_txthread
           set_d_interface set_d_handle].
      destruct (IS_ERR t'); [reflexivity |].
      destruct (q_head (d_buff_queue d)) as [| e rest] eqn:Hq;
        [reflexivity |].
      sys_fields.
      destruct (events s !! e) as [ev0 |] eqn:Hev0; [| reflexivity].
      sys_fields. rewrite !set_dispatcher_twice.
        destruct CONFIG_XLINK_LOCAL_HOST; cbn [andb].
        -- mstep.
           destruct (bool_decide (d_state (ipc_disp s) ≠ XLINK_DISPATCHER_RUNNING)).
           ++ erewrite bind_load_disp by solve_lookup.
              mstep. rewrite bind_do_kthread_run. sys_fields. mstep.
              cbn [d_link_id set_d_rxthread set_d_state set_d_txthread
                   set_d_interface set_d_handle set_d_buff_queue].
              destruct (kthread_run ((log s ++ _) ++ _)
                          xlink_dispatcher_ipc_passthru_rxthread_fn
                          context_ipc_disp) as [ti |].
              ** mstep. rewrite bind_wait_for_entry.
                 destruct (IS_ERR ti); [reflexivity |].
                 rewrite ret_run. reflexivity.
              ** unfold start_r_rxthread, start_r_txthread, start_r_error.
                 mstep.
                 cbn [d_txthread set_d_rxthread set_d_state set_d_txthread
                      set_d_buff_queue].
                 rewrite bind_do_kthread_stop. sys_fields. mstep.
                 rewrite bind_deref_Some, ret_run.
                 rewrite !set_dispatcher_twice. reflexivity.
           ++ rewrite ret_run. reflexivity.
        -- rewrite ret_run. reflexivity.
    + unfold start_r_rxthread, start_r_txthread, start_r_error.
      mstep. cbn [d_txthread set_d_rxthread set_d_state set_d_txthread].
      rewrite bind_do_kthread_stop. sys_fields. mstep.
      rewrite bind_deref_Some, ret_run. rewrite !set_dispatcher_twice.
      reflexivity.
  - unfold start_r_txthread, start_r_error. mstep.
    rewrite bind_deref_Some, ret_run. rewrite !set_dispatcher_twice.
    reflexivity.
Qed.

(** C3, amended: xlink_dispatcher_start succeeds only when the state of
    the dispatcher is INIT or STOPPED, and then both workers were spawned
    and the state is RUNNING.  From RUNNING or ERROR the call returns
    X_LINK_ERROR and nothing changes.  It does succeed from INIT and from
    STOPPED: whenever both workers are created, the RX worker finds an event
    in the pool of the link, and the passthrough thread, where it is
    compiled in, is running or is created. *)
Theorem xlink_dispatcher_start_transitions
    (s : sys) (id : Z) (h : xlink_handle) (x : xlink_dispatcher)
    (d : dispatcher) :
  xlinkd s = Some x ->
  0 <= id < XLINK_MAX_CONNECTIONS ->
  id < 2 ^ 32 ->
  dispatchers x !! Z.to_nat id = Some d ->
  d_link_id d = id ->
  let run_tx := call_kthread_run xlink_dispatcher_txthread_fn (context_disp id) in
  let run_rx := call_kthread_run xlink_dispatcher_rxthread_fn (context_disp id) in
  let tx := kthread_run (log s) xlink_dispatcher_txthread_fn (context_disp id) in
  let rx := kthread_run (log s ++ [run_tx]) xlink_dispatcher_rxthread_fn
              (context_disp id) in
  (d_state d = XLINK_DISPATCHER_RUNNING \/ d_state d = XLINK_DISPATCHER_ERROR ->
   xlink_dispatcher_start id (Some h) s = Some (X_LINK_ERROR, s))
  /\ (forall s',
        xlink_dispatcher_start id (Some h) s = Some (X_LINK_SUCCESS, s') ->
        (d_state d = XLINK_DISPATCHER_INIT \/ d_state d = XLINK_DISPATCHER_STOPPED)
        /\ worker tx /\ worker rx
        /\ exists x' d',
             xlinkd s' = Some x'
             /\ dispatchers x' !! Z.to_nat id = Some d'
             /\ d_state d' = XLINK_DISPATCHER_RUNNING
             /\ d_txthread d' = tx
             /\ d_rxthread d' = rx)
  /\ (d_state d = XLINK_DISPATCHER_INIT \/ d_state d = XLINK_DISPATCHER_STOPPED ->
      worker tx -> worker rx ->
      ipc_thread_ready s (log s ++ [run_tx; run_rx]) ->
      (exists e rest ev0,
          q_head (d_buff_queue d) = e :: rest /\ events s !! e = Some ev0) ->
      exists s', xlink_dispatcher_start id (Some h) s = Some (X_LINK_SUCCESS, s')).
Proof.
  intros Hx Hid Hu32 Hd Hlink run_tx run_rx tx rx.
  split; [apply (start_not_startable s id (Some h) x d Hx Hid Hu32 Hd) |].
  assert (d_state d = XLINK_DISPATCHER_INIT \/ d_state d = XLINK_DISPATCHER_STOPPED ->
          d_state d <> XLINK_DISPATCHER_RUNNING
          /\ d_state d <> XLINK_DISPATCHER_ERROR) as Hok.
  { intros [-> | ->]; split; discriminate. }
  split.
  - intros s' Hs.
    assert (d_state d = XLINK_DISPATCHER_INIT
            \/ d_state d = XLINK_DISPATCHER_STOPPED) as Hst.
    { destruct (d_state d) eqn:Hstate; auto.
      - rewrite (start_not_startable s id (Some h) x d Hx Hid Hu32 Hd) in Hs
          by (left; exact Hstate).
        discriminate.
      - rewrite (start_not_startable s id (Some h) x d Hx Hid Hu32 Hd) in Hs
          by (right; exact Hstate).
        discriminate. }
    split; [exact Hst |]. destruct (Hok Hst) as [Hrun Herror].
    rewrite (xlink_dispatcher_start_run s id h x d Hx Hid Hu32 Hd Hlink
               Hrun Herror) in Hs.
    cbv zeta in Hs. fold run_tx run_rx tx rx in Hs.
    destruct tx as [t |]; [| discriminate].
    destruct (IS_ERR t) eqn:Ht; [discriminate |].
    destruct rx as [t' |]; [| discriminate].
    destruct (IS_ERR t') eqn:Ht'; [discriminate |].
    destruct (q_head (d_buff_queue d)) as [| e rest]; [discriminate |].
    destruct (events s !! e) as [ev0 |]; [| discriminate].
    split; [exists t; auto |]. split; [exists t'; auto |].
    destruct (CONFIG_XLINK_LOCAL_HOST && _).
    + destruct (kthread_run _ xlink_dispatcher_ipc_passthru_rxthread_fn _)
        as [ti |]; [| discriminate].
      destruct (IS_ERR ti); [discriminate |].
      injection Hs as <-. eexists _, _. sys_fields.
      split; [reflexivity |].
      split; [eapply set_dispatcher_lookup; exact Hd |].
      repeat split.
    + injection Hs as <-. eexists _, _. sys_fields.
      split; [reflexivity |].
      split; [eapply set_dispatcher_lookup; exact Hd |].
      repeat split.
  - intros Hst (t & Htx & Ht) (t' & Hrx & Ht') Hipc (e & rest & ev0 & Hq & Hev0).
    destruct (Hok Hst) as [Hrun Herror].
    rewrite (xlink_dispatcher_start_run s id h x d Hx Hid Hu32 Hd Hlink
               Hrun Herror).
    cbv zeta. fold run_tx run_rx tx rx.
    rewrite Htx, Ht, Hrx, Ht', Hq, Hev0.
    destruct Hipc as [Hcfg | [Hipc | (ti & Hti & Herr)]].
    + rewrite Hcfg. cbn [andb]. eexists. reflexivity.
    + rewrite (bool_decide_eq_false_2 (_ ≠ _))
        by (intros Hn; apply Hn, Hipc).
      rewrite andb_false_r. eexists. reflexivity.
    + destruct (CONFIG_XLINK_LOCAL_HOST && _); [| eexists; reflexivity].
      rewrite <- (app_assoc (log s) [run_tx] [run_rx]). cbn [app].
      rewrite Hti, Herr. eexists. reflexivity.
Qed.


End dispatcher_properties.

(** ** Runs on the sample configuration *)

(* A queue of capacity 100, filled from empty, takes 70 events
   and turns the 71st away. *)
Example event_enqueue_capacity_100 :
  let q0 := {| q_count := 0; q_capacity := 100; q_head := [] |} in
  let '(rcs, q) := event_enqueue_all (Z.of_nat <$> seq 1 71) q0 in
  rcs = replicate 70 0 ++ [-1]
  /\ q_count q = 70
  /\ q_head q = Z.of_nat <$> seq 1 70.
Proof. vm_compute. repeat split. Qed.

Lemma free_event_without_dispatcher_witness :
  let s := set_events (<[12288 := sample_event 5]> ∅)
             (sample_sys XLINK_DISPATCHER_INIT) in
  free_event (Defs := sample_defs) 12288 s = Some (tt, s)
  /\ xlink_destroy_event (Defs := sample_defs) 12288 s = Some (tt, s).
Proof.
  apply (free_event_without_dispatcher (Defs := sample_defs)
           (set_events (<[12288 := sample_event 5]> ∅)
              (sample_sys XLINK_DISPATCHER_INIT))
           12288 (sample_event 5)).
  - reflexivity.
  - right. simpl. lia.
Defined.

Lemma event_add_rejected_unless_running_witness :
  xlink_dispatcher_event_add (Defs := sample_defs) (Ext := mock_ok)
    EVENT_TX 4096 (sample_sys XLINK_DISPATCHER_STOPPED)
  = Some (X_LINK_ERROR, sample_sys XLINK_DISPATCHER_STOPPED).
Proof.
  apply (event_add_rejected_unless_running (Defs := sample_defs) (Ext := mock_ok)
           (sample_sys XLINK_DISPATCHER_STOPPED) EVENT_TX 4096 (sample_event 0)).
  - reflexivity.
  - right. exists (sample_dispatcher 0 XLINK_DISPATCHER_STOPPED [4096; 4097]).
    split; [reflexivity | discriminate].
Defined.

Lemma event_add_running_sends_then_destroys_witness :
  exists s',
    xlink_dispatcher_event_add (Defs := sample_defs) (Ext := mock_data_write_fails)
      EVENT_TX 12288 (tx_sys XLINK_WRITE_REQ 0 0)
    = Some (X_LINK_SUCCESS, s')
    /\ exists x' d',
        xlinkd s' = Some x'
        /\ dispatchers x' !! 0%nat = Some d'
        /\ q_head (d_buff_queue d') = [4096; 4097; 12288]
        /\ q_count (d_buff_queue d') = 3.
Proof.
  destruct (event_add_running_sends_then_destroys
              (Defs := sample_defs) (Ext := mock_data_write_fails)
              (tx_sys XLINK_WRITE_REQ 0 0) EVENT_TX 12288
              (tx_event XLINK_WRITE_REQ 0 0) sample_handle
              {| dispatchers := [sample_dispatcher 0 XLINK_DISPATCHER_RUNNING [4096; 4097];
                                 sample_dispatcher 1 XLINK_DISPATCHER_INIT [8192; 8193]];
                 dev := 77 |}
              (sample_dispatcher 0 XLINK_DISPATCHER_RUNNING [4096; 4097])
              eq_refl eq_refl eq_refl ltac:(simpl; lia) eq_refl eq_refl)
    as (rc & s2 & s' & _ & _ & Hadd & _ & _ & x' & d' & Hx' & Hd' & _ & Hq & Hc).
  exists s'. split; [exact Hadd |].
  exists x', d'. repeat split; assumption.
Defined.

(** C2, as stated, fails on both sides.  On a transport where every write
    completes, an XLINK_WRITE_REQ event with header.size == 4 has its header
    written with the fixed header size, 128 - 100 = 28 bytes, not 28 + 4
    (the payload follows in the second write); and an
    XLINK_WRITE_CONTROL_REQ event, which is none of the four write variants,
    has header.size added to its header transfer: 32 bytes. *)
Lemma dispatcher_event_send_header_length_counterexample :
  exists s1 s2,
    write_variant XLINK_WRITE_REQ = true
    /\ dispatcher_event_send (Defs := sample_defs) (Ext := mock_ok)
         12288 (tx_sys XLINK_WRITE_REQ 0 0) = Some (0, s1)
    /\ log s1
       = [call_platform_write 1 9
            (header_buffer (ev_header (tx_event XLINK_WRITE_REQ 0 0))) 28 500;
          call_platform_write 1 9 (data_buffer 0x2000) 4 500]
    /\ write_variant XLINK_WRITE_CONTROL_REQ = false
    /\ dispatcher_event_send (Defs := sample_defs) (Ext := mock_ok)
         12288 (tx_sys XLINK_WRITE_CONTROL_REQ 0 0) = Some (0, s2)
    /\ log s2
       = [call_platform_write 1 9
            (header_buffer (ev_header (tx_event XLINK_WRITE_CONTROL_REQ 0 0)))
            32 500]
    /\ event_header_size (Defs := sample_defs) = 28.
Proof. eexists _, _. vm_compute. repeat split. Qed.

Lemma dispatcher_event_send_transfers_witness :
  exists rc s',
    dispatcher_event_send (Defs := sample_defs) (Ext := mock_ok)
      12288 (tx_sys XLINK_WRITE_REQ 0 0) = Some (rc, s')
    /\ transport_writes (log s')
       = [call_platform_write 1 9
            (header_buffer (ev_header (tx_event XLINK_WRITE_REQ 0 0))) 28 500;
          call_platform_write 1 9 (data_buffer 0x2000) 4 500].
Proof.
  destruct (dispatcher_event_send_transfers
              (Defs := sample_defs) (Ext := mock_ok)
              (tx_sys XLINK_WRITE_REQ 0 0) 12288
              (tx_event XLINK_WRITE_REQ 0 0) sample_handle
              {| dispatchers := [sample_dispatcher 0 XLINK_DISPATCHER_RUNNING [4096; 4097];
                                 sample_dispatcher 1 XLINK_DISPATCHER_INIT [8192; 8193]];
                 dev := 77 |}
              eq_refl eq_refl eq_refl)
    as [(rc & s' & Hrun & Hw) _].
  exists rc, s'. split; [exact Hrun |]. rewrite Hw. reflexivity.
Defined.

(** C5, as stated, fails: on a transport whose payload write fails (status
    -5) after the header went through, an XLINK_WRITE_REQ event with
    user_data == 1 still has its payload buffer released, right after the
    failed write was reported. *)
Lemma dispatcher_event_send_release_counterexample :
  exists s',
    dispatcher_event_send (Defs := sample_defs) (Ext := mock_data_write_fails)
      12288 (tx_sys XLINK_WRITE_REQ 1 0) = Some (-5, s')
    /\ log s'
       = [call_platform_write 1 9
            (header_buffer (ev_header (tx_event XLINK_WRITE_REQ 1 0))) 28 500;
          call_platform_write 1 9 (data_buffer 0x2000) 4 500;
          call_pr_err_write_data_failed (-5);
          call_platform_deallocate 77 0x2000 0 0 64 XLINK_NORMAL_MEMORY].
Proof. eexists. vm_compute. repeat split. Qed.

Lemma dispatcher_event_send_release_witness :
  exists rc s',
    dispatcher_event_send (Defs := sample_defs) (Ext := mock_ok)
      12288 (tx_sys XLINK_WRITE_VOLATILE_REQ 1 0x9000) = Some (rc, s')
    /\ deallocations (log s')
       = [call_platform_deallocate 77 0x2000 0x9000 4 64 XLINK_CMA_MEMORY].
Proof.
  destruct (dispatcher_event_send_release
              (Defs := sample_defs) (Ext := mock_ok)
              (tx_sys XLINK_WRITE_VOLATILE_REQ 1 0x9000) 12288
              (tx_event XLINK_WRITE_VOLATILE_REQ 1 0x9000) sample_handle
              {| dispatchers := [sample_dispatcher 0 XLINK_DISPATCHER_RUNNING [4096; 4097];
                                 sample_dispatcher 1 XLINK_DISPATCHER_INIT [8192; 8193]];
                 dev := 77 |}
              eq_refl eq_refl eq_refl)
    as (rc & s' & Hrun & Hd & _).
  exists rc, s'. split; [exact Hrun |]. rewrite Hd. reflexivity.
Defined.

Lemma xlink_create_event_initialises_witness :
  exists s' ev,
    xlink_create_event (Defs := sample_defs) (Ext := mock_ok)
      0 XLINK_WRITE_REQ (Some sample_handle) 3 4 500
      (sample_sys XLINK_DISPATCHER_INIT) = Some (Some 4096, s')
    /\ events s' !! 4096 = Some ev
    /\ h_magic (ev_header ev) = 0x5844
    /\ h_id (ev_header ev) = 0xDEADBEEF
    /\ ev_user_data ev = 0
    /\ is_valid_event_header (Defs := sample_defs) 4096 s' = Some (1, s').
Proof.
  eexists.
  destruct (xlink_create_event_initialises (Defs := sample_defs) (Ext := mock_ok)
              (sample_sys XLINK_DISPATCHER_INIT) _ 0 XLINK_WRITE_REQ
              (Some sample_handle) 3 4 500 4096
              ltac:(vm_compute; reflexivity)) as (ev & H1 & H2 & H3 & H4 & H5).
  exists ev. split; [vm_compute; reflexivity |].
  repeat split; assumption.
Defined.

Lemma rxthread_body_forwards_valid_headers_witness :
  exists s',
    xlink_dispatcher_rxthread_body (Defs := sample_defs) (Ext := mock_ok)
      0 12288 (tx_sys XLINK_WRITE_REQ 0 0)
    = Some (loop_continue 4096, s')
    /\ deliveries (log s')
       = [call_multiplexer_rx 12288
            (set_ev_link_id 0
               (set_ev_header sample_header (tx_event XLINK_WRITE_REQ 0 0)))].
Proof.
  destruct (rxthread_body_forwards_valid_headers
              (Defs := sample_defs) (Ext := mock_ok)
              (tx_sys XLINK_WRITE_REQ 0 0) 0 12288
              {| dispatchers := [sample_dispatcher 0 XLINK_DISPATCHER_RUNNING [4096; 4097];
                                 sample_dispatcher 1 XLINK_DISPATCHER_INIT [8192; 8193]];
                 dev := 77 |}
              (sample_dispatcher 0 XLINK_DISPATCHER_RUNNING [4096; 4097])
              sample_handle sample_handle (tx_event XLINK_WRITE_REQ 0 0)
              sample_header
              eq_refl ltac:(simpl; lia) eq_refl eq_refl eq_refl eq_refl eq_refl
              ltac:(repeat constructor; eexists; reflexivity)
              ltac:(vm_compute; reflexivity) eq_refl)
    as (step & s' & Hrun & _ & Hvalid).
  destruct (Hvalid eq_refl) as (Hdel & _ & _ & Hzero).
  destruct (Hzero eq_refl) as [-> _].
  exists s'. split; [exact Hrun | exact Hdel].
Defined.

(** C3, as stated, fails: start also succeeds from STOPPED.  On link 0 in
    state STOPPED, with an event in its pool, a start whose two workers are
    created returns X_LINK_SUCCESS and the state is RUNNING. *)
Lemma xlink_dispatcher_start_from_stopped_counterexample :
  exists s' x' d',
    xlink_dispatcher_start (Defs := sample_defs) (Ext := mock_ok)
      0 (Some sample_handle) (sample_sys XLINK_DISPATCHER_STOPPED)
    = Some (X_LINK_SUCCESS, s')
    /\ xlinkd s' = Some x' /\ dispatchers x' !! 0%nat = Some d'
    /\ d_state d' = XLINK_DISPATCHER_RUNNING.
Proof.
  rewrite (xlink_dispatcher_start_run (Defs := sample_defs) (Ext := mock_ok)
             (sample_sys XLINK_DISPATCHER_STOPPED) 0 sample_handle
             {| dispatchers := [sample_dispatcher 0 XLINK_DISPATCHER_STOPPED [4096; 4097];
                                sample_dispatcher 1 XLINK_DISPATCHER_INIT [8192; 8193]];
                dev := 77 |}
             (sample_dispatcher 0 XLINK_DISPATCHER_STOPPED [4096; 4097])
             eq_refl ltac:(simpl; lia) ltac:(lia) eq_refl eq_refl
             ltac:(discriminate) ltac:(discriminate)).
  eexists _, _, _. split; [reflexivity |]. repeat split.
Qed.

Lemma xlink_dispatcher_start_transitions_witness :
  exists s',
    xlink_dispatcher_start (Defs := sample_defs) (Ext := mock_ok)
      0 (Some sample_handle) (sample_sys XLINK_DISPATCHER_INIT)
    = Some (X_LINK_SUCCESS, s').
Proof.
  apply (xlink_dispatcher_start_transitions
           (Defs := sample_defs) (Ext := mock_ok)
           (sample_sys XLINK_DISPATCHER_INIT) 0 sample_handle
           {| dispatchers := [sample_dispatcher 0 XLINK_DISPATCHER_INIT [4096; 4097];
                              sample_dispatcher 1 XLINK_DISPATCHER_INIT [8192; 8193]];
              dev := 77 |}
           (sample_dispatcher 0 XLINK_DISPATCHER_INIT [4096; 4097])
           eq_refl ltac:(simpl; lia) ltac:(lia) eq_refl eq_refl).
  - left. reflexivity.
  - eexists. split; reflexivity.
  - eexists. split; reflexivity.
  - left. reflexivity.
  - exists 4096, [4097], (sample_event 0). split; reflexivity.
Defined.


(** * Further properties *)

Section dispatcher_rest_properties.
Context `{Defs : xlink_defs} `{Ext : collaborators} `{Alloc : allocator}.

(* one assignment to a field of an event whose address is known *)
Ltac mstep_event :=
  erewrite bind_modify_event by solve_lookup;
  sys_fields;
  rewrite ?set_events_twice, ?insert_insert_eq.

Lemma set_event_id_same (s : sys) : set_event_id (event_id s) s = s.
Proof. destruct s; reflexivity. Qed.

Lemma u32_add_idemp_l (a b : Z) : u32 (u32 a + b) = u32 (a + b).
Proof. unfold u32. apply Zplus_mod_idemp_l. Qed.

(** ** Event ids *)

(** X1: n successive calls of event_generate_id, from a counter holding
    i, return i, i+1, ..., i+n-1 reduced modulo 2^32 and leave the counter at
    i+n modulo 2^32: the ids wrap around, and any 2^32 successive ids or
    fewer are pairwise distinct. *)
Theorem event_generate_ids_consecutive (n : nat) (s : sys) :
  0 <= event_id s < 2 ^ 32 ->
  event_generate_ids n s
  = Some ((fun j => u32 (event_id s + Z.of_nat j)) <$> seq 0 n,
          set_event_id (u32 (event_id s + Z.of_nat n)) s)
  /\ (Z.of_nat n <= 2 ^ 32 ->
      NoDup ((fun j => u32 (event_id s + Z.of_nat j)) <$> seq 0 n)).
Proof.
  intros Hid. split.
  - revert s Hid. induction n as [| n IH]; intros s Hid.
    + cbn. rewrite Z.add_0_r, (u32_small _ Hid), set_event_id_same.
      reflexivity.
    + cbn [event_generate_ids]. rewrite bind_event_generate_id.
      rewrite bind_run, IH by (sys_fields; apply Z.mod_pos_bound; lia).
      cbv beta iota. rewrite ret_run. sys_fields. f_equal. f_equal.
      * cbn [seq fmap list_fmap]. rewrite Z.add_0_r, (u32_small _ Hid).
        f_equal. rewrite <- fmap_S_seq, <- list_fmap_compose.
        apply list_fmap_ext. intros _ j _. cbn.
        rewrite u32_add_idemp_l. f_equal. lia.
      * rewrite u32_add_idemp_l. unfold set_event_id. cbn. do 2 f_equal. lia.
  - intros Hn. apply NoDup_fmap_2_strong; [| apply NoDup_seq].
    intros j k Hj Hk Heq.
    apply elem_of_seq in Hj. apply elem_of_seq in Hk.
    unfold u32 in Heq.
    assert ((Z.of_nat j - Z.of_nat k) mod 2 ^ 32 = 0) as Hmod.
    { replace (Z.of_nat j - Z.of_nat k)
        with ((event_id s + Z.of_nat j) - (event_id s + Z.of_nat k)) by lia.
      rewrite Zminus_mod, Heq, Z.sub_diag. reflexivity. }
    apply Z.mod_divide in Hmod; [| lia].
    destruct Hmod as [c Hc].
    assert (c = 0) by nia. lia.
Qed.

(** ** The buffer pool *)

Lemma alloc_event_absent (s : sys) (link_id : Z) :
  xlinkd s = None \/ XLINK_MAX_CONNECTIONS <= link_id ->
  alloc_event link_id s = Some (None, s).
Proof.
  intros Habs. unfold alloc_event.
  rewrite (bind_Some _ _ _ _ _ (get_dispatcher_by_id_absent _ _ Habs)).
  reflexivity.
Qed.

Lemma set_dispatcher_same (i : Z) (d : dispatcher) (x : xlink_dispatcher) :
  dispatchers x !! Z.to_nat i = Some d -> set_dispatcher i d x = x.
Proof.
  intros Hd. unfold set_dispatcher. rewrite (list_insert_id _ _ _ Hd).
  destruct x; reflexivity.
Qed.

Lemma set_xlinkd_same (s : sys) (x : xlink_dispatcher) :
  xlinkd s = Some x -> set_xlinkd (Some x) s = s.
Proof. intros Hx. destruct s. cbn in Hx. subst. reflexivity. Qed.

Lemma alloc_event_exhausted (s : sys) (link_id : Z) x d :
  xlinkd s = Some x -> link_id < XLINK_MAX_CONNECTIONS ->
  dispatchers x !! Z.to_nat link_id = Some d ->
  q_head (d_buff_queue d) = [] ->
  alloc_event link_id s = Some (None, s).
Proof.
  intros Hx Hlt Hd Hq. unfold alloc_event.
  rewrite (bind_Some _ _ _ _ _ (get_dispatcher_by_id_present _ _ _ Hx Hlt)).
  mstep. unfold event_dequeue_buffer. rewrite Hq. mstep. rewrite ret_run.
  assert (set_d_buff_queue (d_buff_queue d) d = d) as -> by (destruct d; reflexivity).
  rewrite (set_dispatcher_same _ _ _ Hd), (set_xlinkd_same _ _ Hx).
  reflexivity.
Qed.

(* no event to hand out: NULL, and nothing changes *)
Lemma create_event_unavailable
    (s : sys) (link_id : Z) (type : xlink_event_type)
    (handle : option xlink_handle) (chan size timeout : Z) :
  pool_unavailable s link_id ->
  alloc_event link_id s = Some (None, s)
  /\ xlink_create_event link_id type handle chan size timeout s
     = Some (None, s).
Proof.
  intros Hun. unfold pool_unavailable in Hun.
  assert (alloc_event link_id s = Some (None, s)) as Halloc.
  { destruct (xlinkd s) as [x |] eqn:Hx.
    - destruct (Z.lt_ge_cases link_id XLINK_MAX_CONNECTIONS) as [Hlt | Hge].
      + destruct Hun as [Hge | (d & Hd & Hq)]; [lia |].
        exact (alloc_event_exhausted s link_id x d Hx Hlt Hd Hq).
      + apply alloc_event_absent. right. exact Hge.
    - apply alloc_event_absent. left. exact Hx. }
  split; [exact Halloc |].
  unfold xlink_create_event. rewrite (bind_Some _ _ _ _ _ Halloc). reflexivity.
Qed.

(** X2: alloc_event and xlink_create_event return NULL and leave the whole
    state as it was when there is no dispatcher table, when link_id is not
    below XLINK_MAX_CONNECTIONS, or when the buffer pool of the link is
    empty; the handle is not looked at, so it may even be NULL. *)
Theorem xlink_create_event_unavailable
    (s : sys) (link_id : Z) (type : xlink_event_type)
    (handle : option xlink_handle) (chan size timeout : Z) :
  pool_unavailable s link_id ->
  alloc_event link_id s = Some (None, s)
  /\ xlink_create_event link_id type handle chan size timeout s
     = Some (None, s).
Proof.
  exact (create_event_unavailable s link_id type handle chan size timeout).
Qed.

(** X3: an event created by xlink_create_event and then destroyed by
    xlink_destroy_event goes from the head of the buffer pool of its link
    to the tail: the pool holds the same events, rotated by one, and its
    count is what it was. *)
Theorem create_then_destroy_rotates_pool
    (s : sys) (link_id : Z) (type : xlink_event_type) (h : xlink_handle)
    (chan size timeout : Z) (x : xlink_dispatcher) (d : dispatcher)
    (e : Z) (rest : list Z) (ev0 : xlink_event) :
  xlinkd s = Some x ->
  0 <= link_id < XLINK_MAX_CONNECTIONS ->
  dispatchers x !! Z.to_nat link_id = Some d ->
  q_head (d_buff_queue d) = e :: rest ->
  0 < q_count (d_buff_queue d) < 2 ^ 32 ->
  events s !! e = Some ev0 ->
  exists s1 s2 x2 d2,
    xlink_create_event link_id type (Some h) chan size timeout s
    = Some (Some e, s1)
    /\ xlink_destroy_event e s1 = Some (tt, s2)
    /\ xlinkd s2 = Some x2
    /\ dispatchers x2 !! Z.to_nat link_id = Some d2
    /\ q_head (d_buff_queue d2) = rest ++ [e]
    /\ q_count (d_buff_queue d2) = q_count (d_buff_queue d)
    /\ (forall j, j <> Z.to_nat link_id ->
        dispatchers x2 !! j = dispatchers x !! j).
Proof.
  intros Hx [Hge Hlt] Hd Hq Hcount Hev0.
  eexists _, _, _, _.
  split; [exact (xlink_create_event_pooled s link_id type h chan size timeout
                   x d e rest ev0 Hx Hlt Hd Hq Hev0) |].
  split.
  { unfold xlink_destroy_event.
    eapply free_event_registered.
    - sys_fields. apply lookup_insert_eq.
    - sys_fields. reflexivity.
    - cbn. exact Hlt.
    - cbn [ev_link_id created_event]. eapply set_dispatcher_lookup. exact Hd. }
  sys_fields. split; [reflexivity |].
  cbn [ev_link_id created_event]. rewrite set_dispatcher_twice.
  split; [eapply set_dispatcher_lookup; exact Hd |].
  cbn. split; [reflexivity |]. split.
  - rewrite (u32_small (q_count (d_buff_queue d) - 1)) by lia.
    rewrite u32_small by lia. lia.
  - intros j Hj. apply list_lookup_insert_ne. congruence.
Qed.

(** ** The send path *)

(** X4: dispatcher_event_send leaves the dispatcher table, the passthrough
    dispatcher, the id counter and every other event alone.  The event
    itself changes in one field only: when the payload write was issued
    (header written in full, write variant), header.size becomes the length
    the transport wrote back for that write, whatever its status; otherwise
    the event is untouched. *)
Theorem dispatcher_event_send_writes_back_size (s : sys) (event : Z)
    (ev : xlink_event) (h : xlink_handle) (x : xlink_dispatcher) :
  events s !! event = Some ev -> ev_handle ev = Some h -> xlinkd s = Some x ->
  let hdr := ev_header ev in
  let c1 := call_platform_write (ev_interface ev) (sw_device_id h)
              (header_buffer hdr) (header_transfer_size hdr) (h_timeout hdr) in
  let r1 := xlink_platform_write (log s) (ev_interface ev) (sw_device_id h)
              (header_buffer hdr) (header_transfer_size hdr) (h_timeout hdr) in
  let r2 := xlink_platform_write (log s ++ [c1]) (ev_interface ev)
              (sw_device_id h) (data_buffer (ev_data ev)) (h_size hdr)
              (h_timeout hdr) in
  let payload_written := bool_decide (r1.1 = 0)
                         && bool_decide (r1.2 = header_transfer_size hdr)
                         && write_variant (h_type hdr) in
  exists rc s',
    dispatcher_event_send event s = Some (rc, s')
    /\ xlinkd s' = xlinkd s
    /\ ipc_disp s' = ipc_disp s
    /\ event_id s' = event_id s
    /\ (forall e, e <> event -> events s' !! e = events s !! e)
    /\ events s' !! event
       = Some (if payload_written
               then set_ev_header (set_h_size r2.2 hdr) ev else ev).
Proof.
  intros Hev Hh Hx. cbv zeta.
  rewrite (dispatcher_event_send_run s event ev h x Hev Hh Hx). cbv zeta.
  destruct (xlink_platform_write (log s) _ _ (header_buffer _) _ _)
    as [rc1 len1]. cbn [fst snd].
  destruct (decide (rc1 = 0)) as [Hrc | Hrc];
    [destruct (decide (len1 = header_transfer_size (ev_header ev)))
       as [Hlen | Hlen] |].
  - rewrite (bool_decide_eq_false_2 (rc1 ≠ 0)) by (intros Hn; apply Hn, Hrc).
    rewrite (bool_decide_eq_false_2 (len1 ≠ _)) by (intros Hn; apply Hn, Hlen).
    rewrite (bool_decide_eq_true_2 (rc1 = 0)) by exact Hrc.
    rewrite (bool_decide_eq_true_2 (len1 = _)) by exact Hlen.
    cbn [orb andb].
    destruct (write_variant (h_type (ev_header ev))).
    + eexists _, _. split; [reflexivity |]. sys_fields.
      repeat split; try reflexivity.
      * intros e Hne. apply lookup_insert_ne. congruence.
      * apply lookup_insert_eq.
    + eexists _, _. split; [reflexivity |]. sys_fields.
      repeat split; try reflexivity. exact Hev.
  - rewrite (bool_decide_eq_true_2 (len1 ≠ _)) by exact Hlen.
    rewrite (bool_decide_eq_false_2 (len1 = _)) by exact Hlen.
    rewrite orb_true_r, andb_false_r. cbn [andb].
    eexists _, _. split; [reflexivity |]. sys_fields.
    repeat split; try reflexivity. exact Hev.
  - rewrite (bool_decide_eq_true_2 (rc1 ≠ 0)) by exact Hrc.
    rewrite (bool_decide_eq_false_2 (rc1 = 0)) by exact Hrc.
    cbn [orb andb].
    eexists _, _. split; [reflexivity |]. sys_fields.
    repeat split; try reflexivity. exact Hev.
Qed.

(** X5: when the header write fails or is short, dispatcher_event_send
    returns the status of that write as it is, so a short write of status 0
    makes it return 0.  It then sets error_printed and reports the failure
    only if error_printed was 0 before; nothing else is logged and no event
    changes. *)
Theorem dispatcher_event_send_header_failure (s : sys) (event : Z)
    (ev : xlink_event) (h : xlink_handle) (x : xlink_dispatcher) (rc1 len1 : Z) :
  events s !! event = Some ev -> ev_handle ev = Some h -> xlinkd s = Some x ->
  let hdr := ev_header ev in
  let c1 := call_platform_write (ev_interface ev) (sw_device_id h)
              (header_buffer hdr) (header_transfer_size hdr) (h_timeout hdr) in
  xlink_platform_write (log s) (ev_interface ev) (sw_device_id h)
    (header_buffer hdr) (header_transfer_size hdr) (h_timeout hdr)
  = (rc1, len1) ->
  rc1 <> 0 \/ len1 <> header_transfer_size hdr ->
  exists s',
    dispatcher_event_send event s = Some (rc1, s')
    /\ error_printed s' = 1
    /\ log s' = log s ++ c1 :: (if bool_decide (error_printed s = 0)
                                then [call_pr_err_write_header_failed rc1]
                                else [])
    /\ events s' = events s
    /\ xlinkd s' = xlinkd s.
Proof.
  intros Hev Hh Hx hdr c1 Hw Hfail.
  rewrite (dispatcher_event_send_run s event ev h x Hev Hh Hx). cbv zeta.
  fold hdr. rewrite Hw. cbn [fst snd].
  assert (bool_decide (rc1 ≠ 0) || bool_decide (len1 ≠ header_transfer_size hdr)
          = true) as ->.
  { destruct Hfail as [Hrc | Hlen].
    - rewrite (bool_decide_eq_true_2 _ Hrc). reflexivity.
    - rewrite (bool_decide_eq_true_2 (len1 ≠ _) Hlen). apply orb_true_r. }
  eexists. split; [reflexivity |]. sys_fields.
  split; [reflexivity |]. split; [| split; reflexivity].
  destruct (bool_decide (error_printed s = 0)).
  - rewrite <- app_assoc. reflexivity.
  - reflexivity.
Qed.

(** X6: error_printed after dispatcher_event_send: 1 after a failed or
    short header write, 0 after a header written in full for one of the four
    write variants, and unchanged after a header written in full for any
    other type; so a failure stays unreported again until a write variant
    got its header through. *)
Theorem dispatcher_event_send_error_printed (s : sys) (event : Z)
    (ev : xlink_event) (h : xlink_handle) (x : xlink_dispatcher) :
  events s !! event = Some ev -> ev_handle ev = Some h -> xlinkd s = Some x ->
  let hdr := ev_header ev in
  let r1 := xlink_platform_write (log s) (ev_interface ev) (sw_device_id h)
              (header_buffer hdr) (header_transfer_size hdr) (h_timeout hdr) in
  exists rc s',
    dispatcher_event_send event s = Some (rc, s')
    /\ error_printed s'
       = if bool_decide (r1.1 ≠ 0)
            || bool_decide (r1.2 ≠ header_transfer_size hdr)
         then 1
         else if write_variant (h_type hdr) then 0 else error_printed s.
Proof.
  intros Hev Hh Hx. cbv zeta.
  rewrite (dispatcher_event_send_run s event ev h x Hev Hh Hx). cbv zeta.
  destruct (bool_decide _ || bool_decide _);
    [| destruct (write_variant (h_type (ev_header ev)))];
    eexists _, _; (split; [reflexivity |]); reflexivity.
Qed.

(* the log of dispatcher_event_send starts with the header write *)
Lemma dispatcher_event_send_log_head (s : sys) (event : Z) (ev : xlink_event)
    (h : xlink_handle) (x : xlink_dispatcher) :
  events s !! event = Some ev -> ev_handle ev = Some h -> xlinkd s = Some x ->
  exists rc s' ev' l,
    dispatcher_event_send event s = Some (rc, s')
    /\ log s' = log s
                ++ call_platform_write (ev_interface ev) (sw_device_id h)
                     (header_buffer (ev_header ev))
                     (header_transfer_size (ev_header ev))
                     (h_timeout (ev_header ev)) :: l
    /\ xlinkd s' = Some x
    /\ event_id s' = event_id s
    /\ events s' !! event = Some ev'
    /\ ev_link_id ev' = ev_link_id ev
    /\ ev_origin ev' = ev_origin ev
    /\ h_id (ev_header ev') = h_id (ev_header ev).
Proof.
  intros Hev Hh Hx.
  rewrite (dispatcher_event_send_run s event ev h x Hev Hh Hx). cbv zeta.
  destruct (bool_decide _ || bool_decide _);
    [| destruct (write_variant (h_type (ev_header ev)))].
  - destruct (bool_decide (error_printed s = 0));
      eexists _, _, ev, _; (split; [reflexivity |]); sys_fields;
      (split; [rewrite <- ?app_assoc; reflexivity |]);
      repeat split; first [assumption | reflexivity].
  - destruct (bool_decide (ev_user_data ev = 1)), (bool_decide (_ ≠ 0));
      eexists _, _, _, _; (split; [reflexivity |]); sys_fields;
      (split; [rewrite <- ?app_assoc; reflexivity |]);
      (split; [exact Hx |]); (split; [reflexivity |]);
      (split; [apply lookup_insert_eq |]); repeat split; reflexivity.
  - eexists _, _, ev, []. split; [reflexivity |]. sys_fields.
    repeat split; first [assumption | reflexivity].
Qed.

(* a submit on a RUNNING dispatcher, with what it logs first *)
Lemma event_add_running_run
    (s : sys) (origin : xlink_event_origin) (event : Z) (ev : xlink_event)
    (h : xlink_handle) (x : xlink_dispatcher) (d : dispatcher) :
  events s !! event = Some ev ->
  ev_handle ev = Some h ->
  xlinkd s = Some x ->
  0 <= ev_link_id ev < XLINK_MAX_CONNECTIONS ->
  dispatchers x !! Z.to_nat (ev_link_id ev) = Some d ->
  d_state d = XLINK_DISPATCHER_RUNNING ->
  let id := if bool_decide (origin = EVENT_TX)
            then event_id s else h_id (ev_header ev) in
  let hdr := set_h_id id (ev_header ev) in
  exists s' l ev',
    xlink_dispatcher_event_add origin event s = Some (X_LINK_SUCCESS, s')
    /\ log s' = log s
                ++ call_platform_write (ev_interface ev) (sw_device_id h)
                     (header_buffer hdr) (header_transfer_size hdr)
                     (h_timeout hdr) :: l
    /\ event_id s' = (if bool_decide (origin = EVENT_TX)
                      then u32 (event_id s + 1) else event_id s)
    /\ events s' !! event = Some ev'
    /\ h_id (ev_header ev') = id
    /\ ev_origin ev' = origin.
Proof.
  intros Hev Hh Hx [Hge Hlt] Hd Hst. cbv zeta.
  unfold xlink_dispatcher_event_add. mstep.
  rewrite (bind_Some _ _ _ _ _ (get_dispatcher_by_id_present _ _ _ Hx Hlt)).
  mstep. rewrite bool_decide_eq_false_2 by (intros Hn; apply Hn, Hst).
  destruct (bool_decide (origin = EVENT_TX)).
  - rewrite bind_run, bind_event_generate_id.
    erewrite modify_event_Some by solve_lookup. cbv beta iota.
    erewrite bind_modify_event by solve_lookup. sys_fields.
    rewrite set_events_twice, insert_insert_eq.
    match goal with
    | |- context [@mbind M M_bind _ _ _ (dispatcher_event_send event) ?s1] =>
        destruct (dispatcher_event_send_log_head s1 event
                    (set_ev_origin origin
                       (set_ev_header (set_h_id (event_id s) (ev_header ev)) ev))
                    h x ltac:(solve_lookup) Hh ltac:(sys_fields; exact Hx))
          as (rc & s2 & ev2 & l & Hsend & Hlog & Hx2 & Hid2 & Hev2 & Hlink2
              & Horigin2 & Hhid2)
    end.
    rewrite (bind_Some _ _ _ _ _ Hsend).
    unfold xlink_destroy_event.
    erewrite (bind_Some _ _ _ _ _
                (free_event_registered s2 event ev2 x d Hev2 Hx2
                   ltac:(rewrite Hlink2; exact Hlt)
                   ltac:(rewrite Hlink2; exact Hd))).
    rewrite ret_run. eexists _, l, ev2. split; [reflexivity |]. sys_fields.
    split; [exact Hlog |]. split; [exact Hid2 |]. split; [exact Hev2 |].
    split; [exact Hhid2 | exact Horigin2].
  - rewrite bind_ret.
    erewrite bind_modify_event by solve_lookup.
    match goal with
    | |- context [@mbind M M_bind _ _ _ (dispatcher_event_send event) ?s1] =>
        destruct (dispatcher_event_send_log_head s1 event
                    (set_ev_origin origin ev)
                    h x ltac:(solve_lookup) Hh ltac:(sys_fields; exact Hx))
          as (rc & s2 & ev2 & l & Hsend & Hlog & Hx2 & Hid2 & Hev2 & Hlink2
              & Horigin2 & Hhid2)
    end.
    rewrite (bind_Some _ _ _ _ _ Hsend).
    unfold xlink_destroy_event.
    erewrite (bind_Some _ _ _ _ _
                (free_event_registered s2 event ev2 x d Hev2 Hx2
                   ltac:(rewrite Hlink2; exact Hlt)
                   ltac:(rewrite Hlink2; exact Hd))).
    rewrite ret_run. eexists _, l, ev2. split; [reflexivity |]. sys_fields.
    assert (set_h_id (h_id (ev_header ev)) (ev_header ev) = ev_header ev) as ->
      by (destruct (ev_header ev); reflexivity).
    split; [exact Hlog |]. split; [exact Hid2 |]. split; [exact Hev2 |].
    split; [exact Hhid2 | exact Horigin2].
Qed.

(** X7: a submit of origin EVENT_TX on a RUNNING dispatcher stamps the
    event with the current value of the id counter, sends the header with
    that id and advances the counter by one modulo 2^32; a submit of origin
    EVENT_RX sends the header with the id the event already had and leaves
    the counter alone.  Either way the event carries the origin when it is
    back on the pool. *)
Theorem event_add_assigns_id
    (s : sys) (origin : xlink_event_origin) (event : Z) (ev : xlink_event)
    (h : xlink_handle) (x : xlink_dispatcher) (d : dispatcher) :
  events s !! event = Some ev ->
  ev_handle ev = Some h ->
  xlinkd s = Some x ->
  0 <= ev_link_id ev < XLINK_MAX_CONNECTIONS ->
  dispatchers x !! Z.to_nat (ev_link_id ev) = Some d ->
  d_state d = XLINK_DISPATCHER_RUNNING ->
  let id := if bool_decide (origin = EVENT_TX)
            then event_id s else h_id (ev_header ev) in
  let hdr := set_h_id id (ev_header ev) in
  exists s' l ev',
    xlink_dispatcher_event_add origin event s = Some (X_LINK_SUCCESS, s')
    /\ log s' = log s
                ++ call_platform_write (ev_interface ev) (sw_device_id h)
                     (header_buffer hdr) (header_transfer_size hdr)
                     (h_timeout hdr) :: l
    /\ event_id s' = (if bool_decide (origin = EVENT_TX)
                      then u32 (event_id s + 1) else event_id s)
    /\ events s' !! event = Some ev'
    /\ h_id (ev_header ev') = id
    /\ ev_origin ev' = origin.
Proof. exact (event_add_running_run s origin event ev h x d). Qed.

(** ** Stopping a dispatcher *)

(* a stop on a dispatcher that is missing or not RUNNING *)
Lemma stop_not_running (s : sys) (id : Z)
    (x : xlink_dispatcher) :
  xlinkd s = Some x ->
  not_running s (u32 id) ->
  xlink_dispatcher_stop id s = Some (X_LINK_ERROR, s).
Proof.
  intros Hx Hnr. unfold not_running in Hnr. rewrite Hx in Hnr.
  unfold xlink_dispatcher_stop. mstep. rewrite Hx. mstep.
  destruct (Z.lt_ge_cases (u32 id) XLINK_MAX_CONNECTIONS) as [Hlt | Hge].
  - destruct Hnr as [Hge | (d & Hd & Hst)]; [lia |].
    rewrite (bind_Some _ _ _ _ _ (get_dispatcher_by_id_present _ _ _ Hx Hlt)).
    mstep. rewrite (bool_decide_eq_true_2 _ Hst). reflexivity.
  - rewrite (bind_Some _ _ _ _ _
               (get_dispatcher_by_id_absent _ _ (or_intror Hge))).
    reflexivity.
Qed.

(** X8: xlink_dispatcher_stop returns X_LINK_ERROR and changes nothing
    when the dispatcher selected by id (converted to u32) is missing or is
    not RUNNING: a stop before start, a second stop, a stop of a failed
    dispatcher or of an unknown link stops no thread. *)
Theorem xlink_dispatcher_stop_rejected (s : sys) (id : Z)
    (x : xlink_dispatcher) :
  xlinkd s = Some x ->
  not_running s (u32 id) ->
  xlink_dispatcher_stop id s = Some (X_LINK_ERROR, s).
Proof. exact (stop_not_running s id x). Qed.

(* what xlink_dispatcher_stop does on a RUNNING dispatcher that has its
   two workers *)
Lemma xlink_dispatcher_stop_run (s : sys) (id : Z) (x : xlink_dispatcher)
    (d : dispatcher) (rx tx : Z) :
  xlinkd s = Some x ->
  0 <= id < XLINK_MAX_CONNECTIONS -> id < 2 ^ 32 ->
  dispatchers x !! Z.to_nat id = Some d ->
  d_state d = XLINK_DISPATCHER_RUNNING ->
  d_rxthread d = Some rx -> IS_ERR rx = false ->
  d_txthread d = Some tx -> IS_ERR tx = false ->
  let rc_rx := kthread_stop (log s) rx in
  let log_rx := log s ++ [call_kthread_stop rx] in
  let rc_tx := kthread_stop log_rx tx in
  let log_tx := log_rx ++ [call_kthread_stop tx] in
  xlink_dispatcher_stop id s
  = if bool_decide (rc_rx ≠ 0) then
      Some (X_LINK_ERROR,
            set_xlinkd
              (Some (set_dispatcher id (set_d_state XLINK_DISPATCHER_ERROR d) x))
              (set_log log_rx s))
    else if bool_decide (rc_tx ≠ 0) then
      Some (X_LINK_ERROR,
            set_xlinkd
              (Some (set_dispatcher id (set_d_state XLINK_DISPATCHER_ERROR d) x))
              (set_log log_tx s))
    else
      Some (X_LINK_SUCCESS,
            set_xlinkd
              (Some (set_dispatcher id (set_d_state XLINK_DISPATCHER_STOPPED d) x))
              (set_log log_tx s)).
Proof.
  intros Hx [Hge Hlt] Hu32 Hd Hst Hrx Herx Htx Hetx. cbv zeta.
  unfold xlink_dispatcher_stop. mstep. rewrite Hx. mstep.
  rewrite (u32_small id) by lia.
  rewrite (bind_Some _ _ _ _ _ (get_dispatcher_by_id_present _ _ _ Hx Hlt)).
  mstep. rewrite bool_decide_eq_false_2 by (intros Hn; apply Hn, Hst).
  rewrite Hrx. cbn [stop_thread wait_for_exit]. rewrite Herx.
  rewrite bind_do_kthread_stop. sys_fields.
  destruct (bool_decide (kthread_stop (log s) rx ≠ 0)).
  - unfold stop_r_thread, stop_r_error. mstep. rewrite ret_run. reflexivity.
  - do 2 mstep. rewrite Htx. cbn [stop_thread wait_for_exit]. rewrite Hetx.
    rewrite bind_do_kthread_stop. sys_fields.
    destruct (bool_decide (kthread_stop _ tx ≠ 0)).
    + unfold stop_r_thread, stop_r_error. mstep. rewrite ret_run. reflexivity.
    + do 2 mstep. rewrite ret_run. reflexivity.
Qed.

(** X9: xlink_dispatcher_stop on a RUNNING dispatcher with its two
    workers stops the RX worker first and the TX worker second.  If
    kthread_stop returns non-zero for the RX worker the TX worker is not
    stopped at all.  The call succeeds exactly when both kthread_stop
    returned 0, and then the state is STOPPED; otherwise the state is ERROR.
    In no case is the dispatcher still RUNNING, and no other dispatcher, no
    event and no thread handle changes. *)
Theorem xlink_dispatcher_stop_transitions (s : sys) (id : Z)
    (x : xlink_dispatcher) (d : dispatcher) (rx tx : Z) :
  xlinkd s = Some x ->
  0 <= id < XLINK_MAX_CONNECTIONS -> id < 2 ^ 32 ->
  dispatchers x !! Z.to_nat id = Some d ->
  d_state d = XLINK_DISPATCHER_RUNNING ->
  d_rxthread d = Some rx -> IS_ERR rx = false ->
  d_txthread d = Some tx -> IS_ERR tx = false ->
  let rc_rx := kthread_stop (log s) rx in
  let log_rx := log s ++ [call_kthread_stop rx] in
  let rc_tx := kthread_stop log_rx tx in
  let log_tx := log_rx ++ [call_kthread_stop tx] in
  exists r s' st,
    xlink_dispatcher_stop id s = Some (r, s')
    /\ xlinkd s' = Some (set_dispatcher id (set_d_state st d) x)
    /\ events s' = events s
    /\ st <> XLINK_DISPATCHER_RUNNING
    /\ (r = X_LINK_SUCCESS <-> rc_rx = 0 /\ rc_tx = 0)
    /\ (r = X_LINK_SUCCESS -> st = XLINK_DISPATCHER_STOPPED)
    /\ (r <> X_LINK_SUCCESS -> st = XLINK_DISPATCHER_ERROR)
    /\ log s' = (if bool_decide (rc_rx ≠ 0) then log_rx else log_tx).
Proof.
  intros Hx Hid Hu32 Hd Hst Hrx Herx Htx Hetx. cbv zeta.
  rewrite (xlink_dispatcher_stop_run s id x d rx tx Hx Hid Hu32 Hd Hst
             Hrx Herx Htx Hetx).
  cbv zeta.
  destruct (decide (kthread_stop (log s) rx = 0)) as [Hrc | Hrc].
  - rewrite (bool_decide_eq_false_2 (_ ≠ 0)) by (intros Hn; apply Hn, Hrc).
    destruct (decide (kthread_stop (log s ++ [call_kthread_stop rx]) tx = 0))
      as [Hrc' | Hrc'].
    + rewrite (bool_decide_eq_false_2 (_ ≠ 0)) by (intros Hn; apply Hn, Hrc').
      eexists _, _, _. split; [reflexivity |]. sys_fields.
      repeat split; try reflexivity; try discriminate; try assumption.
      intros Hn. exfalso. apply Hn. reflexivity.
    + rewrite (bool_decide_eq_true_2 (_ ≠ 0)) by exact Hrc'.
      eexists _, _, _. split; [reflexivity |]. sys_fields.
      repeat split; try reflexivity; try discriminate; try assumption.
      intros [_ Hn]. contradiction.
  - rewrite (bool_decide_eq_true_2 (_ ≠ 0)) by exact Hrc.
    eexists _, _, _. split; [reflexivity |]. sys_fields.
    repeat split; try reflexivity; try discriminate; try assumption.
    intros [Hn _]. contradiction.
Qed.

(** ** Starting a dispatcher, continued *)

(** X10: xlink_dispatcher_start from INIT or STOPPED, on a dispatcher
    whose link id is its index and whose pool holds an event, with a
    kthread_run that hands back workers or NULL.  The call returns; it
    changes the one dispatcher it starts and no other, and not the id
    counter.  It binds handle and interface before any worker is created, so
    they are bound even when the call then fails; the link id and the
    pending queue of the dispatcher are kept.  The state ends RUNNING exactly
    when the call succeeds and STOPPED when it fails.  When the TX or the RX
    worker was not created, the pool and every event are as before.  Once
    the RX worker was created it holds the event that was at the head of the
    pool, rewritten as xlink_create_event leaves it (type 0, the link and the
    handle of the dispatcher): the pool is one event short, whether the call
    then succeeds or fails on the passthrough thread, and no other event has
    changed. *)
Theorem xlink_dispatcher_start_binds_handle (s : sys) (id : Z)
    (h : xlink_handle) (x : xlink_dispatcher) (d : dispatcher)
    (e : Z) (rest : list Z) (ev0 : xlink_event) :
  xlinkd s = Some x ->
  0 <= id < XLINK_MAX_CONNECTIONS -> id < 2 ^ 32 ->
  dispatchers x !! Z.to_nat id = Some d ->
  d_state d = XLINK_DISPATCHER_INIT \/ d_state d = XLINK_DISPATCHER_STOPPED ->
  d_link_id d = id ->
  q_head (d_buff_queue d) = e :: rest ->
  events s !! e = Some ev0 ->
  let run_tx := call_kthread_run xlink_dispatcher_txthread_fn (context_disp id) in
  let run_rx := call_kthread_run xlink_dispatcher_rxthread_fn (context_disp id) in
  let tx := kthread_run (log s) xlink_dispatcher_txthread_fn (context_disp id) in
  let rx := kthread_run (log s ++ [run_tx]) xlink_dispatcher_rxthread_fn
              (context_disp id) in
  let ipc := kthread_run ((log s ++ [run_tx]) ++ [run_rx])
               xlink_dispatcher_ipc_passthru_rxthread_fn context_ipc_disp in
  not_error tx -> not_error rx -> not_error ipc ->
  exists r s' x' d',
    xlink_dispatcher_start id (Some h) s = Some (r, s')
    /\ xlinkd s' = Some x'
    /\ dispatchers x' !! Z.to_nat id = Some d'
    /\ (forall j, j <> Z.to_nat id -> dispatchers x' !! j = dispatchers x !! j)
    /\ dev x' = dev x
    /\ event_id s' = event_id s
    /\ d_handle d' = Some h
    /\ d_interface d' = get_interface_from_sw_device_id (sw_device_id h)
    /\ d_link_id d' = d_link_id d
    /\ d_queue d' = d_queue d
    /\ (r = X_LINK_SUCCESS <-> d_state d' = XLINK_DISPATCHER_RUNNING)
    /\ (r <> X_LINK_SUCCESS -> d_state d' = XLINK_DISPATCHER_STOPPED)
    /\ (tx = None \/ rx = None ->
        events s' = events s /\ d_buff_queue d' = d_buff_queue d)
    /\ (is_Some tx -> is_Some rx ->
        q_head (d_buff_queue d') = rest
        /\ q_count (d_buff_queue d') = u32 (q_count (d_buff_queue d) - 1)
        /\ events s'
           = <[e := created_event ev0 id XLINK_EVENT_TYPE_ZERO h 0 0 0]>
               (events s)).
Proof.
  intros Hx Hid Hu32 Hd Hst Hlink Hq Hev0 run_tx run_rx tx rx ipc Htx Hrx Hipc.
  assert (d_state d <> XLINK_DISPATCHER_RUNNING) as Hrun
    by (destruct Hst as [-> | ->]; discriminate).
  assert (d_state d <> XLINK_DISPATCHER_ERROR) as Herror
    by (destruct Hst as [-> | ->]; discriminate).
  rewrite (xlink_dispatcher_start_run s id h x d Hx Hid Hu32 Hd Hlink
             Hrun Herror).
  cbv zeta. fold run_tx run_rx tx rx ipc. rewrite Hq, Hev0.
  assert (forall d', forall j, j <> Z.to_nat id ->
            dispatchers (set_dispatcher id d' x) !! j = dispatchers x !! j)
    as Hframe.
  { intros d' j Hj. apply list_lookup_insert_ne. congruence. }
  destruct tx as [t |];
    [rewrite (Htx t eq_refl);
     destruct rx as [t' |];
     [rewrite (Hrx t' eq_refl);
      destruct (CONFIG_XLINK_LOCAL_HOST && _);
      [destruct ipc as [ti |]; [rewrite (Hipc ti eq_refl) |] |] |] |];
    eexists _, _, _, _; (split; [reflexivity |]); sys_fields;
    (split; [reflexivity |]);
    (split; [eapply set_dispatcher_lookup; exact Hd |]);
    (split; [apply Hframe |]);
    cbn; repeat split; try reflexivity; try discriminate; try congruence;
    try solve [ match goal with
                | H : _ = None \/ _ = None |- _ => destruct H; discriminate
                | H : is_Some None |- _ => destruct H as [? ?]; discriminate
                end ].
Qed.

(** X11: with the passthrough dispatcher compiled in and not RUNNING, when
    both workers of the link were created, the RX worker found its event in
    the pool, and kthread_run returns NULL for the passthrough thread,
    xlink_dispatcher_start fails and leaves the state STOPPED; the TX
    worker is stopped, the RX worker is not: its task stays in the
    dispatcher, it keeps the event it took from the pool, and the only
    kthread_stop logged is the one of the TX worker.  The passthrough
    dispatcher has taken the link id and keeps its state. *)
Theorem xlink_dispatcher_start_passthru_failure (s : sys) (id : Z)
    (h : xlink_handle) (x : xlink_dispatcher) (d : dispatcher) (t t' : Z)
    (e : Z) (rest : list Z) (ev0 : xlink_event) :
  xlinkd s = Some x ->
  0 <= id < XLINK_MAX_CONNECTIONS -> id < 2 ^ 32 ->
  dispatchers x !! Z.to_nat id = Some d ->
  d_state d = XLINK_DISPATCHER_INIT \/ d_state d = XLINK_DISPATCHER_STOPPED ->
  d_link_id d = id ->
  q_head (d_buff_queue d) = e :: rest ->
  events s !! e = Some ev0 ->
  CONFIG_XLINK_LOCAL_HOST = true ->
  d_state (ipc_disp s) <> XLINK_DISPATCHER_RUNNING ->
  let run_tx := call_kthread_run xlink_dispatcher_txthread_fn (context_disp id) in
  let run_rx := call_kthread_run xlink_dispatcher_rxthread_fn (context_disp id) in
  let run_ipc := call_kthread_run xlink_dispatcher_ipc_passthru_rxthread_fn
                   context_ipc_disp in
  kthread_run (log s) xlink_dispatcher_txthread_fn (context_disp id) = Some t ->
  IS_ERR t = false ->
  kthread_run (log s ++ [run_tx]) xlink_dispatcher_rxthread_fn (context_disp id)
  = Some t' ->
  IS_ERR t' = false ->
  kthread_run ((log s ++ [run_tx]) ++ [run_rx])
    xlink_dispatcher_ipc_passthru_rxthread_fn context_ipc_disp = None ->
  exists s' x' d',
    xlink_dispatcher_start id (Some h) s = Some (X_LINK_ERROR, s')
    /\ xlinkd s' = Some x'
    /\ dispatchers x' !! Z.to_nat id = Some d'
    /\ d_state d' = XLINK_DISPATCHER_STOPPED
    /\ d_txthread d' = Some t
    /\ d_rxthread d' = Some t'
    /\ q_head (d_buff_queue d') = rest
    /\ log s' = log s ++ [run_tx; run_rx; run_ipc; call_kthread_stop t]
    /\ d_link_id (ipc_disp s') = d_link_id d
    /\ d_rxthread (ipc_disp s') = None
    /\ d_state (ipc_disp s') = d_state (ipc_disp s).
Proof.
  intros Hx Hid Hu32 Hd Hst Hlink Hq Hev0 Hcfg Hipc run_tx run_rx run_ipc
    Htx Ht Hrx Ht' Hti.
  assert (d_state d <> XLINK_DISPATCHER_RUNNING) as Hrun
    by (destruct Hst as [-> | ->]; discriminate).
  assert (d_state d <> XLINK_DISPATCHER_ERROR) as Herror
    by (destruct Hst as [-> | ->]; discriminate).
  rewrite (xlink_dispatcher_start_run s id h x d Hx Hid Hu32 Hd Hlink
             Hrun Herror).
  cbv zeta. fold run_tx run_rx run_ipc.
  rewrite Htx, Ht, Hrx, Ht', Hq, Hev0, Hti, Hcfg, (bool_decide_eq_true_2 _ Hipc).
  cbn [andb].
  eexists _, _, _. split; [reflexivity |]. sys_fields.
  split; [reflexivity |].
  split; [eapply set_dispatcher_lookup; exact Hd |].
  cbn. repeat split; try reflexivity.
  rewrite <- !app_assoc. reflexivity.
Qed.

Lemma u32_of_invalid_id (id : Z) :
  - 2 ^ 31 <= id < 2 ^ 31 ->
  XLINK_MAX_CONNECTIONS <= 2 ^ 31 ->
  id < 0 \/ XLINK_MAX_CONNECTIONS <= id ->
  XLINK_MAX_CONNECTIONS <= u32 id.
Proof.
  intros Hint Hmax Hout. unfold u32.
  destruct (Z.lt_ge_cases id 0) as [Hneg | Hpos].
  - rewrite <- (Z.mod_add id 1) by lia. rewrite Z.mod_small; lia.
  - rewrite Z.mod_small; lia.
Qed.

(** X12: xlink_dispatcher_stop takes the link id as an int and looks it
    up as a u32: for every int id outside 0 .. XLINK_MAX_CONNECTIONS - 1,
    negative ones included, it returns X_LINK_ERROR and changes nothing. *)
Theorem stop_rejects_invalid_id (s : sys) (id : Z) (x : xlink_dispatcher) :
  xlinkd s = Some x ->
  - 2 ^ 31 <= id < 2 ^ 31 ->
  XLINK_MAX_CONNECTIONS <= 2 ^ 31 ->
  id < 0 \/ XLINK_MAX_CONNECTIONS <= id ->
  xlink_dispatcher_stop id s = Some (X_LINK_ERROR, s).
Proof.
  intros Hx Hint Hmax Hout.
  pose proof (u32_of_invalid_id id Hint Hmax Hout) as Hge.
  unfold xlink_dispatcher_stop. mstep. rewrite Hx. mstep.
  rewrite (bind_Some _ _ _ _ _
             (get_dispatcher_by_id_absent _ _ (or_intror Hge))).
  reflexivity.
Qed.

(** ** The life cycle of a link *)

(* a submit on a dispatcher that is missing or not RUNNING *)
Lemma event_add_not_running (s : sys) (origin : xlink_event_origin)
    (event : Z) (ev : xlink_event) :
  events s !! event = Some ev ->
  not_running s (ev_link_id ev) ->
  xlink_dispatcher_event_add origin event s = Some (X_LINK_ERROR, s).
Proof.
  intros Hev Hnr. unfold xlink_dispatcher_event_add. mstep.
  unfold not_running in Hnr.
  destruct (xlinkd s) as [x |] eqn:Hx.
  - destruct (Z.lt_ge_cases (ev_link_id ev) XLINK_MAX_CONNECTIONS) as [Hlt | Hge].
    + destruct Hnr as [Hge | (d & Hd & Hst)]; [lia |].
      rewrite (bind_Some _ _ _ _ _ (get_dispatcher_by_id_present _ _ _ Hx Hlt)).
      mstep. rewrite (bool_decide_eq_true_2 _ Hst). reflexivity.
    + rewrite (bind_Some _ _ _ _ _
                 (get_dispatcher_by_id_absent _ _ (or_intror Hge))).
      reflexivity.
  - rewrite (bind_Some _ _ _ _ _
               (get_dispatcher_by_id_absent _ _ (or_introl Hx))).
    reflexivity.
Qed.

(** X13: a submit right after xlink_dispatcher_start, from INIT or
    STOPPED, on an event of the started link, returns what the start
    returned: X_LINK_SUCCESS after a successful start, and X_LINK_ERROR with
    nothing sent or changed after a failed one.  The start is one that
    returns: the link id of the dispatcher is its index, its pool holds an
    event for the RX worker, and kthread_run hands back workers or NULL. *)
Theorem submit_after_start (s : sys) (id : Z) (h he : xlink_handle)
    (x : xlink_dispatcher) (d : dispatcher)
    (origin : xlink_event_origin) (event : Z) (ev : xlink_event)
    (e : Z) (rest : list Z) (ev0 : xlink_event) :
  xlinkd s = Some x ->
  0 <= id < XLINK_MAX_CONNECTIONS -> id < 2 ^ 32 ->
  dispatchers x !! Z.to_nat id = Some d ->
  d_state d = XLINK_DISPATCHER_INIT \/ d_state d = XLINK_DISPATCHER_STOPPED ->
  events s !! event = Some ev ->
  ev_link_id ev = id ->
  ev_handle ev = Some he ->
  d_link_id d = id ->
  q_head (d_buff_queue d) = e :: rest ->
  events s !! e = Some ev0 ->
  (forall l fn context, not_error (kthread_run l fn context)) ->
  exists r s1 s2,
    xlink_dispatcher_start id (Some h) s = Some (r, s1)
    /\ xlink_dispatcher_event_add origin event s1 = Some (r, s2)
    /\ (r = X_LINK_ERROR -> s2 = s1).
Proof.
  intros Hx Hid Hu32 Hd Hst Hev Hlink Hhe Hdlink Hq Hev0 Hworkers.
  assert (d_state d <> XLINK_DISPATCHER_RUNNING) as Hrun
    by (destruct Hst as [-> | ->]; discriminate).
  assert (d_state d <> XLINK_DISPATCHER_ERROR) as Herror
    by (destruct Hst as [-> | ->]; discriminate).
  rewrite (xlink_dispatcher_start_run s id h x d Hx Hid Hu32 Hd Hdlink
             Hrun Herror).
  cbv zeta. rewrite Hq, Hev0.
  assert (forall s1 d' ev1,
            xlinkd s1 = Some (set_dispatcher id d' x) ->
            d_state d' = XLINK_DISPATCHER_STOPPED ->
            events s1 !! event = Some ev1 -> ev_link_id ev1 = id ->
            exists s2,
              xlink_dispatcher_event_add origin event s1 = Some (X_LINK_ERROR, s2)
              /\ (X_LINK_ERROR = X_LINK_ERROR -> s2 = s1)) as Hfail.
  { intros s1 d' ev1 Hx1 Hd' Hev1 Hlink1. exists s1. split; [| reflexivity].
    apply (event_add_not_running s1 origin event ev1 Hev1).
    unfold not_running. rewrite Hx1. right. exists d'.
    split; [rewrite Hlink1; eapply set_dispatcher_lookup; exact Hd |].
    rewrite Hd'. discriminate. }
  assert (forall s1 d' ev1 h1,
            xlinkd s1 = Some (set_dispatcher id d' x) ->
            d_state d' = XLINK_DISPATCHER_RUNNING ->
            events s1 !! event = Some ev1 -> ev_link_id ev1 = id ->
            ev_handle ev1 = Some h1 ->
            exists s2,
              xlink_dispatcher_event_add origin event s1 = Some (X_LINK_SUCCESS, s2)
              /\ (X_LINK_SUCCESS = X_LINK_ERROR -> s2 = s1)) as Hgood.
  { intros s1 d' ev1 h1 Hx1 Hd' Hev1 Hlink1 Hh1.
    destruct (event_add_running_run s1 origin event ev1 h1
                (set_dispatcher id d' x) d')
      as (s2 & _ & _ & Hadd & _).
    - exact Hev1.
    - exact Hh1.
    - exact Hx1.
    - rewrite Hlink1. exact Hid.
    - rewrite Hlink1. eapply set_dispatcher_lookup. exact Hd.
    - exact Hd'.
    - exists s2. split; [exact Hadd | discriminate]. }
  assert (exists ev1 h1,
            <[e := created_event ev0 id XLINK_EVENT_TYPE_ZERO h 0 0 0]> (events s)
              !! event = Some ev1
            /\ ev_link_id ev1 = id /\ ev_handle ev1 = Some h1)
    as (ev1 & h1 & Hev1 & Hlink1 & Hh1).
  { destruct (decide (event = e)) as [-> | Hne].
    - eexists _, _. rewrite lookup_insert_eq. repeat split.
    - exists ev, he. rewrite lookup_insert_ne by congruence. auto. }
  destruct (kthread_run (log s) _ _) as [t |] eqn:Htx;
    [rewrite (Hworkers _ _ _ t Htx);
     destruct (kthread_run (log s ++ _) _ _) as [t' |] eqn:Hrx;
     [rewrite (Hworkers _ _ _ t' Hrx);
      destruct (CONFIG_XLINK_LOCAL_HOST && _);
      [destruct (kthread_run ((log s ++ _) ++ _) _ _) as [ti |] eqn:Hti;
       [rewrite (Hworkers _ _ _ ti Hti) |] |] |] |].
  - edestruct Hgood as (s2 & Hadd & Hs2);
      [| | | | | eexists _, _, s2; split; [reflexivity |];
                 split; [exact Hadd | exact Hs2]];
      [reflexivity | reflexivity | exact Hev1 | exact Hlink1 | exact Hh1].
  - edestruct Hfail as (s2 & Hadd & Hs2);
      [| | | | eexists _, _, s2; split; [reflexivity |];
               split; [exact Hadd | exact Hs2]];
      [reflexivity | reflexivity | exact Hev1 | exact Hlink1].
  - edestruct Hgood as (s2 & Hadd & Hs2);
      [| | | | | eexists _, _, s2; split; [reflexivity |];
                 split; [exact Hadd | exact Hs2]];
      [reflexivity | reflexivity | exact Hev1 | exact Hlink1 | exact Hh1].
  - edestruct Hfail as (s2 & Hadd & Hs2);
      [| | | | eexists _, _, s2; split; [reflexivity |];
               split; [exact Hadd | exact Hs2]];
      [reflexivity | reflexivity | exact Hev | exact Hlink].
  - edestruct Hfail as (s2 & Hadd & Hs2);
      [| | | | eexists _, _, s2; split; [reflexivity |];
               split; [exact Hadd | exact Hs2]];
      [reflexivity | reflexivity | exact Hev | exact Hlink].
Qed.

(** X14: after xlink_dispatcher_stop on a RUNNING dispatcher with its
    two workers, whatever it returned, a submit on that link and a second
    stop both return X_LINK_ERROR and change nothing; and when the stop
    failed (state ERROR) a start returns X_LINK_ERROR and changes nothing as
    well. *)
Theorem after_stop_nothing_runs (s : sys) (id : Z)
    (x : xlink_dispatcher) (d : dispatcher)
    (origin : xlink_event_origin) (event : Z) (ev : xlink_event)
    (handle : option xlink_handle) :
  xlinkd s = Some x ->
  0 <= id < XLINK_MAX_CONNECTIONS -> id < 2 ^ 32 ->
  dispatchers x !! Z.to_nat id = Some d ->
  d_state d = XLINK_DISPATCHER_RUNNING ->
  worker (d_rxthread d) -> worker (d_txthread d) ->
  events s !! event = Some ev ->
  ev_link_id ev = id ->
  exists r s1,
    xlink_dispatcher_stop id s = Some (r, s1)
    /\ xlink_dispatcher_event_add origin event s1 = Some (X_LINK_ERROR, s1)
    /\ xlink_dispatcher_stop id s1 = Some (X_LINK_ERROR, s1)
    /\ (r <> X_LINK_SUCCESS ->
        xlink_dispatcher_start id handle s1 = Some (X_LINK_ERROR, s1)).
Proof.
  intros Hx Hid Hu32 Hd Hst (rx & Hrx & Herx) (tx & Htx & Hetx) Hev Hlink.
  rewrite (xlink_dispatcher_stop_run s id x d rx tx Hx Hid Hu32 Hd Hst
             Hrx Herx Htx Hetx).
  cbv zeta.
  assert (forall st l,
            st <> XLINK_DISPATCHER_RUNNING ->
            let s1 := set_xlinkd (Some (set_dispatcher id (set_d_state st d) x))
                        (set_log l s) in
            xlink_dispatcher_event_add origin event s1 = Some (X_LINK_ERROR, s1)
            /\ xlink_dispatcher_stop id s1 = Some (X_LINK_ERROR, s1)
            /\ (st = XLINK_DISPATCHER_ERROR ->
                xlink_dispatcher_start id handle s1 = Some (X_LINK_ERROR, s1)))
    as Hafter.
  { intros st l Hne s1.
    assert (dispatchers (set_dispatcher id (set_d_state st d) x) !! Z.to_nat id
            = Some (set_d_state st d)) as Hd1
      by (eapply set_dispatcher_lookup; exact Hd).
    split; [| split].
    - apply (event_add_not_running s1 origin event ev); [exact Hev |].
      unfold not_running. subst s1. sys_fields. right. eexists.
      rewrite Hlink. split; [exact Hd1 | exact Hne].
    - eapply stop_not_running; [reflexivity |].
      unfold not_running. subst s1. sys_fields. right. eexists.
      rewrite (u32_small id) by lia. split; [exact Hd1 | exact Hne].
    - intros ->.
      eapply start_not_startable; [reflexivity | exact Hid | exact Hu32
                                  | exact Hd1 | right; reflexivity]. }
  destruct (bool_decide (kthread_stop (log s) rx ≠ 0));
    [| destruct (bool_decide (kthread_stop _ tx ≠ 0))].
  - destruct (Hafter XLINK_DISPATCHER_ERROR
                (log s ++ [call_kthread_stop rx])
                ltac:(discriminate)) as (Ha & Hb & Hc).
    eexists _, _. split; [reflexivity |]. split; [exact Ha |].
    split; [exact Hb |]. intros _. apply Hc. reflexivity.
  - destruct (Hafter XLINK_DISPATCHER_ERROR
                ((log s ++ [call_kthread_stop rx]) ++ [call_kthread_stop tx])
                ltac:(discriminate)) as (Ha & Hb & Hc).
    eexists _, _. split; [reflexivity |]. split; [exact Ha |].
    split; [exact Hb |]. intros _. apply Hc. reflexivity.
  - destruct (Hafter XLINK_DISPATCHER_STOPPED
                ((log s ++ [call_kthread_stop rx]) ++ [call_kthread_stop tx])
                ltac:(discriminate)) as (Ha & Hb & Hc).
    eexists _, _. split; [reflexivity |]. split; [exact Ha |].
    split; [exact Hb |]. intros Hn. exfalso. apply Hn. reflexivity.
Qed.

(** ** Admission to the passthrough queue *)

Lemma set_d_queue_same (d : dispatcher) : set_d_queue (d_queue d) d = d.
Proof. destruct d; reflexivity. Qed.

Lemma set_ipc_disp_same (s : sys) : set_ipc_disp (ipc_disp s) s = s.
Proof. destruct s; reflexivity. Qed.

(** X15: xlink_dispatcher_ipc_passthru_event_add.  Without
    CONFIG_XLINK_LOCAL_HOST it returns X_LINK_SUCCESS and does nothing.
    With it, the event is accepted exactly when the passthrough dispatcher
    is RUNNING and its queue holds fewer than 7 * (capacity / 10) events:
    then the event is appended to that queue and the call returns
    X_LINK_SUCCESS; otherwise it returns X_LINK_ERROR and changes nothing. *)
Theorem ipc_passthru_event_add_admission (s : sys) (event : Z) :
  queue_wf (d_queue (ipc_disp s)) ->
  let q := d_queue (ipc_disp s) in
  xlink_dispatcher_ipc_passthru_event_add event s =
    if CONFIG_XLINK_LOCAL_HOST then
      if bool_decide (d_state (ipc_disp s) = XLINK_DISPATCHER_RUNNING)
         && bool_decide (q_count q < 7 * (q_capacity q / 10))
      then Some (X_LINK_SUCCESS,
                 set_ipc_disp
                   (set_d_queue (set_q q (q_count q + 1) (q_head q ++ [event]))
                      (ipc_disp s)) s)
      else Some (X_LINK_ERROR, s)
    else Some (X_LINK_SUCCESS, s).
Proof.
  intros Hwf q. unfold xlink_dispatcher_ipc_passthru_event_add.
  destruct CONFIG_XLINK_LOCAL_HOST; [| reflexivity].
  mstep.
  destruct (decide (d_state (ipc_disp s) = XLINK_DISPATCHER_RUNNING))
    as [Hst | Hst].
  - rewrite (bool_decide_eq_false_2 (_ ≠ _)) by (intros Hn; apply Hn, Hst).
    rewrite (bool_decide_eq_true_2 _ Hst). cbn [andb]. fold q.
    destruct (decide (q_count q < 7 * (q_capacity q / 10))) as [Hlt | Hge].
    + rewrite (bool_decide_eq_true_2 _ Hlt).
      rewrite (event_enqueue_accept q event Hwf Hlt). mstep.
      rewrite (bool_decide_eq_false_2 (0 ≠ 0)) by (intros Hn; apply Hn; reflexivity).
      reflexivity.
    + rewrite (bool_decide_eq_false_2 _ Hge).
      rewrite (event_enqueue_reject q event Hwf ltac:(lia)). mstep.
      rewrite (bool_decide_eq_true_2 (-1 ≠ 0)) by lia.
      rewrite ret_run. subst q.
      rewrite set_d_queue_same, set_ipc_disp_same. reflexivity.
  - rewrite (bool_decide_eq_true_2 (_ ≠ _)) by exact Hst.
    rewrite (bool_decide_eq_false_2 _ Hst). reflexivity.
Qed.

(** ** The receive thread *)

(* a turn of the receive loop in which nothing is forwarded: the read
   failed, was short, or brought a wrong magic *)
Lemma rxthread_body_drop (s : sys) (disp event : Z) (x : xlink_dispatcher)
    (d : dispatcher) (h : xlink_handle) (ev : xlink_event)
    (rc size : Z) (header : xlink_event_header) :
  xlinkd s = Some x ->
  dispatchers x !! Z.to_nat disp = Some d ->
  d_handle d = Some h ->
  events s !! event = Some ev ->
  event_header_size < 2 ^ 31 ->
  xlink_platform_read (log s) (d_interface d) (sw_device_id h) (ev_header ev)
    event_header_size DISPATCHER_RX_TIMEOUT_MSEC = (rc, size, header) ->
  rc <> 0 \/ size <> event_header_size
  \/ h_magic header <> XLINK_EVENT_HEADER_MAGIC ->
  xlink_dispatcher_rxthread_body disp event s
  = Some (loop_continue event,
          set_events (<[event := set_ev_header header ev]> (events s))
            (set_log (log s ++ [call_platform_read (d_interface d)
                                  (sw_device_id h) event_header_size
                                  DISPATCHER_RX_TIMEOUT_MSEC]) s)).
Proof.
  intros Hx Hd Hh Hev Hsmall Hread Hdrop.
  unfold xlink_dispatcher_rxthread_body. fold event_header_size.
  mstep. rewrite Hh. do 4 mstep. rewrite Hread. mstep.
  rewrite int_cast_small by (pose proof event_header_size_range; lia).
  destruct (decide (rc = 0)) as [Hrc | Hrc];
    [destruct (decide (size = event_header_size)) as [Hsize | Hsize] |].
  - rewrite (bool_decide_eq_false_2 (rc ≠ 0)) by (intros Hn; apply Hn, Hrc).
    rewrite (bool_decide_eq_false_2 (size ≠ _)) by (intros Hn; apply Hn, Hsize).
    cbn [orb]. unfold is_valid_event_header.
    rewrite bind_run. mstep. cbn [ev_header set_ev_header].
    destruct Hdrop as [Hn | [Hn | Hm]]; [contradiction | contradiction |].
    rewrite (bool_decide_eq_true_2 _ Hm). rewrite ret_run. cbv beta iota.
    rewrite (bool_decide_eq_false_2 (0 ≠ 0)) by (intros Hn; apply Hn; reflexivity).
    reflexivity.
  - rewrite (bool_decide_eq_true_2 (size ≠ _)) by exact Hsize.
    rewrite orb_true_r. reflexivity.
  - rewrite (bool_decide_eq_true_2 (rc ≠ 0)) by exact Hrc. reflexivity.
Qed.

(** X16: a turn of the receive loop whose read fails or is short hands
    nothing to the multiplexer and takes nothing from the pool; the loop
    goes on with the same event, whose header now holds whatever the
    transport left in the buffer, its other fields unchanged. *)
Theorem rxthread_body_failed_read (s : sys) (disp event : Z)
    (x : xlink_dispatcher) (d : dispatcher) (h : xlink_handle)
    (ev : xlink_event) (rc size : Z) (header : xlink_event_header) :
  xlinkd s = Some x ->
  dispatchers x !! Z.to_nat disp = Some d ->
  d_handle d = Some h ->
  events s !! event = Some ev ->
  event_header_size < 2 ^ 31 ->
  xlink_platform_read (log s) (d_interface d) (sw_device_id h) (ev_header ev)
    event_header_size DISPATCHER_RX_TIMEOUT_MSEC = (rc, size, header) ->
  rc <> 0 \/ size <> event_header_size ->
  exists s',
    xlink_dispatcher_rxthread_body disp event s = Some (loop_continue event, s')
    /\ deliveries (log s') = deliveries (log s)
    /\ xlinkd s' = xlinkd s
    /\ events s' !! event = Some (set_ev_header header ev)
    /\ (forall e, e <> event -> events s' !! e = events s !! e).
Proof.
  intros Hx Hd Hh Hev Hsmall Hread Hfail.
  rewrite (rxthread_body_drop s disp event x d h ev rc size header
             Hx Hd Hh Hev Hsmall Hread ltac:(tauto)).
  eexists. split; [reflexivity |]. sys_fields.
  split; [rewrite deliveries_app; apply app_nil_r |].
  split; [reflexivity |]. split; [apply lookup_insert_eq |].
  intros e Hne. apply lookup_insert_ne. congruence.
Qed.

(* the receive loop on a transport that brings no valid header *)
Lemma rxthread_loop_noise (turns : nat) (disp event : Z) (x : xlink_dispatcher)
    (d : dispatcher) (h : xlink_handle) :
  dispatchers x !! Z.to_nat disp = Some d ->
  d_handle d = Some h ->
  event_header_size < 2 ^ 31 ->
  (forall l hdr,
      let '(rc, size, header) :=
        xlink_platform_read l (d_interface d) (sw_device_id h) hdr
          event_header_size DISPATCHER_RX_TIMEOUT_MSEC in
      rc <> 0 \/ size <> event_header_size
      \/ h_magic header <> XLINK_EVENT_HEADER_MAGIC) ->
  forall s ev,
    xlinkd s = Some x ->
    events s !! event = Some ev ->
    exists s',
      xlink_dispatcher_rxthread_loop turns disp event s = Some (0, s')
      /\ xlinkd s' = Some x
      /\ deliveries (log s') = deliveries (log s)
      /\ length (log s') = (length (log s) + turns)%nat
      /\ (forall e, e <> event -> events s' !! e = events s !! e)
      /\ is_Some (events s' !! event).
Proof.
  intros Hd Hh Hsmall Hnoise.
  induction turns as [| turns IH]; intros s ev Hx Hev.
  - exists s. split; [reflexivity |]. rewrite Nat.add_0_r. eauto 10.
  - pose proof (Hnoise (log s) (ev_header ev)) as Hn.
    destruct (xlink_platform_read (log s) (d_interface d) (sw_device_id h)
                (ev_header ev) event_header_size DISPATCHER_RX_TIMEOUT_MSEC)
      as [[rc size] header] eqn:Hread.
    pose proof (rxthread_body_drop s disp event x d h ev rc size header
                  Hx Hd Hh Hev Hsmall Hread Hn) as Hbody.
    cbn [xlink_dispatcher_rxthread_loop].
    rewrite (bind_Some _ _ _ _ _ Hbody).
    match type of Hbody with
    | _ = Some (_, ?s1) =>
        destruct (IH s1 (set_ev_header header ev))
          as (s' & Hloop & Hx' & Hdel & Hlen & Hother & Hsome);
          [sys_fields; exact Hx | sys_fields; apply lookup_insert_eq |]
    end.
    exists s'. split; [exact Hloop |].
    + revert Hdel Hlen Hother. sys_fields. intros Hdel Hlen Hother.
      split; [exact Hx' |].
      split; [rewrite Hdel, deliveries_app; apply app_nil_r |].
      split; [rewrite Hlen, length_app; cbn; lia |].
      split; [| exact Hsome].
      intros e Hne. rewrite (Hother e Hne). apply lookup_insert_ne. congruence.
Qed.

(** X17: on a transport that keeps failing or delivers no header with the
    right magic, xlink_dispatcher_rxthread runs any number of turns without
    handing anything to the multiplexer, and returns 0 when it is stopped.
    The one event it took from the head of the pool when it started is the
    only one it ever uses, and it is not put back when the thread exits: the
    pool is left one event short. *)
Theorem rxthread_on_noise (turns : nat) (s : sys) (disp : Z)
    (x : xlink_dispatcher) (d : dispatcher) (h : xlink_handle)
    (e : Z) (rest : list Z) (ev0 : xlink_event) :
  xlinkd s = Some x ->
  0 <= disp < XLINK_MAX_CONNECTIONS ->
  dispatchers x !! Z.to_nat disp = Some d ->
  d_link_id d = disp ->
  d_handle d = Some h ->
  q_head (d_buff_queue d) = e :: rest ->
  events s !! e = Some ev0 ->
  event_header_size < 2 ^ 31 ->
  (forall l hdr,
      let '(rc, size, header) :=
        xlink_platform_read l (d_interface d) (sw_device_id h) hdr
          event_header_size DISPATCHER_RX_TIMEOUT_MSEC in
      rc <> 0 \/ size <> event_header_size
      \/ h_magic header <> XLINK_EVENT_HEADER_MAGIC) ->
  exists s' x' d',
    xlink_dispatcher_rxthread turns disp s = Some (0, s')
    /\ xlinkd s' = Some x'
    /\ dispatchers x' !! Z.to_nat disp = Some d'
    /\ q_head (d_buff_queue d') = rest
    /\ deliveries (log s') = deliveries (log s)
    /\ length (log s') = (length (log s) + turns)%nat.
Proof.
  intros Hx [Hge Hlt] Hd Hlink Hh Hq Hev0 Hsmall Hnoise.
  unfold xlink_dispatcher_rxthread. mstep. rewrite Hh, Hlink.
  erewrite bind_Some
    by (eapply xlink_create_event_pooled;
        [exact Hx | exact Hlt | exact Hd | exact Hq | exact Hev0]).
  cbv beta iota.
  pose (d1 := set_d_buff_queue
                (set_q (d_buff_queue d) (u32 (q_count (d_buff_queue d) - 1)) rest)
                d).
  assert (dispatchers (set_dispatcher disp d1 x) !! Z.to_nat disp = Some d1)
    as Hd1 by (eapply set_dispatcher_lookup; exact Hd).
  match goal with
  | |- context [xlink_dispatcher_rxthread_loop turns disp e ?s1] =>
      destruct (rxthread_loop_noise turns disp e (set_dispatcher disp d1 x) d1 h
                  Hd1 Hh Hsmall Hnoise s1
                  (created_event ev0 disp XLINK_EVENT_TYPE_ZERO h 0 0 0))
        as (s' & Hloop & Hx' & Hdel & Hlen & _);
        [sys_fields; reflexivity | sys_fields; apply lookup_insert_eq |]
  end.
  exists s', (set_dispatcher disp d1 x), d1.
  split; [exact Hloop |]. split; [exact Hx' |].
  split; [exact Hd1 |].
  split; [reflexivity |]. split; [exact Hdel | exact Hlen].
Qed.

(** X18: xlink_dispatcher_rxthread on a link whose buffer pool is empty
    returns -1 at once: it reads nothing and changes nothing. *)
Theorem rxthread_without_pooled_event (turns : nat) (s : sys) (disp : Z)
    (x : xlink_dispatcher) (d : dispatcher) :
  xlinkd s = Some x ->
  0 <= disp < XLINK_MAX_CONNECTIONS ->
  dispatchers x !! Z.to_nat disp = Some d ->
  d_link_id d = disp ->
  q_head (d_buff_queue d) = [] ->
  xlink_dispatcher_rxthread turns disp s = Some (-1, s).
Proof.
  intros Hx [Hge Hlt] Hd Hlink Hq.
  unfold xlink_dispatcher_rxthread. mstep. rewrite Hlink.
  erewrite bind_Some
    by (eapply xlink_create_event_exhausted;
        [exact Hx | exact Hlt | exact Hd | exact Hq]).
  reflexivity.
Qed.

(** ** The queued transmit worker *)

(** X19: one turn of the loop of xlink_dispatcher_txthread.  When
    down_interruptible was interrupted (non-zero status), or when the
    pending queue is empty, the turn changes nothing.  Otherwise the head of
    the pending queue is taken off, its header is written to the transport,
    and whatever the transport answered the event ends at the tail of the
    buffer pool. *)
Theorem txthread_body_sends_head (s : sys) (down disp : Z)
    (x : xlink_dispatcher) (d : dispatcher) :
  xlinkd s = Some x ->
  0 <= disp < XLINK_MAX_CONNECTIONS ->
  dispatchers x !! Z.to_nat disp = Some d ->
  (forall e rest, q_head (d_queue d) = e :: rest ->
     exists ev h, events s !! e = Some ev /\ ev_handle ev = Some h
                  /\ ev_link_id ev = disp) ->
  exists s',
    xlink_dispatcher_txthread_body down disp s = Some (tt, s')
    /\ (down <> 0 -> s' = s)
    /\ (down = 0 ->
        match q_head (d_queue d) with
        | [] => s' = s
        | e :: rest =>
            exists x' d' ev h l,
              events s !! e = Some ev /\ ev_handle ev = Some h
              /\ xlinkd s' = Some x'
              /\ dispatchers x' !! Z.to_nat disp = Some d'
              /\ q_head (d_queue d') = rest
              /\ q_count (d_queue d') = u32 (q_count (d_queue d) - 1)
              /\ q_head (d_buff_queue d') = q_head (d_buff_queue d) ++ [e]
              /\ log s' = log s
                          ++ call_platform_write (ev_interface ev)
                               (sw_device_id h) (header_buffer (ev_header ev))
                               (header_transfer_size (ev_header ev))
                               (h_timeout (ev_header ev)) :: l
        end).
Proof.
  intros Hx [Hge Hlt] Hd Hpending.
  unfold xlink_dispatcher_txthread_body, dispatcher_event_get.
  destruct (decide (down = 0)) as [Hdown | Hdown].
  - rewrite (bool_decide_eq_true_2 _ Hdown).
    rewrite bind_run. mstep. unfold event_dequeue.
    destruct (q_head (d_queue d)) as [| e rest] eqn:Hq.
    + mstep. rewrite ret_run. cbv beta iota.
      rewrite set_d_queue_same, (set_dispatcher_same _ _ _ Hd),
        (set_xlinkd_same _ _ Hx), ret_run.
      exists s. split; [reflexivity |]. split; reflexivity.
    + destruct (Hpending e rest eq_refl) as (ev & h & Hev & Hh & Hlink).
      mstep. rewrite ret_run. cbv beta iota.
      pose (d1 := set_d_queue (set_q (d_queue d) (u32 (q_count (d_queue d) - 1)) rest) d).
      fold d1.
      match goal with
      | |- context [@mbind M M_bind _ _ _ (dispatcher_event_send e) ?s1] =>
          destruct (dispatcher_event_send_log_head s1 e ev h
                      (set_dispatcher disp d1 x)
                      ltac:(sys_fields; exact Hev) Hh ltac:(reflexivity))
            as (rc & s2 & ev2 & l & Hsend & Hlog & Hx2 & _ & Hev2 & Hlink2 & _)
      end.
      rewrite (bind_Some _ _ _ _ _ Hsend).
      assert (dispatchers (set_dispatcher disp d1 x) !! Z.to_nat disp = Some d1)
        as Hd1 by (eapply set_dispatcher_lookup; exact Hd).
      unfold xlink_destroy_event.
      rewrite (free_event_registered s2 e ev2 (set_dispatcher disp d1 x) d1
                 Hev2 Hx2 ltac:(rewrite Hlink2, Hlink; exact Hlt)
                 ltac:(rewrite Hlink2, Hlink; exact Hd1)).
      eexists. split; [reflexivity |]. split; [intros Hn; contradiction |].
      intros _. eexists _, _, ev, h, l. sys_fields.
      split; [exact Hev |]. split; [exact Hh |]. split; [reflexivity |].
      rewrite Hlink2, Hlink, set_dispatcher_twice.
      split; [eapply set_dispatcher_lookup; exact Hd |].
      cbn. repeat split; try reflexivity. exact Hlog.
  - rewrite (bool_decide_eq_false_2 _ Hdown). rewrite bind_ret, ret_run.
    exists s. split; [reflexivity |]. split; [reflexivity |].
    intros Hn. contradiction.
Qed.

(** ** Setting up and tearing down a buffer pool *)

(* the events in memory once the events of [l] were freed *)
Lemma deinit_buffers_loop_spec (n : nat) (q : event_queue)
    (mem : gmap Z xlink_event) :
  queue_inv q -> q_count q < 2 ^ 32 ->
  let '(q', mem') := deinit_buffers_loop n q mem in
  q_head q' = drop n (q_head q)
  /\ queue_inv q'
  /\ q_capacity q' = q_capacity q
  /\ (forall a, a ∈ take n (q_head q) -> mem' !! a = None)
  /\ (forall a, a ∉ take n (q_head q) -> mem' !! a = mem !! a).
Proof.
  revert q mem. induction n as [| n IH]; intros q mem Hinv Hc.
  - cbn. rewrite drop_0. repeat split; try assumption; try reflexivity.
    intros a Ha. apply elem_of_nil in Ha. contradiction.
  - cbn [deinit_buffers_loop]. unfold event_dequeue_buffer.
    destruct (q_head q) as [| e rest] eqn:Hq.
    + specialize (IH q mem Hinv Hc).
      cbn [kfree]. destruct (deinit_buffers_loop n q mem) as [q' mem'].
      destruct IH as (H1 & H2 & H3 & H4 & H5).
      rewrite Hq in H1, H4, H5. rewrite drop_nil in H1. rewrite take_nil in H4, H5.
      cbn. repeat split; assumption.
    + assert (queue_inv (set_q q (u32 (q_count q - 1)) rest)) as Hinv'.
      { unfold queue_inv in *. cbn. rewrite Hq in Hinv. cbn in Hinv.
        rewrite u32_small by lia. lia. }
      assert (q_count (set_q q (u32 (q_count q - 1)) rest) < 2 ^ 32) as Hc'.
      { cbn. unfold u32. apply Z.mod_pos_bound. lia. }
      specialize (IH (set_q q (u32 (q_count q - 1)) rest) (delete e mem) Hinv' Hc').
      cbn [kfree].
      destruct (deinit_buffers_loop n (set_q q (u32 (q_count q - 1)) rest)
                  (delete e mem)) as [q' mem'].
      destruct IH as (H1 & H2 & H3 & H4 & H5). cbn in H1, H3, H4, H5.
      cbn [drop take]. repeat split; try assumption.
      * intros a Ha. apply elem_of_cons in Ha.
        destruct (decide (a ∈ take n rest)) as [Hin | Hnin]; [exact (H4 a Hin) |].
        destruct Ha as [-> | Ha]; [| contradiction].
        rewrite (H5 e Hnin). apply lookup_delete_eq.
      * intros a Ha. apply not_elem_of_cons in Ha as [Hne Hnin].
        rewrite (H5 a Hnin). apply lookup_delete_ne. congruence.
Qed.

(** X20: deinit_buffers takes capacity events off the head of the pool
    and frees each of them.  A pool holding no more events than its capacity
    ends empty with count 0 and none of its events is left in memory; of a
    pool holding more, the events beyond the first capacity ones stay, on
    the pool and in memory.  No other event is touched. *)
Theorem deinit_buffers_frees_capacity_events (q : event_queue)
    (mem : gmap Z xlink_event) :
  queue_inv q -> q_count q < 2 ^ 32 ->
  let n := Z.to_nat (q_capacity q) in
  exists q' mem',
    deinit_buffers q mem = (q', mem')
    /\ q_head q' = drop n (q_head q)
    /\ q_count q' = Z.of_nat (length (q_head q) - n)
    /\ q_capacity q' = q_capacity q
    /\ (forall a, a ∈ take n (q_head q) -> mem' !! a = None)
    /\ (forall a, a ∉ take n (q_head q) -> mem' !! a = mem !! a)
    /\ (q_count q <= q_capacity q -> q_head q' = [] /\ q_count q' = 0).
Proof.
  intros Hinv Hc n. unfold deinit_buffers. fold n.
  pose proof (deinit_buffers_loop_spec n q mem Hinv Hc) as Hspec.
  destruct (deinit_buffers_loop n q mem) as [q' mem'].
  destruct Hspec as (H1 & H2 & H3 & H4 & H5).
  exists q', mem'. split; [reflexivity |]. split; [exact H1 |].
  assert (q_count q' = Z.of_nat (length (q_head q) - n)) as Hcount.
  { unfold queue_inv in H2. rewrite H2, H1, length_drop. reflexivity. }
  split; [exact Hcount |]. split; [exact H3 |].
  split; [exact H4 |]. split; [exact H5 |].
  intros Hle. unfold queue_inv in Hinv.
  assert (length (q_head q) <= n)%nat as Hlen by (subst n; lia).
  split.
  - rewrite H1. apply drop_ge. exact Hlen.
  - rewrite Hcount. lia.
Qed.

Lemma init_buffers_loop_spec (n : nat) (rc : Z) (q : event_queue)
    (mem : gmap Z xlink_event) :
  allocator_fresh ->
  (forall m, is_Some (kzalloc_event m)) ->
  0 <= q_count q -> q_count q + Z.of_nat n < 2 ^ 32 ->
  exists new mem',
    init_buffers_loop n rc q mem
    = (match n with O => rc | S _ => 0 end,
       set_q q (q_count q + Z.of_nat n) (q_head q ++ new), mem')
    /\ length new = n
    /\ NoDup new
    /\ (forall a, a ∈ new -> mem !! a = None /\ mem' !! a = Some zeroed_event)
    /\ (forall a, a ∉ new -> mem' !! a = mem !! a).
Proof.
  intros Hfresh Halways. revert rc q mem.
  induction n as [| n IH]; intros rc q mem Hc0 Hc.
  - exists [], mem. cbn. rewrite Z.add_0_r, app_nil_r.
    split; [destruct q; reflexivity |]. split; [reflexivity |].
    split; [constructor |]. split; [| reflexivity].
    intros a Ha. apply elem_of_nil in Ha. contradiction.
  - cbn [init_buffers_loop].
    destruct (Halways mem) as [a Ha]. rewrite Ha.
    cbn [event_enqueue_buffer].
    rewrite (bool_decide_eq_false_2 (0 = -1)) by lia.
    rewrite (u32_small (q_count q + 1)) by lia.
    destruct (IH 0 (set_q q (q_count q + 1) (q_head q ++ [a]))
                (<[a := zeroed_event]> mem))
      as (new & mem' & Hrun & Hlen & Hnd & Hnew & Hold);
      [cbn; lia | cbn; lia |].
    exists (a :: new), mem'. split.
    { rewrite Hrun. cbn. rewrite <- app_assoc. cbn.
      replace (q_count q + 1 + Z.of_nat n) with (q_count q + Z.pos (Pos.of_succ_nat n))
        by lia.
      destruct n; reflexivity. }
    split; [cbn; lia |].
    assert (a ∉ new) as Hanew.
    { intros Hin. destruct (Hnew a Hin) as [Hnone _].
      rewrite lookup_insert_eq in Hnone. discriminate. }
    split; [constructor; assumption |].
    split.
    + intros b Hb. apply elem_of_cons in Hb as [-> | Hb].
      * split; [exact (Hfresh _ _ Ha) |].
        rewrite (Hold a Hanew). apply lookup_insert_eq.
      * destruct (Hnew b Hb) as [Hnone Hsome]. split; [| exact Hsome].
        destruct (decide (a = b)) as [-> | Hne]; [contradiction |].
        rewrite lookup_insert_ne in Hnone by exact Hne. exact Hnone.
    + intros b Hb. apply not_elem_of_cons in Hb as [Hne Hnin].
      rewrite (Hold b Hnin). apply lookup_insert_ne. congruence.
Qed.

(** X21: with an allocator that never fails and never hands out an address
    in use, init_buffers on a pool of capacity c > 0 returns 0 and appends c
    events to the pool, adding c to count: the new events are pairwise
    distinct, were not in memory before and are zero-filled now; every other
    event in memory is as before. *)
Theorem init_buffers_fills_pool (q : event_queue) (mem : gmap Z xlink_event) :
  allocator_fresh ->
  (forall m, is_Some (kzalloc_event m)) ->
  0 <= q_count q -> 0 < q_capacity q -> q_count q + q_capacity q < 2 ^ 32 ->
  exists new mem',
    init_buffers q mem
    = (0, set_q q (q_count q + q_capacity q) (q_head q ++ new), mem')
    /\ Z.of_nat (length new) = q_capacity q
    /\ NoDup new
    /\ (forall a, a ∈ new -> mem !! a = None /\ mem' !! a = Some zeroed_event)
    /\ (forall a, a ∉ new -> mem' !! a = mem !! a).
Proof.
  intros Hfresh Halways Hc0 Hcap Hc. unfold init_buffers.
  destruct (init_buffers_loop_spec (Z.to_nat (q_capacity q)) (-1) q mem
              Hfresh Halways Hc0 ltac:(lia))
    as (new & mem' & Hrun & Hlen & Hnd & Hnew & Hold).
  exists new, mem'. rewrite Hrun, Z2Nat.id by lia.
  split; [destruct (Z.to_nat (q_capacity q)) eqn:Hn; [lia | reflexivity] |].
  split; [lia |]. repeat split; assumption || apply Hnew; assumption.
Qed.

(* init_buffers_loop with any allocator *)
Lemma init_buffers_loop_any (n : nat) :
  forall (rc : Z) (q : event_queue) (mem : gmap Z xlink_event),
  exists new,
    init_buffers_loop n rc q mem
    = (if bool_decide (new = []) then rc else 0,
       pool_with new q, zero_filled new mem)
    /\ (length new <= n)%nat
    /\ (forall i a, new !! i = Some a ->
        kzalloc_event (zero_filled (take i new) mem) = Some a)
    /\ ((length new < n)%nat -> kzalloc_event (zero_filled new mem) = None).
Proof.
  induction n as [| n IH]; intros rc q mem.
  - exists []. split; [reflexivity |]. split; [reflexivity |].
    split; [intros i a Hi; rewrite lookup_nil in Hi; discriminate |].
    cbn. lia.
  - cbn [init_buffers_loop].
    destruct (kzalloc_event mem) as [a |] eqn:Ha.
    + cbn [event_enqueue_buffer].
      rewrite (bool_decide_eq_false_2 (0 = -1)) by lia.
      destruct (IH 0 (set_q q (u32 (q_count q + 1)) (q_head q ++ [a]))
                  (<[a := zeroed_event]> mem))
        as (new & Hrun & Hlen & Hall & Hfail).
      exists (a :: new). rewrite Hrun.
      split; [destruct new; reflexivity |].
      split; [cbn; lia |].
      split.
      * intros [| i] b Hb.
        -- cbn in Hb. injection Hb as <-. exact Ha.
        -- exact (Hall i b Hb).
      * intros Hlt. apply Hfail. cbn in Hlt. lia.
    + exists []. split; [reflexivity |]. split; [cbn; lia |].
      split; [intros i a Hi; rewrite lookup_nil in Hi; discriminate |].
      intros _. exact Ha.
Qed.

Lemma pool_with_head (new : list Z) (q : event_queue) :
  q_head (pool_with new q) = q_head q ++ new.
Proof.
  revert q. induction new as [| a new IH]; intros q.
  - cbn. rewrite app_nil_r. reflexivity.
  - change (pool_with (a :: new) q)
      with (pool_with new (event_enqueue_buffer q a).2).
    rewrite IH. cbn. rewrite <- app_assoc. reflexivity.
Qed.

Lemma pool_with_count (new : list Z) (q : event_queue) :
  new <> [] ->
  q_count (pool_with new q) = u32 (q_count q + Z.of_nat (length new)).
Proof.
  revert q. induction new as [| a new IH]; intros q Hne; [contradiction |].
  change (pool_with (a :: new) q)
    with (pool_with new (event_enqueue_buffer q a).2).
  destruct new as [| b new].
  - cbn. reflexivity.
  - rewrite IH by discriminate. cbn [event_enqueue_buffer snd set_q q_count].
    rewrite u32_add_idemp_l. f_equal. cbn [length]. lia.
Qed.

(** X22: init_buffers with any allocator.  It queues the events that
    kzalloc hands out, zero-filled, one after the other, until capacity
    events are queued or an allocation fails.  It returns -1 exactly when no
    event at all was queued, and then the pool and the memory are as they
    were; in every other case it returns 0, also when an allocation failed
    after the first and the pool holds fewer events than its capacity. *)
Theorem init_buffers_allocation_failure (q : event_queue)
    (mem : gmap Z xlink_event) :
  exists new,
    init_buffers q mem
    = (if bool_decide (new = []) then -1 else 0,
       pool_with new q, zero_filled new mem)
    /\ (length new <= Z.to_nat (q_capacity q))%nat
    /\ (forall i a, new !! i = Some a ->
        kzalloc_event (zero_filled (take i new) mem) = Some a)
    /\ ((length new < Z.to_nat (q_capacity q))%nat ->
        kzalloc_event (zero_filled new mem) = None)
    /\ q_head (pool_with new q) = q_head q ++ new
    /\ (new <> [] ->
        q_count (pool_with new q) = u32 (q_count q + Z.of_nat (length new)))
    /\ (new = [] -> pool_with new q = q /\ zero_filled new mem = mem).
Proof.
  unfold init_buffers.
  destruct (init_buffers_loop_any (Z.to_nat (q_capacity q)) (-1) q mem)
    as (new & Hrun & Hlen & Hall & Hfail).
  exists new. split; [exact Hrun |]. split; [exact Hlen |].
  split; [exact Hall |]. split; [exact Hfail |].
  split; [apply pool_with_head |]. split; [apply pool_with_count |].
  intros ->. split; reflexivity.
Qed.

(** X23: with such an allocator, filling an empty pool with init_buffers
    and emptying it with deinit_buffers leaves the pool empty with count 0
    and the events in memory exactly as they were: every pooled event is
    freed and nothing else is. *)
Theorem init_then_deinit_buffers (capacity : Z) (mem : gmap Z xlink_event) :
  allocator_fresh ->
  (forall m, is_Some (kzalloc_event m)) ->
  0 < capacity < 2 ^ 32 ->
  let q := {| q_count := 0; q_capacity := capacity; q_head := [] |} in
  exists rc q1 mem1,
    init_buffers q mem = (rc, q1, mem1)
    /\ deinit_buffers q1 mem1 = (q, mem).
Proof.
  intros Hfresh Halways Hcap q. unfold init_buffers, deinit_buffers.
  cbn [q_capacity q].
  destruct (init_buffers_loop_spec (Z.to_nat capacity) (-1) q mem
              Hfresh Halways ltac:(cbn; lia) ltac:(cbn; lia))
    as (new & mem1 & Hinit & Hlen & Hnd & Hnew & Hold).
  rewrite Hinit. eexists _, _, _. split; [reflexivity |].
  cbn [q_capacity set_q q q_count q_head app].
  pose proof (deinit_buffers_loop_spec (Z.to_nat capacity)
                {| q_count := 0 + Z.of_nat (Z.to_nat capacity);
                   q_capacity := capacity; q_head := new |} mem1
                ltac:(unfold queue_inv; cbn; lia) ltac:(cbn; lia)) as Hspec.
  destruct (deinit_buffers_loop _ _ mem1) as [q' mem'].
  destruct Hspec as (Hhead & Hinv & Hcapq & Hfreed & Hkept).
  cbn in Hhead, Hcapq, Hfreed, Hkept.
  rewrite take_ge in Hfreed, Hkept by lia.
  rewrite drop_ge in Hhead by lia.
  unfold queue_inv in Hinv. rewrite Hhead in Hinv. cbn in Hinv.
  f_equal.
  - destruct q' as [c cap l]. cbn in Hhead, Hinv, Hcapq.
    rewrite Hhead, Hinv, Hcapq. reflexivity.
  - apply map_eq. intros a.
    destruct (decide (a ∈ new)) as [Hin | Hnin].
    + rewrite (Hfreed a Hin). symmetry. apply (Hnew a Hin).
    + rewrite (Hkept a Hnin). apply (Hold a Hnin).
Qed.

(** ** Initialisation *)

Lemma pooled_events_cons (d : dispatcher) (ds : list dispatcher) :
  pooled_events (d :: ds) = q_head (d_buff_queue d) ++ pooled_events ds.
Proof. reflexivity. Qed.

(* one turn of the loop of xlink_dispatcher_init *)
Lemma init_dispatcher_spec (i : Z) (mem : gmap Z xlink_event) :
  allocator_fresh ->
  (forall m, is_Some (kzalloc_event m)) ->
  exists d mem',
    init_dispatcher i mem = (d, mem')
    /\ initialised i d
    /\ q_count (d_buff_queue d) = 1024
    /\ length (q_head (d_buff_queue d)) = 1024%nat
    /\ NoDup (q_head (d_buff_queue d))
    /\ (forall a, a ∈ q_head (d_buff_queue d) ->
        mem !! a = None /\ mem' !! a = Some zeroed_event)
    /\ (forall a, a ∉ q_head (d_buff_queue d) -> mem' !! a = mem !! a).
Proof.
  intros Hfresh Halways. unfold init_dispatcher, init_buffers.
  cbn [q_capacity].
  destruct (init_buffers_loop_spec (Z.to_nat 1024) (-1)
              {| q_count := 0; q_capacity := 1024; q_head := [] |} mem
              Hfresh Halways ltac:(cbn; lia) ltac:(cbn; lia))
    as (new & mem' & Hrun & Hlen & Hnd & Hnew & Hold).
  rewrite Hrun. eexists _, _. split; [reflexivity |].
  cbn [d_buff_queue set_q q_head q_count q_capacity app].
  split; [repeat split |].
  split; [lia |]. split; [rewrite Hlen; reflexivity |].
  split; [exact Hnd |]. split; assumption.
Qed.

Lemma init_dispatchers_spec (n : nat) (i : Z) (mem : gmap Z xlink_event) :
  allocator_fresh ->
  (forall m, is_Some (kzalloc_event m)) ->
  exists ds mem',
    init_dispatchers n i mem = (ds, mem')
    /\ length ds = n
    /\ (forall k d, ds !! k = Some d ->
        initialised (i + Z.of_nat k) d
        /\ q_count (d_buff_queue d) = 1024
        /\ length (q_head (d_buff_queue d)) = 1024%nat)
    /\ NoDup (pooled_events ds)
    /\ (forall a, a ∈ pooled_events ds ->
        mem !! a = None /\ mem' !! a = Some zeroed_event)
    /\ (forall a, a ∉ pooled_events ds -> mem' !! a = mem !! a).
Proof.
  intros Hfresh Halways. revert i mem.
  induction n as [| n IH]; intros i mem.
  - exists [], mem. split; [reflexivity |]. split; [reflexivity |].
    split; [intros k d Hk; rewrite lookup_nil in Hk; discriminate |].
    split; [constructor |]. split; [| reflexivity].
    intros a Ha. apply elem_of_nil in Ha. contradiction.
  - cbn [init_dispatchers].
    destruct (init_dispatcher_spec i mem Hfresh Halways)
      as (d & mem1 & Hd & Hinit & Hcount & Hlen & Hnd & Hnew & Hold).
    rewrite Hd.
    destruct (IH (i + 1) mem1)
      as (ds & mem' & Hds & Hlends & Hall & Hndds & Hnewds & Holdds).
    rewrite Hds. exists (d :: ds), mem'.
    split; [reflexivity |]. split; [cbn; lia |].
    split.
    { intros [| k] d' Hk.
      - cbn in Hk. injection Hk as <-. rewrite Z.add_0_r. auto.
      - cbn in Hk. destruct (Hall k d' Hk) as (H1 & H2 & H3).
        replace (i + Z.of_nat (S k)) with (i + 1 + Z.of_nat k) by lia. auto. }
    rewrite pooled_events_cons.
    assert (forall a, a ∈ q_head (d_buff_queue d) -> a ∉ pooled_events ds)
      as Hdisj.
    { intros a Ha Hin. destruct (Hnew a Ha) as [_ Hsome].
      destruct (Hnewds a Hin) as [Hnone _]. congruence. }
    split; [apply NoDup_app; auto |].
    split.
    + intros a Ha. apply elem_of_app in Ha as [Ha | Ha].
      * destruct (Hnew a Ha) as [Hnone Hsome]. split; [exact Hnone |].
        rewrite (Holdds a (Hdisj a Ha)). exact Hsome.
      * destruct (Hnewds a Ha) as [Hnone Hsome]. split; [| exact Hsome].
        destruct (decide (a ∈ q_head (d_buff_queue d))) as [Hin | Hnin].
        -- destruct (Hnew a Hin). congruence.
        -- rewrite <- (Hold a Hnin). exact Hnone.
    + intros a Ha. apply not_elem_of_app in Ha as [Ha1 Ha2].
      rewrite (Holdds a Ha2). apply (Hold a Ha1).
Qed.

(* xlink_dispatcher_init with an allocator that never fails *)
Lemma xlink_dispatcher_init_run (s : sys) (dev0 : Z) :
  allocator_fresh ->
  (forall m, is_Some (kzalloc_event m)) ->
  kzalloc_xlink_dispatcher = true ->
  0 <= XLINK_MAX_CONNECTIONS ->
  exists s' x',
    xlink_dispatcher_init dev0 s = Some (X_LINK_SUCCESS, s')
    /\ xlinkd s' = Some x'
    /\ dev x' = dev0
    /\ Z.of_nat (length (dispatchers x')) = XLINK_MAX_CONNECTIONS
    /\ (forall k d, dispatchers x' !! k = Some d ->
        initialised (Z.of_nat k) d
        /\ q_count (d_buff_queue d) = 1024
        /\ length (q_head (d_buff_queue d)) = 1024%nat)
    /\ NoDup (pooled_events (dispatchers x'))
    /\ (forall a, a ∈ pooled_events (dispatchers x') ->
        events s !! a = None /\ events s' !! a = Some zeroed_event)
    /\ (forall a, a ∉ pooled_events (dispatchers x') ->
        events s' !! a = events s !! a)
    /\ log s' = log s
    /\ event_id s' = event_id s.
Proof.
  intros Hfresh Halways Hx Hmax. unfold xlink_dispatcher_init. rewrite Hx.
  mstep.
  destruct (init_dispatchers_spec (Z.to_nat XLINK_MAX_CONNECTIONS) 0 (events s)
              Hfresh Halways)
    as (ds & mem' & Hds & Hlen & Hall & Hnd & Hnew & Hold).
  rewrite Hds. do 2 mstep.
  destruct CONFIG_XLINK_LOCAL_HOST; repeat mstep;
    (eexists _, _; split; [reflexivity |]); sys_fields;
    (split; [reflexivity |]); cbn [dev dispatchers];
    (split; [reflexivity |]); (split; [lia |]);
    (split; [intros k d Hk; destruct (Hall k d Hk) as (H1 & H2 & H3);
             rewrite Z.add_0_l in H1; auto |]);
    (split; [exact Hnd |]); (split; [exact Hnew |]);
    (split; [exact Hold |]); split; reflexivity.
Qed.

(** X24: with an allocator that never fails and never hands out an
    address in use, xlink_dispatcher_init succeeds and leaves a table of
    XLINK_MAX_CONNECTIONS dispatchers: dispatcher i has link id i, state
    INIT, no handle, no thread, an empty pending queue, and a buffer pool of
    exactly 1024 events with count 1024.  No event is on two pools or twice
    on one; every pooled event is new and zero-filled, and the events that
    were in memory before are untouched. *)
Theorem xlink_dispatcher_init_establishes (s : sys) (dev0 : Z) :
  allocator_fresh ->
  (forall m, is_Some (kzalloc_event m)) ->
  kzalloc_xlink_dispatcher = true ->
  0 <= XLINK_MAX_CONNECTIONS ->
  exists s' x',
    xlink_dispatcher_init dev0 s = Some (X_LINK_SUCCESS, s')
    /\ xlinkd s' = Some x'
    /\ dev x' = dev0
    /\ Z.of_nat (length (dispatchers x')) = XLINK_MAX_CONNECTIONS
    /\ (forall k d, dispatchers x' !! k = Some d ->
        initialised (Z.of_nat k) d
        /\ q_count (d_buff_queue d) = 1024
        /\ length (q_head (d_buff_queue d)) = 1024%nat)
    /\ NoDup (pooled_events (dispatchers x'))
    /\ (forall a, a ∈ pooled_events (dispatchers x') ->
        events s !! a = None /\ events s' !! a = Some zeroed_event)
    /\ (forall a, a ∉ pooled_events (dispatchers x') ->
        events s' !! a = events s !! a)
    /\ log s' = log s
    /\ event_id s' = event_id s.
Proof. exact (xlink_dispatcher_init_run s dev0). Qed.

(** ** Destruction *)

(* deinit_buffers on a pool that fits its capacity *)
Lemma deinit_buffers_fitting (q : event_queue) (mem : gmap Z xlink_event) :
  queue_inv q -> q_count q <= q_capacity q < 2 ^ 32 ->
  exists mem',
    deinit_buffers q mem
    = ({| q_count := 0; q_capacity := q_capacity q; q_head := [] |}, mem')
    /\ (forall a, a ∈ q_head q -> mem' !! a = None)
    /\ (forall a, a ∉ q_head q -> mem' !! a = mem !! a).
Proof.
  intros Hinv Hc. unfold deinit_buffers.
  pose proof (deinit_buffers_loop_spec (Z.to_nat (q_capacity q)) q mem Hinv
                ltac:(lia)) as Hspec.
  destruct (deinit_buffers_loop (Z.to_nat (q_capacity q)) q mem) as [q' mem'].
  destruct Hspec as (H1 & H2 & H3 & H4 & H5).
  assert (length (q_head q) <= Z.to_nat (q_capacity q))%nat as Hlen
    by (unfold queue_inv in Hinv; lia).
  rewrite drop_ge in H1 by exact Hlen.
  rewrite take_ge in H4, H5 by exact Hlen.
  exists mem'. split; [| split; assumption].
  destruct q' as [c cap l]. unfold queue_inv in H2. cbn in *. subst.
  reflexivity.
Qed.

(* one turn of the loop of xlink_dispatcher_destroy, on an idle dispatcher *)
Lemma destroy_dispatcher_idle (s : sys) (i : Z) x d :
  xlinkd s = Some x -> 0 <= i < XLINK_MAX_CONNECTIONS ->
  dispatchers x !! Z.to_nat i = Some d -> idle d ->
  exists mem',
    destroy_dispatcher i s
    = Some (tt, set_events mem'
                  (set_xlinkd (Some (set_dispatcher i (emptied d) x)) s))
    /\ (forall a, a ∈ q_head (d_buff_queue d) -> mem' !! a = None)
    /\ (forall a, a ∉ q_head (d_buff_queue d) -> mem' !! a = events s !! a).
Proof.
  intros Hx Hi Hd (Hstate & Hqueue & Hinv & Hc).
  destruct (deinit_buffers_fitting (d_buff_queue d) (events s) Hinv Hc)
    as (mem' & Hrun & Hfreed & Hkept).
  exists mem'. split; [| split; assumption].
  unfold destroy_dispatcher.
  rewrite (bind_Some _ _ _ _ _ (get_dispatcher_by_id_present _ _ _ Hx (proj2 Hi))).
  mstep. rewrite bool_decide_eq_false_2 by exact Hstate.
  do 2 mstep.
  assert (deinit_dispatcher_buffers i s
          = Some (tt, set_events mem'
                        (set_xlinkd (Some (set_dispatcher i (emptied d) x)) s)))
    as Hdeinit.
  { unfold deinit_dispatcher_buffers. do 2 mstep. rewrite Hrun.
    mstep. unfold modify_sys. reflexivity. }
  destruct (bool_decide (d_state d = XLINK_DISPATCHER_INIT)).
  - exact Hdeinit.
  - rewrite Hqueue. cbn [length destroy_pending_events].
    rewrite bind_run, (bind_load_disp _ _ _ _ _ Hx Hd), Hqueue, ret_run.
    exact Hdeinit.
Qed.

Lemma destroy_dispatchers_idle (n : nat) :
  forall (i : nat) (s : sys) x,
    xlinkd s = Some x ->
    (i + n <= length (dispatchers x))%nat ->
    Z.of_nat (i + n) <= XLINK_MAX_CONNECTIONS ->
    (forall k d, (i <= k < i + n)%nat -> dispatchers x !! k = Some d -> idle d) ->
    exists s' x',
      destroy_dispatchers n (Z.of_nat i) s = Some (tt, s')
      /\ xlinkd s' = Some x'
      /\ dev x' = dev x
      /\ length (dispatchers x') = length (dispatchers x)
      /\ (forall k d, dispatchers x !! k = Some d ->
          dispatchers x' !! k
          = Some (if bool_decide (i <= k < i + n)%nat then emptied d else d))
      /\ (forall a, a ∈ pooled_events (take n (drop i (dispatchers x))) ->
          events s' !! a = None)
      /\ (forall a, a ∉ pooled_events (take n (drop i (dispatchers x))) ->
          events s' !! a = events s !! a)
      /\ log s' = log s /\ event_id s' = event_id s
      /\ error_printed s' = error_printed s /\ ipc_disp s' = ipc_disp s.
Proof.
  induction n as [| n IH]; intros i s x Hx Hlen Hmax Hidle.
  - exists s, x. split; [reflexivity |]. split; [exact Hx |].
    split; [reflexivity |]. split; [reflexivity |].
    split.
    { intros k d Hk. rewrite bool_decide_eq_false_2 by lia. exact Hk. }
    split; [intros a Ha; apply elem_of_nil in Ha; contradiction |].
    repeat split; reflexivity.
  - destruct (lookup_lt_is_Some_2 (dispatchers x) i ltac:(lia)) as [d Hd].
    cbn [destroy_dispatchers].
    destruct (destroy_dispatcher_idle s (Z.of_nat i) x d Hx ltac:(lia)
                ltac:(rewrite Nat2Z.id; exact Hd)
                (Hidle i d ltac:(lia) Hd))
      as (mem1 & Hrun & Hfreed & Hkept).
    rewrite (bind_Some _ _ _ _ _ Hrun).
    set (x1 := set_dispatcher (Z.of_nat i) (emptied d) x).
    set (s1 := set_events mem1 (set_xlinkd (Some x1) s)).
    assert (forall k, k <> i -> dispatchers x1 !! k = dispatchers x !! k) as Hx1.
    { intros k Hk. unfold x1, set_dispatcher. cbn [dispatchers].
      rewrite Nat2Z.id. apply list_lookup_insert_ne. congruence. }
    assert (length (dispatchers x1) = length (dispatchers x)) as Hlen1.
    { unfold x1, set_dispatcher. cbn [dispatchers]. apply length_insert. }
    replace (Z.of_nat i + 1) with (Z.of_nat (S i)) by lia.
    destruct (IH (S i) s1 x1 eq_refl ltac:(lia) ltac:(lia))
      as (s' & x' & Hrest & Hx' & Hdev & Hlen' & Hds & Hfreed' & Hkept'
          & Hlog & Hid & Hep & Hipc).
    { intros k d' Hk Hd'. rewrite Hx1 in Hd' by lia.
      apply (Hidle k d'); [lia | exact Hd']. }
    assert (drop (S i) (dispatchers x1) = drop (S i) (dispatchers x)) as Hdrop.
    { unfold x1, set_dispatcher. cbn [dispatchers]. rewrite Nat2Z.id.
      apply drop_insert_lt. lia. }
    rewrite Hdrop in Hfreed', Hkept'.
    rewrite (drop_S _ _ _ Hd). cbn [take]. rewrite pooled_events_cons.
    exists s', x'. split; [exact Hrest |]. split; [exact Hx' |].
    split; [exact Hdev |]. split; [lia |].
    split.
    { intros k d' Hk. destruct (decide (k = i)) as [-> | Hne].
      - assert (d' = d) as -> by congruence.
        rewrite bool_decide_eq_true_2 by lia.
        assert (dispatchers x1 !! i = Some (emptied d)) as Hi1.
        { unfold x1, set_dispatcher. cbn [dispatchers]. rewrite Nat2Z.id.
          apply list_lookup_insert_eq. lia. }
        rewrite (Hds i _ Hi1). rewrite bool_decide_eq_false_2 by lia.
        reflexivity.
      - rewrite <- Hx1 in Hk by exact Hne. rewrite (Hds k d' Hk).
        destruct (bool_decide_reflect (S i <= k < S i + n)%nat);
          destruct (bool_decide_reflect (i <= k < i + S n)%nat);
          try reflexivity; lia. }
    split.
    { intros a Ha.
      destruct (decide (a ∈ pooled_events (take n (drop (S i) (dispatchers x)))))
        as [Hin | Hnin]; [exact (Hfreed' a Hin) |].
      apply elem_of_app in Ha as [Ha | Ha]; [| contradiction].
      rewrite (Hkept' a Hnin). unfold s1. sys_fields. exact (Hfreed a Ha). }
    split.
    { intros a Ha. apply not_elem_of_app in Ha as [Ha1 Ha2].
      rewrite (Hkept' a Ha2). unfold s1. sys_fields. exact (Hkept a Ha1). }
    rewrite Hlog, Hid, Hep, Hipc. repeat split; reflexivity.
Qed.

Lemma pooled_events_emptied (ds : list dispatcher) :
  pooled_events (emptied <$> ds) = [].
Proof. induction ds as [| d ds IH]; [reflexivity | exact IH]. Qed.

(* xlink_dispatcher_destroy on a table of idle dispatchers *)
Lemma xlink_dispatcher_destroy_run (s : sys) x :
  xlinkd s = Some x ->
  Z.of_nat (length (dispatchers x)) = XLINK_MAX_CONNECTIONS ->
  Forall idle (dispatchers x) ->
  exists s' x',
    xlink_dispatcher_destroy s = Some (X_LINK_SUCCESS, s')
    /\ xlinkd s' = Some x'
    /\ dev x' = dev x
    /\ dispatchers x' = emptied <$> dispatchers x
    /\ (forall a, a ∈ pooled_events (dispatchers x) -> events s' !! a = None)
    /\ (forall a, a ∉ pooled_events (dispatchers x) ->
        events s' !! a = events s !! a)
    /\ log s' = log s.
Proof.
  intros Hx Hlen Hidle. unfold xlink_dispatcher_destroy.
  destruct (destroy_dispatchers_idle (Z.to_nat XLINK_MAX_CONNECTIONS) 0 s x Hx
              ltac:(lia) ltac:(lia))
    as (s' & x' & Hrun & Hx' & Hdev & Hlen' & Hds & Hfreed & Hkept & Hlog & _).
  { intros k d _ Hk. rewrite Forall_lookup in Hidle. exact (Hidle k d Hk). }
  change (Z.of_nat 0) with 0 in Hrun.
  rewrite (bind_Some _ _ _ _ _ Hrun). mstep. rewrite Hx'. do 2 mstep.
  rewrite drop_0, take_ge in Hfreed, Hkept by lia.
  exists s', x'. split; [reflexivity |]. split; [exact Hx' |].
  split; [exact Hdev |].
  split; [| split; [exact Hfreed | split; [exact Hkept | exact Hlog]]].
  apply list_eq. intros k. rewrite list_lookup_fmap.
  destruct (dispatchers x !! k) as [d |] eqn:Hk.
  - rewrite (Hds k d Hk). apply lookup_lt_Some in Hk.
    rewrite bool_decide_eq_true_2 by lia. reflexivity.
  - apply lookup_ge_None in Hk. apply lookup_ge_None. lia.
Qed.

(** X25: xlink_dispatcher_destroy, called when no dispatcher is RUNNING,
    no pending queue holds an event and every pool fits its capacity, returns
    X_LINK_SUCCESS, frees every pooled event of every dispatcher and leaves
    each pool empty with count 0.  It frees nothing else, calls no
    collaborator, changes no dispatcher state, and does not free or reset
    xlinkd: the table is still there afterwards. *)
Theorem xlink_dispatcher_destroy_idle (s : sys) x :
  xlinkd s = Some x ->
  Z.of_nat (length (dispatchers x)) = XLINK_MAX_CONNECTIONS ->
  Forall idle (dispatchers x) ->
  exists s' x',
    xlink_dispatcher_destroy s = Some (X_LINK_SUCCESS, s')
    /\ xlinkd s' = Some x'
    /\ dev x' = dev x
    /\ dispatchers x' = emptied <$> dispatchers x
    /\ (forall a, a ∈ pooled_events (dispatchers x) -> events s' !! a = None)
    /\ (forall a, a ∉ pooled_events (dispatchers x) ->
        events s' !! a = events s !! a)
    /\ log s' = log s.
Proof. exact (xlink_dispatcher_destroy_run s x). Qed.

(** X26: with an allocator that never fails and hands out only unused
    addresses, xlink_dispatcher_init followed by xlink_dispatcher_destroy
    both return X_LINK_SUCCESS and leave in memory exactly the events that
    were there before the initialisation: every event the initialisation
    allocated is freed.  The table itself stays allocated, with every pool
    empty, and no collaborator was called. *)
Theorem init_then_destroy (s : sys) (dev0 : Z) :
  allocator_fresh ->
  (forall m, is_Some (kzalloc_event m)) ->
  kzalloc_xlink_dispatcher = true ->
  0 <= XLINK_MAX_CONNECTIONS ->
  exists s1 s2 x2,
    xlink_dispatcher_init dev0 s = Some (X_LINK_SUCCESS, s1)
    /\ xlink_dispatcher_destroy s1 = Some (X_LINK_SUCCESS, s2)
    /\ events s2 = events s
    /\ xlinkd s2 = Some x2
    /\ Z.of_nat (length (dispatchers x2)) = XLINK_MAX_CONNECTIONS
    /\ pooled_events (dispatchers x2) = []
    /\ log s2 = log s.
Proof.
  intros Hfresh Halways Hk Hmax.
  destruct (xlink_dispatcher_init_run s dev0 Hfresh Halways Hk Hmax)
    as (s1 & x1 & Hinit & Hx1 & _ & Hlen & Hall & _ & Hnew & Hold & Hlog & _).
  destruct (xlink_dispatcher_destroy_run s1 x1 Hx1 Hlen)
    as (s2 & x2 & Hrun & Hx2 & _ & Hds & Hfreed & Hkept & Hlog2).
  { apply Forall_lookup. intros k d Hd.
    destruct (Hall k d Hd) as ((_ & Hst & _ & _ & _ & Hq & Hcap) & Hcount & Hl).
    unfold idle, queue_inv. rewrite Hst, Hq, Hcount, Hcap, Hl.
    repeat split; try discriminate; lia. }
  exists s1, s2, x2. split; [exact Hinit |]. split; [exact Hrun |].
  split.
  { apply map_eq. intros a.
    destruct (decide (a ∈ pooled_events (dispatchers x1))) as [Hin | Hnin].
    - rewrite (Hfreed a Hin). symmetry. apply (Hnew a Hin).
    - rewrite (Hkept a Hnin). apply (Hold a Hnin). }
  split; [exact Hx2 |]. rewrite Hds, length_fmap.
  split; [exact Hlen |]. split; [| congruence].
  apply pooled_events_emptied.
Qed.

(* the table that xlink_dispatcher_init builds when no event can be
   allocated *)
Lemma init_dispatchers_no_memory (n : nat) (i : Z) (mem : gmap Z xlink_event) :
  (forall m, kzalloc_event m = None) ->
  exists ds,
    init_dispatchers n i mem = (ds, mem)
    /\ length ds = n
    /\ (forall k d, ds !! k = Some d ->
        d_state d = XLINK_DISPATCHER_INIT /\ q_head (d_buff_queue d) = []).
Proof.
  intros Hnone. revert i. induction n as [| n IH]; intros i.
  - exists []. split; [reflexivity |]. split; [reflexivity |].
    intros k d Hk. rewrite lookup_nil in Hk. discriminate.
  - cbn [init_dispatchers]. unfold init_dispatcher, init_buffers.
    cbn [q_capacity].
    destruct (Z.to_nat 1024) as [| m] eqn:Hm; [lia |].
    cbn [init_buffers_loop]. rewrite Hnone.
    destruct (IH (i + 1)) as (ds & Hds & Hlen & Hall). rewrite Hds.
    eexists. split; [reflexivity |]. split; [cbn; lia |].
    intros [| k] d Hk.
    + cbn in Hk. injection Hk as <-. split; reflexivity.
    + exact (Hall k d Hk).
Qed.

(** X27: xlink_dispatcher_init ignores the status of init_buffers.  When
    the table itself can be allocated but no event can, it still returns
    X_LINK_SUCCESS, with every dispatcher in state INIT over an empty pool;
    from then on xlink_create_event returns NULL for every link. *)
Theorem xlink_dispatcher_init_without_events (s : sys) (dev0 : Z) :
  (forall m, kzalloc_event m = None) ->
  kzalloc_xlink_dispatcher = true ->
  exists s' x',
    xlink_dispatcher_init dev0 s = Some (X_LINK_SUCCESS, s')
    /\ xlinkd s' = Some x'
    /\ events s' = events s
    /\ Forall (fun d => d_state d = XLINK_DISPATCHER_INIT) (dispatchers x')
    /\ forall link_id type handle chan size timeout,
         0 <= link_id ->
         xlink_create_event link_id type handle chan size timeout s'
         = Some (None, s').
Proof.
  intros Hnone Hx. unfold xlink_dispatcher_init. rewrite Hx. mstep.
  destruct (init_dispatchers_no_memory (Z.to_nat XLINK_MAX_CONNECTIONS) 0
              (events s) Hnone) as (ds & Hds & Hlen & Hall).
  rewrite Hds. do 2 mstep.
  assert (forall s', xlinkd s' = Some {| dispatchers := ds; dev := dev0 |} ->
          forall link_id type handle chan size timeout,
            0 <= link_id ->
            xlink_create_event link_id type handle chan size timeout s'
            = Some (None, s')) as Hcreate.
  { intros s' Hx' link_id type handle chan size timeout Hid.
    apply create_event_unavailable. unfold pool_unavailable. rewrite Hx'.
    destruct (Z.lt_ge_cases link_id XLINK_MAX_CONNECTIONS) as [Hlt | Hge];
      [right | left; exact Hge].
    cbn [dispatchers].
    destruct (lookup_lt_is_Some_2 ds (Z.to_nat link_id) ltac:(lia)) as [d Hd].
    exists d. split; [exact Hd |]. apply (Hall _ _ Hd). }
  assert (Forall (fun d => d_state d = XLINK_DISPATCHER_INIT) ds) as Hstates.
  { apply Forall_lookup. intros k d Hk. apply (Hall _ _ Hk). }
  destruct CONFIG_XLINK_LOCAL_HOST; repeat mstep;
    (eexists _, _; split; [reflexivity |]); sys_fields;
    (split; [reflexivity |]); (split; [reflexivity |]);
    (split; [exact Hstates |]); apply Hcreate; reflexivity.
Qed.

(* one pending event of xlink_dispatcher_destroy: its data buffer is
   released if it is a write request, and the event is destroyed *)
Lemma destroy_pending_event (s : sys) (e : Z) (ev : xlink_event) x :
  xlinkd s = Some x ->
  Z.of_nat (length (dispatchers x)) = XLINK_MAX_CONNECTIONS ->
  events s !! e = Some ev -> 0 <= ev_link_id ev ->
  exists s' x',
    (ev ← load_event e;
     (if bool_decide (h_type (ev_header ev) = XLINK_WRITE_REQ)
         || bool_decide (h_type (ev_header ev) = XLINK_WRITE_VOLATILE_REQ)
      then platform_deallocate (ev_data ev) (ev_paddr ev)
             (h_size (ev_header ev)) XLINK_PACKET_ALIGNMENT XLINK_NORMAL_MEMORY
      else mret tt);;
     xlink_destroy_event e) s = Some (tt, s')
    /\ xlinkd s' = Some x'
    /\ dev x' = dev x
    /\ length (dispatchers x') = length (dispatchers x)
    /\ (forall k d, dispatchers x !! k = Some d ->
        exists d', dispatchers x' !! k = Some d'
                   /\ d_queue d' = d_queue d /\ d_state d' = d_state d)
    /\ events s' = events s
    /\ log s' = log s ++ payload_deallocation (dev x) ev.
Proof.
  intros Hx Hlen Hev Hid. mstep.
  set (s1 := set_log (log s ++ payload_deallocation (dev x) ev) s).
  assert (forall k : unit -> M unit,
          ((if bool_decide (h_type (ev_header ev) = XLINK_WRITE_REQ)
               || bool_decide (h_type (ev_header ev) = XLINK_WRITE_VOLATILE_REQ)
            then platform_deallocate (ev_data ev) (ev_paddr ev)
                   (h_size (ev_header ev)) XLINK_PACKET_ALIGNMENT
                   XLINK_NORMAL_MEMORY
            else mret tt) ≫= k) s = k tt s1) as Hfree.
  { intros k. unfold s1, payload_deallocation.
    destruct (bool_decide (h_type (ev_header ev) = XLINK_WRITE_REQ)
              || bool_decide (h_type (ev_header ev) = XLINK_WRITE_VOLATILE_REQ)).
    - apply bind_platform_deallocate. exact Hx.
    - rewrite bind_ret, app_nil_r. destruct s; reflexivity. }
  rewrite Hfree. unfold xlink_destroy_event.
  destruct (Z.lt_ge_cases (ev_link_id ev) XLINK_MAX_CONNECTIONS) as [Hlt | Hge].
  - destruct (lookup_lt_is_Some_2 (dispatchers x) (Z.to_nat (ev_link_id ev))
                ltac:(lia)) as [dk Hdk].
    rewrite (free_event_registered s1 e ev x dk Hev Hx Hlt Hdk).
    eexists _, _. split; [reflexivity |]. sys_fields.
    split; [reflexivity |]. split; [reflexivity |].
    split; [apply length_insert |].
    split; [| split; reflexivity].
    intros k d Hk. cbn [set_dispatcher dispatchers].
    destruct (decide (k = Z.to_nat (ev_link_id ev))) as [-> | Hne].
    + rewrite list_lookup_insert_eq by (apply lookup_lt_is_Some; eauto).
      eexists. split; [reflexivity |].
      assert (d = dk) as -> by congruence. split; reflexivity.
    + rewrite list_lookup_insert_ne by congruence. eauto.
  - exists s1, x. split.
    { unfold free_event. mstep.
      rewrite (bind_Some _ _ _ _ _
                 (get_dispatcher_by_id_absent s1 _ (or_intror Hge))).
      reflexivity. }
    repeat split; try reflexivity; try exact Hx. eauto.
Qed.

(* the loop that drains the pending queue *)
Lemma destroy_pending_events_run (disp : Z) (l : list Z) :
  forall (s : sys) x d,
    xlinkd s = Some x ->
    Z.of_nat (length (dispatchers x)) = XLINK_MAX_CONNECTIONS ->
    dispatchers x !! Z.to_nat disp = Some d ->
    q_head (d_queue d) = l ->
    Forall (fun e => exists ev, events s !! e = Some ev /\ 0 <= ev_link_id ev) l ->
    exists s' x' d',
      destroy_pending_events (length l) disp s = Some (tt, s')
      /\ xlinkd s' = Some x'
      /\ dev x' = dev x
      /\ length (dispatchers x') = length (dispatchers x)
      /\ dispatchers x' !! Z.to_nat disp = Some d'
      /\ q_head (d_queue d') = []
      /\ d_state d' = d_state d
      /\ events s' = events s
      /\ log s' = log s ++ payload_deallocations (dev x) (events s) l.
Proof.
  induction l as [| e rest IH]; intros s x d Hx Hlen Hd Hq Hall.
  - exists s, x, d. split.
    { cbn [length destroy_pending_events]. mstep. rewrite Hq. reflexivity. }
    cbn. rewrite app_nil_r. repeat split; assumption || reflexivity.
  - apply Forall_cons in Hall as [(ev & Hev & Hid) Hall].
    cbn [length destroy_pending_events]. mstep. rewrite Hq.
    unfold event_dequeue. rewrite Hq. mstep.
    set (q := set_q (d_queue d) (u32 (q_count (d_queue d) - 1)) rest).
    set (x1 := set_dispatcher disp (set_d_queue q d) x).
    set (s1 := set_xlinkd (Some x1) s).
    assert (length (dispatchers x1) = length (dispatchers x)) as Hlen1
      by apply length_insert.
    destruct (destroy_pending_event s1 e ev x1 eq_refl ltac:(lia) Hev Hid)
      as (s2 & x2 & Hrun & Hx2 & Hdev2 & Hlen2 & Hds2 & Hev2 & Hlog2).
    rewrite bind_run, Hrun.
    destruct (Hds2 (Z.to_nat disp) (set_d_queue q d)
                (set_dispatcher_lookup disp d _ x Hd))
      as (d2 & Hd2 & Hq2 & Hst2).
    destruct (IH s2 x2 d2 Hx2 ltac:(lia) Hd2 ltac:(rewrite Hq2; reflexivity))
      as (s' & x' & d' & Hrest & Hx' & Hdev' & Hlen' & Hd' & Hq' & Hst' & Hev'
          & Hlog').
    { rewrite Hev2. exact Hall. }
    exists s', x', d'. split; [exact Hrest |]. split; [exact Hx' |].
    split; [rewrite Hdev', Hdev2; reflexivity |].
    split; [lia |]. split; [exact Hd' |]. split; [exact Hq' |].
    split; [rewrite Hst', Hst2; reflexivity |].
    split; [rewrite Hev', Hev2; reflexivity |].
    rewrite Hlog', Hlog2, Hev2. unfold s1. sys_fields.
    cbn [payload_deallocations flat_map]. rewrite Hev, <- app_assoc.
    rewrite Hdev2. reflexivity.
Qed.

(** X28: the loop of xlink_dispatcher_destroy over a pending queue of
    events in memory ends with the queue empty, whatever their types are.  It calls
    xlink_platform_deallocate once for each pending XLINK_WRITE_REQ or
    XLINK_WRITE_VOLATILE_REQ event, in queue order, with the data, paddr and
    size of the event, XLINK_PACKET_ALIGNMENT and XLINK_NORMAL_MEMORY, and
    for no other event; nothing else is logged, no event is freed or
    rewritten, and the state of the dispatcher is kept. *)
Theorem destroy_drains_pending_events (s : sys) (disp : Z) x d :
  xlinkd s = Some x ->
  Z.of_nat (length (dispatchers x)) = XLINK_MAX_CONNECTIONS ->
  dispatchers x !! Z.to_nat disp = Some d ->
  Forall (fun e => exists ev, events s !! e = Some ev /\ 0 <= ev_link_id ev)
    (q_head (d_queue d)) ->
  exists s' x' d',
    destroy_pending_events (length (q_head (d_queue d))) disp s = Some (tt, s')
    /\ xlinkd s' = Some x'
    /\ dispatchers x' !! Z.to_nat disp = Some d'
    /\ q_head (d_queue d') = []
    /\ d_state d' = d_state d
    /\ events s' = events s
    /\ log s'
       = log s ++ payload_deallocations (dev x) (events s) (q_head (d_queue d)).
Proof.
  intros Hx Hlen Hd Hall.
  destruct (destroy_pending_events_run disp (q_head (d_queue d)) s x d
              Hx Hlen Hd eq_refl Hall)
    as (s' & x' & d' & Hrun & Hx' & _ & _ & Hd' & Hq' & Hst' & Hev' & Hlog').
  exists s', x', d'. repeat split; assumption.
Qed.

End dispatcher_rest_properties.

(** ** The properties on the sample configurations *)

Lemma sample_allocator_fresh : allocator_fresh (Alloc := sample_allocator).
Proof.
  intros m a [= <-]. apply not_elem_of_dom. apply is_fresh.
Qed.

Lemma sample_allocator_total (m : gmap Z xlink_event) :
  is_Some (kzalloc_event (allocator := sample_allocator) m).
Proof. eexists. reflexivity. Qed.

Lemma event_generate_ids_consecutive_witness :
  event_generate_ids 3 (sample_sys XLINK_DISPATCHER_INIT)
  = Some ([10; 11; 12], set_event_id 13 (sample_sys XLINK_DISPATCHER_INIT)).
Proof.
  exact (proj1 (event_generate_ids_consecutive 3
                  (sample_sys XLINK_DISPATCHER_INIT) ltac:(simpl; lia))).
Defined.

Lemma xlink_create_event_unavailable_witness :
  xlink_create_event (Defs := sample_defs) (Ext := mock_ok)
    5 XLINK_WRITE_REQ None 0 0 0 (sample_sys XLINK_DISPATCHER_INIT)
  = Some (None, sample_sys XLINK_DISPATCHER_INIT).
Proof.
  refine (proj2 (xlink_create_event_unavailable
                   (Defs := sample_defs) (Ext := mock_ok)
                   (sample_sys XLINK_DISPATCHER_INIT) 5 XLINK_WRITE_REQ None 0 0 0
                   _)).
  left. simpl. lia.
Defined.

Lemma create_then_destroy_rotates_pool_witness :
  exists s1 s2 x2 d2,
    xlink_create_event (Defs := sample_defs) (Ext := mock_ok)
      0 XLINK_WRITE_REQ (Some sample_handle) 3 4 500
      (sample_sys XLINK_DISPATCHER_INIT) = Some (Some 4096, s1)
    /\ xlink_destroy_event (Defs := sample_defs) 4096 s1 = Some (tt, s2)
    /\ xlinkd s2 = Some x2
    /\ dispatchers x2 !! 0%nat = Some d2
    /\ q_head (d_buff_queue d2) = [4097; 4096].
Proof.
  destruct (create_then_destroy_rotates_pool
              (Defs := sample_defs) (Ext := mock_ok)
              (sample_sys XLINK_DISPATCHER_INIT) 0 XLINK_WRITE_REQ sample_handle
              3 4 500 (sample_table XLINK_DISPATCHER_INIT [4096; 4097])
              (sample_dispatcher 0 XLINK_DISPATCHER_INIT [4096; 4097])
              4096 [4097] (sample_event 0)
              eq_refl ltac:(simpl; lia) eq_refl eq_refl ltac:(simpl; lia) eq_refl)
    as (s1 & s2 & x2 & d2 & H1 & H2 & H3 & H4 & H5 & _).
  exists s1, s2, x2, d2. repeat split; assumption.
Defined.

Lemma dispatcher_event_send_writes_back_size_witness :
  exists rc s',
    dispatcher_event_send (Defs := sample_defs) (Ext := mock_ok)
      12288 (tx_sys XLINK_WRITE_REQ 0 0) = Some (rc, s')
    /\ xlinkd s' = xlinkd (tx_sys XLINK_WRITE_REQ 0 0)
    /\ events s' !! 8192 = Some (sample_event 1).
Proof.
  destruct (dispatcher_event_send_writes_back_size
              (Defs := sample_defs) (Ext := mock_ok)
              (tx_sys XLINK_WRITE_REQ 0 0) 12288 (tx_event XLINK_WRITE_REQ 0 0)
              sample_handle (sample_table XLINK_DISPATCHER_RUNNING [4096; 4097])
              eq_refl eq_refl eq_refl)
    as (rc & s' & Hrun & Hx & _ & _ & Hother & _).
  exists rc, s'. split; [exact Hrun |]. split; [exact Hx |].
  rewrite Hother by lia. reflexivity.
Defined.

Lemma dispatcher_event_send_header_failure_witness :
  exists s',
    dispatcher_event_send (Defs := sample_defs) (Ext := mock_dead_link)
      12288 (tx_sys XLINK_WRITE_REQ 0 0) = Some (-5, s')
    /\ error_printed s' = 1.
Proof.
  destruct (dispatcher_event_send_header_failure
              (Defs := sample_defs) (Ext := mock_dead_link)
              (tx_sys XLINK_WRITE_REQ 0 0) 12288 (tx_event XLINK_WRITE_REQ 0 0)
              sample_handle (sample_table XLINK_DISPATCHER_RUNNING [4096; 4097])
              (-5) 0 eq_refl eq_refl eq_refl eq_refl
              (or_introl (Z.lt_neq (-5) 0 eq_refl)))
    as (s' & Hrun & Hep & _).
  exists s'. split; assumption.
Defined.

Lemma dispatcher_event_send_error_printed_witness :
  exists rc s',
    dispatcher_event_send (Defs := sample_defs) (Ext := mock_ok)
      12288 (tx_sys XLINK_WRITE_REQ 0 0) = Some (rc, s')
    /\ error_printed s' = 0.
Proof.
  destruct (dispatcher_event_send_error_printed
              (Defs := sample_defs) (Ext := mock_ok)
              (tx_sys XLINK_WRITE_REQ 0 0) 12288 (tx_event XLINK_WRITE_REQ 0 0)
              sample_handle (sample_table XLINK_DISPATCHER_RUNNING [4096; 4097])
              eq_refl eq_refl eq_refl)
    as (rc & s' & Hrun & Hep).
  exists rc, s'. split; [exact Hrun | exact Hep].
Defined.

Lemma event_add_assigns_id_witness :
  exists s' ev',
    xlink_dispatcher_event_add (Defs := sample_defs) (Ext := mock_ok)
      EVENT_TX 12288 (tx_sys XLINK_WRITE_REQ 0 0) = Some (X_LINK_SUCCESS, s')
    /\ event_id s' = 11
    /\ events s' !! 12288 = Some ev'
    /\ h_id (ev_header ev') = 10.
Proof.
  destruct (event_add_assigns_id
              (Defs := sample_defs) (Ext := mock_ok)
              (tx_sys XLINK_WRITE_REQ 0 0) EVENT_TX 12288
              (tx_event XLINK_WRITE_REQ 0 0) sample_handle
              (sample_table XLINK_DISPATCHER_RUNNING [4096; 4097])
              (sample_dispatcher 0 XLINK_DISPATCHER_RUNNING [4096; 4097])
              eq_refl eq_refl eq_refl ltac:(simpl; lia) eq_refl eq_refl)
    as (s' & l & ev' & Hrun & _ & Hid & Hev & Hh & _).
  exists s', ev'. repeat split; assumption.
Defined.

Lemma xlink_dispatcher_stop_rejected_witness :
  xlink_dispatcher_stop (Defs := sample_defs) (Ext := mock_ok)
    0 (sample_sys XLINK_DISPATCHER_INIT)
  = Some (X_LINK_ERROR, sample_sys XLINK_DISPATCHER_INIT).
Proof.
  apply (xlink_dispatcher_stop_rejected (Defs := sample_defs) (Ext := mock_ok)
           (sample_sys XLINK_DISPATCHER_INIT) 0
           (sample_table XLINK_DISPATCHER_INIT [4096; 4097]) eq_refl).
  right. exists (sample_dispatcher 0 XLINK_DISPATCHER_INIT [4096; 4097]).
  split; [reflexivity | discriminate].
Defined.

Lemma xlink_dispatcher_stop_transitions_witness :
  (exists r s' x' d',
      xlink_dispatcher_stop (Defs := sample_defs) (Ext := mock_rx_worker_failed)
        0 working_sys = Some (r, s')
      /\ r <> X_LINK_SUCCESS
      /\ log s' = [call_kthread_stop 2]
      /\ xlinkd s' = Some x' /\ dispatchers x' !! 0%nat = Some d'
      /\ d_state d' = XLINK_DISPATCHER_ERROR)
  /\ (exists s' x' d',
        xlink_dispatcher_stop (Defs := sample_defs) (Ext := mock_ok)
          0 working_sys = Some (X_LINK_SUCCESS, s')
        /\ log s' = [call_kthread_stop 2; call_kthread_stop 1]
        /\ xlinkd s' = Some x' /\ dispatchers x' !! 0%nat = Some d'
        /\ d_state d' = XLINK_DISPATCHER_STOPPED).
Proof.
  split.
  - destruct (xlink_dispatcher_stop_transitions
                (Defs := sample_defs) (Ext := mock_rx_worker_failed)
                working_sys 0
                (set_dispatcher 0 working_dispatcher
                   (sample_table XLINK_DISPATCHER_RUNNING [4096; 4097]))
                working_dispatcher 2 1
                eq_refl ltac:(simpl; lia) ltac:(lia) eq_refl eq_refl
                eq_refl eq_refl eq_refl eq_refl)
      as (r & s' & st & Hrun & Hx & _ & _ & Hiff & _ & Hbad & Hlog).
    assert (r <> X_LINK_SUCCESS) as Hr.
    { intros Hr. apply Hiff in Hr. destruct Hr as [Hrc _]. discriminate Hrc. }
    rewrite (Hbad Hr) in Hx.
    exists r, s'. eexists _, _. split; [exact Hrun |]. split; [exact Hr |].
    split; [exact Hlog |]. split; [exact Hx |]. split; reflexivity.
  - destruct (xlink_dispatcher_stop_transitions
                (Defs := sample_defs) (Ext := mock_ok)
                working_sys 0
                (set_dispatcher 0 working_dispatcher
                   (sample_table XLINK_DISPATCHER_RUNNING [4096; 4097]))
                working_dispatcher 2 1
                eq_refl ltac:(simpl; lia) ltac:(lia) eq_refl eq_refl
                eq_refl eq_refl eq_refl eq_refl)
      as (r & s' & st & Hrun & Hx & _ & _ & Hiff & Hok & _ & Hlog).
    assert (r = X_LINK_SUCCESS) as -> by (apply Hiff; split; reflexivity).
    rewrite (Hok eq_refl) in Hx.
    exists s'. eexists _, _. split; [exact Hrun |].
    split; [exact Hlog |]. split; [exact Hx |]. split; reflexivity.
Defined.

Lemma xlink_dispatcher_start_binds_handle_witness :
  (exists s' x' d',
      xlink_dispatcher_start (Defs := sample_defs) (Ext := mock_ok)
        0 (Some {| sw_device_id := 6 |}) (sample_sys XLINK_DISPATCHER_INIT)
      = Some (X_LINK_SUCCESS, s')
      /\ xlinkd s' = Some x'
      /\ dispatchers x' !! 0%nat = Some d'
      /\ d_handle d' = Some {| sw_device_id := 6 |}
      /\ d_interface d' = 2
      /\ q_head (d_buff_queue d') = [4097]
      /\ events s' !! 4096
         = Some (created_event (Defs := sample_defs) (Ext := mock_ok)
                   (sample_event 0) 0 XLINK_WRITE_REQ {| sw_device_id := 6 |}
                   0 0 0))
  /\ (exists r s' x' d',
        xlink_dispatcher_start (Defs := sample_defs)
          (Ext := mock_first_spawn_fails)
          0 (Some {| sw_device_id := 6 |}) (sample_sys XLINK_DISPATCHER_INIT)
        = Some (r, s')
        /\ r <> X_LINK_SUCCESS
        /\ xlinkd s' = Some x'
        /\ dispatchers x' !! 0%nat = Some d'
        /\ d_state d' = XLINK_DISPATCHER_STOPPED
        /\ d_handle d' = Some {| sw_device_id := 6 |}
        /\ q_head (d_buff_queue d') = [4096; 4097]
        /\ events s' = events (sample_sys XLINK_DISPATCHER_INIT)).
Proof.
  split.
  - destruct (xlink_dispatcher_start_binds_handle
                (Defs := sample_defs) (Ext := mock_ok)
                (sample_sys XLINK_DISPATCHER_INIT) 0 {| sw_device_id := 6 |}
                (sample_table XLINK_DISPATCHER_INIT [4096; 4097])
                (sample_dispatcher 0 XLINK_DISPATCHER_INIT [4096; 4097])
                4096 [4097] (sample_event 0)
                eq_refl ltac:(simpl; lia) ltac:(lia) eq_refl (or_introl eq_refl)
                eq_refl eq_refl eq_refl
                ltac:(intros t [= <-]; reflexivity)
                ltac:(intros t [= <-]; reflexivity)
                ltac:(intros t [= <-]; reflexivity))
      as (r & s' & x' & d' & Hrun & Hx & Hd & _ & _ & _ & Hh & Hi & _ & _
          & _ & Hfail & _ & Hready).
    destruct (Hready ltac:(eexists; reflexivity) ltac:(eexists; reflexivity))
      as (Hq & _ & Hev).
    assert (r = X_LINK_SUCCESS) as ->.
    { pose proof (xlink_dispatcher_start_run (Defs := sample_defs)
                    (Ext := mock_ok)
                    (sample_sys XLINK_DISPATCHER_INIT) 0 {| sw_device_id := 6 |}
                    (sample_table XLINK_DISPATCHER_INIT [4096; 4097])
                    (sample_dispatcher 0 XLINK_DISPATCHER_INIT [4096; 4097])
                    eq_refl ltac:(simpl; lia) ltac:(lia) eq_refl eq_refl
                    ltac:(discriminate) ltac:(discriminate)) as Hsame.
      rewrite Hrun in Hsame. injection Hsame as -> _. reflexivity. }
    exists s', x', d'. repeat split; try assumption.
    rewrite Hev. apply lookup_insert_eq.
  - destruct (xlink_dispatcher_start_binds_handle
                (Defs := sample_defs) (Ext := mock_first_spawn_fails)
                (sample_sys XLINK_DISPATCHER_INIT) 0 {| sw_device_id := 6 |}
                (sample_table XLINK_DISPATCHER_INIT [4096; 4097])
                (sample_dispatcher 0 XLINK_DISPATCHER_INIT [4096; 4097])
                4096 [4097] (sample_event 0)
                eq_refl ltac:(simpl; lia) ltac:(lia) eq_refl (or_introl eq_refl)
                eq_refl eq_refl eq_refl
                ltac:(intros t [=])
                ltac:(intros t [= <-]; reflexivity)
                ltac:(intros t [= <-]; reflexivity))
      as (r & s' & x' & d' & Hrun & Hx & Hd & _ & _ & _ & Hh & _ & _ & _
          & Hiff & Hfail & Hearly & _).
    destruct (Hearly (or_introl eq_refl)) as [Hev Hpool].
    assert (r <> X_LINK_SUCCESS) as Hr.
    { intros ->.
      rewrite (xlink_dispatcher_start_run (Defs := sample_defs)
                 (Ext := mock_first_spawn_fails)
                 (sample_sys XLINK_DISPATCHER_INIT) 0 {| sw_device_id := 6 |}
                 (sample_table XLINK_DISPATCHER_INIT [4096; 4097])
                 (sample_dispatcher 0 XLINK_DISPATCHER_INIT [4096; 4097])
                 eq_refl ltac:(simpl; lia) ltac:(lia) eq_refl eq_refl
                 ltac:(discriminate) ltac:(discriminate)) in Hrun.
      discriminate Hrun. }
    exists r, s', x', d'. split; [exact Hrun |]. split; [exact Hr |].
    split; [exact Hx |]. split; [exact Hd |]. split; [exact (Hfail Hr) |].
    split; [exact Hh |]. split; [rewrite Hpool; reflexivity | exact Hev].
Defined.

Lemma xlink_dispatcher_start_passthru_failure_witness :
  exists s' x' d',
    xlink_dispatcher_start (Defs := local_host_defs)
      (Ext := mock_no_passthru_thread)
      0 (Some sample_handle) (sample_sys XLINK_DISPATCHER_INIT)
    = Some (X_LINK_ERROR, s')
    /\ xlinkd s' = Some x'
    /\ dispatchers x' !! 0%nat = Some d'
    /\ d_state d' = XLINK_DISPATCHER_STOPPED
    /\ d_txthread d' = Some 1
    /\ d_rxthread d' = Some 2
    /\ q_head (d_buff_queue d') = [4097].
Proof.
  destruct (xlink_dispatcher_start_passthru_failure
              (Defs := local_host_defs) (Ext := mock_no_passthru_thread)
              (sample_sys XLINK_DISPATCHER_INIT) 0 sample_handle
              (sample_table XLINK_DISPATCHER_INIT [4096; 4097])
              (sample_dispatcher 0 XLINK_DISPATCHER_INIT [4096; 4097]) 1 2
              4096 [4097] (sample_event 0)
              eq_refl ltac:(simpl; lia) ltac:(lia) eq_refl (or_introl eq_refl)
              eq_refl eq_refl eq_refl
              eq_refl ltac:(discriminate) eq_refl eq_refl eq_refl eq_refl eq_refl)
    as (s' & x' & d' & Hrun & Hx & Hd & Hst & Htx & Hrx & Hq & _).
  exists s', x', d'. repeat split; assumption.
Defined.

Lemma stop_rejects_invalid_id_witness :
  xlink_dispatcher_stop (Defs := sample_defs) (Ext := mock_ok)
    (-1) (sample_sys XLINK_DISPATCHER_INIT)
  = Some (X_LINK_ERROR, sample_sys XLINK_DISPATCHER_INIT).
Proof.
  apply (stop_rejects_invalid_id (Defs := sample_defs) (Ext := mock_ok)
           (sample_sys XLINK_DISPATCHER_INIT) (-1)
           (sample_table XLINK_DISPATCHER_INIT [4096; 4097]) eq_refl).
  - lia.
  - simpl. lia.
  - left. lia.
Defined.

Lemma submit_after_start_witness :
  exists r s1 s2,
    xlink_dispatcher_start (Defs := sample_defs) (Ext := mock_workers)
      0 (Some sample_handle) (submit_sys XLINK_DISPATCHER_INIT) = Some (r, s1)
    /\ xlink_dispatcher_event_add (Defs := sample_defs) (Ext := mock_workers)
         EVENT_TX 12288 s1 = Some (r, s2).
Proof.
  destruct (submit_after_start
              (Defs := sample_defs) (Ext := mock_workers)
              (submit_sys XLINK_DISPATCHER_INIT) 0 sample_handle sample_handle
              (sample_table XLINK_DISPATCHER_INIT [4096; 4097])
              (sample_dispatcher 0 XLINK_DISPATCHER_INIT [4096; 4097])
              EVENT_TX 12288 (tx_event XLINK_WRITE_REQ 0 0)
              4096 [4097] (sample_event 0)
              eq_refl ltac:(simpl; lia) ltac:(lia) eq_refl (or_introl eq_refl)
              eq_refl eq_refl eq_refl eq_refl eq_refl eq_refl)
    as (r & s1 & s2 & Hstart & Hadd & _).
  { intros l fn context t Ht. destruct fn; injection Ht as <-; reflexivity. }
  exists r, s1, s2. split; assumption.
Defined.

Lemma after_stop_nothing_runs_witness :
  exists r s1,
    xlink_dispatcher_stop (Defs := sample_defs) (Ext := mock_ok)
      0 working_sys = Some (r, s1)
    /\ xlink_dispatcher_event_add (Defs := sample_defs) (Ext := mock_ok)
         EVENT_TX 12288 s1 = Some (X_LINK_ERROR, s1)
    /\ xlink_dispatcher_stop (Defs := sample_defs) (Ext := mock_ok) 0 s1
       = Some (X_LINK_ERROR, s1).
Proof.
  destruct (after_stop_nothing_runs
              (Defs := sample_defs) (Ext := mock_ok)
              working_sys 0
              (set_dispatcher 0 working_dispatcher
                 (sample_table XLINK_DISPATCHER_RUNNING [4096; 4097]))
              working_dispatcher
              EVENT_TX 12288 (tx_event XLINK_WRITE_REQ 0 0) (Some sample_handle)
              eq_refl ltac:(simpl; lia) ltac:(lia) eq_refl eq_refl
              ltac:(eexists; split; reflexivity)
              ltac:(eexists; split; reflexivity)
              eq_refl eq_refl)
    as (r & s1 & Hstop & Hadd & Hagain & _).
  exists r, s1. repeat split; assumption.
Defined.

Lemma ipc_passthru_event_add_admission_witness :
  xlink_dispatcher_ipc_passthru_event_add (Defs := local_host_defs) 12288
    (sample_sys XLINK_DISPATCHER_INIT)
  = Some (X_LINK_ERROR, sample_sys XLINK_DISPATCHER_INIT).
Proof.
  apply (ipc_passthru_event_add_admission (Defs := local_host_defs) 
           (sample_sys XLINK_DISPATCHER_INIT) 12288).
  unfold queue_wf. simpl. lia.
Defined.

Lemma rxthread_body_failed_read_witness :
  exists s',
    xlink_dispatcher_rxthread_body (Defs := sample_defs) (Ext := mock_dead_link)
      0 12288 (tx_sys XLINK_WRITE_REQ 0 0)
    = Some (loop_continue 12288, s')
    /\ deliveries (log s') = [].
Proof.
  destruct (rxthread_body_failed_read
              (Defs := sample_defs) (Ext := mock_dead_link)
              (tx_sys XLINK_WRITE_REQ 0 0) 0 12288
              (sample_table XLINK_DISPATCHER_RUNNING [4096; 4097])
              (sample_dispatcher 0 XLINK_DISPATCHER_RUNNING [4096; 4097])
              sample_handle (tx_event XLINK_WRITE_REQ 0 0) (-110) 0
              (ev_header (tx_event XLINK_WRITE_REQ 0 0))
              eq_refl eq_refl eq_refl eq_refl ltac:(vm_compute; reflexivity)
              eq_refl (or_introl (Z.lt_neq (-110) 0 eq_refl)))
    as (s' & Hrun & Hdel & _).
  exists s'. split; [exact Hrun | exact Hdel].
Defined.

Lemma rxthread_on_noise_witness :
  exists s',
    xlink_dispatcher_rxthread (Defs := sample_defs) (Ext := mock_dead_link)
      3 0 (sample_sys XLINK_DISPATCHER_RUNNING) = Some (0, s')
    /\ deliveries (log s') = []
    /\ length (log s') = 3%nat.
Proof.
  destruct (rxthread_on_noise
              (Defs := sample_defs) (Ext := mock_dead_link)
              3 (sample_sys XLINK_DISPATCHER_RUNNING) 0
              (sample_table XLINK_DISPATCHER_RUNNING [4096; 4097])
              (sample_dispatcher 0 XLINK_DISPATCHER_RUNNING [4096; 4097])
              sample_handle 4096 [4097] (sample_event 0)
              eq_refl ltac:(simpl; lia) eq_refl eq_refl eq_refl eq_refl eq_refl
              ltac:(vm_compute; reflexivity)
              (fun _ _ => or_introl (Z.lt_neq (-110) 0 eq_refl)))
    as (s' & x' & d' & Hrun & _ & _ & _ & Hdel & Hlen).
  exists s'. repeat split; assumption.
Defined.

Lemma rxthread_without_pooled_event_witness :
  xlink_dispatcher_rxthread (Defs := sample_defs) (Ext := mock_ok)
    3 0 drained_sys = Some (-1, drained_sys).
Proof.
  apply (rxthread_without_pooled_event (Defs := sample_defs) (Ext := mock_ok)
           3 drained_sys 0 (sample_table XLINK_DISPATCHER_RUNNING [])
           (sample_dispatcher 0 XLINK_DISPATCHER_RUNNING [])
           eq_refl ltac:(simpl; lia) eq_refl eq_refl eq_refl).
Defined.

Lemma txthread_body_sends_head_witness :
  exists s' x' d',
    xlink_dispatcher_txthread_body (Defs := sample_defs) (Ext := mock_ok)
      0 0 (pending_sys XLINK_DISPATCHER_RUNNING) = Some (tt, s')
    /\ xlinkd s' = Some x'
    /\ dispatchers x' !! 0%nat = Some d'
    /\ q_head (d_queue d') = []
    /\ q_head (d_buff_queue d') = [4096; 4097; 12288].
Proof.
  destruct (txthread_body_sends_head
              (Defs := sample_defs) (Ext := mock_ok)
              (pending_sys XLINK_DISPATCHER_RUNNING) 0 0
              (set_dispatcher 0
                 (set_d_queue {| q_count := 1; q_capacity := 10000;
                                 q_head := [12288] |}
                    (sample_dispatcher 0 XLINK_DISPATCHER_RUNNING [4096; 4097]))
                 (sample_table XLINK_DISPATCHER_RUNNING [4096; 4097]))
              (set_d_queue {| q_count := 1; q_capacity := 10000;
                              q_head := [12288] |}
                 (sample_dispatcher 0 XLINK_DISPATCHER_RUNNING [4096; 4097]))
              eq_refl ltac:(simpl; lia) eq_refl)
    as (s' & Hrun & _ & Hdown).
  { intros e rest [= <- <-].
    exists (tx_event XLINK_WRITE_REQ 0 0), sample_handle.
    repeat split; reflexivity. }
  destruct (Hdown eq_refl)
    as (x' & d' & ev & h & l & _ & _ & Hx & Hd & Hq & _ & Hpool & _).
  exists s', x', d'. repeat split; assumption.
Defined.

Lemma deinit_buffers_frees_capacity_events_witness :
  exists mem',
    deinit_buffers {| q_count := 2; q_capacity := 1024; q_head := [4096; 4097] |}
      (events (sample_sys XLINK_DISPATCHER_INIT))
    = ({| q_count := 0; q_capacity := 1024; q_head := [] |}, mem')
    /\ mem' !! 4096 = None
    /\ mem' !! 8192 = Some (sample_event 1).
Proof.
  destruct (deinit_buffers_frees_capacity_events
              {| q_count := 2; q_capacity := 1024; q_head := [4096; 4097] |}
              (events (sample_sys XLINK_DISPATCHER_INIT))
              eq_refl ltac:(simpl; lia))
    as ([c cap l] & mem' & Hrun & _ & _ & Hcap & Hfreed & Hkept & Hfit).
  destruct (Hfit ltac:(simpl; lia)) as [Hl Hc]. simpl in Hl, Hc, Hcap. subst.
  exists mem'. split; [exact Hrun |]. split.
  - apply Hfreed. simpl. apply elem_of_cons. left. reflexivity.
  - rewrite Hkept; [reflexivity |]. simpl. intros Hin.
    repeat (apply elem_of_cons in Hin as [Hin | Hin]; [discriminate |]).
    apply elem_of_nil in Hin. exact Hin.
Defined.

Lemma init_buffers_fills_pool_witness :
  exists new mem',
    init_buffers (Defs := sample_defs) (Alloc := sample_allocator)
      {| q_count := 0; q_capacity := 4; q_head := [] |} ∅
    = (0, {| q_count := 4; q_capacity := 4; q_head := new |}, mem')
    /\ length new = 4%nat
    /\ NoDup new.
Proof.
  destruct (init_buffers_fills_pool (Defs := sample_defs) (Alloc := sample_allocator)
              {| q_count := 0; q_capacity := 4; q_head := [] |} ∅
              sample_allocator_fresh sample_allocator_total
              ltac:(simpl; lia) ltac:(simpl; lia) ltac:(simpl; lia))
    as (new & mem' & Hrun & Hlen & Hnd & _).
  exists new, mem'. split; [exact Hrun |]. simpl in Hlen.
  split; [lia | exact Hnd].
Defined.

Lemma init_then_deinit_buffers_witness :
  exists rc q1 mem1,
    init_buffers (Defs := sample_defs) (Alloc := sample_allocator)
      {| q_count := 0; q_capacity := 4; q_head := [] |} ∅ = (rc, q1, mem1)
    /\ deinit_buffers q1 mem1
       = ({| q_count := 0; q_capacity := 4; q_head := [] |}, ∅).
Proof.
  exact (init_then_deinit_buffers (Defs := sample_defs) (Alloc := sample_allocator) 4 ∅
           sample_allocator_fresh sample_allocator_total ltac:(lia)).
Defined.

Lemma xlink_dispatcher_init_establishes_witness :
  exists s' x',
    xlink_dispatcher_init (Defs := sample_defs) (Alloc := sample_allocator)
      77 boot_sys = Some (X_LINK_SUCCESS, s')
    /\ xlinkd s' = Some x'
    /\ length (dispatchers x') = 2%nat
    /\ length (pooled_events (dispatchers x')) = 2048%nat
    /\ NoDup (pooled_events (dispatchers x')).
Proof.
  destruct (xlink_dispatcher_init_establishes
              (Defs := sample_defs) (Alloc := sample_allocator) boot_sys 77
              sample_allocator_fresh sample_allocator_total eq_refl
              ltac:(simpl; lia))
    as (s' & x' & Hrun & Hx & _ & Hlen & Hall & Hnd & _).
  exists s', x'. split; [exact Hrun |]. split; [exact Hx |].
  simpl in Hlen. split; [lia |]. split; [| exact Hnd].
  destruct (dispatchers x') as [| d0 [| d1 [| d2 ds]]] eqn:Hds;
    simpl in Hlen; try lia.
  destruct (Hall 0%nat d0 eq_refl) as (_ & _ & H0).
  destruct (Hall 1%nat d1 eq_refl) as (_ & _ & H1).
  unfold pooled_events. simpl. rewrite !length_app, H0, H1. reflexivity.
Defined.

Lemma xlink_dispatcher_destroy_idle_witness :
  exists s' x',
    xlink_dispatcher_destroy (Defs := sample_defs) (Ext := mock_ok)
      (sample_sys XLINK_DISPATCHER_STOPPED) = Some (X_LINK_SUCCESS, s')
    /\ xlinkd s' = Some x'
    /\ pooled_events (dispatchers x') = []
    /\ events s' = ∅.
Proof.
  destruct (xlink_dispatcher_destroy_idle
              (Defs := sample_defs) (Ext := mock_ok)
              (sample_sys XLINK_DISPATCHER_STOPPED)
              (sample_table XLINK_DISPATCHER_STOPPED [4096; 4097])
              eq_refl eq_refl)
    as (s' & x' & Hrun & Hx & _ & Hds & Hfreed & Hkept & _).
  { repeat constructor; simpl; try discriminate; lia. }
  exists s', x'. split; [exact Hrun |]. split; [exact Hx |].
  split; [rewrite Hds; reflexivity |].
  apply map_eq. intros a. rewrite lookup_empty.
  destruct (decide (a ∈ [4096; 4097; 8192; 8193])) as [Hin | Hnin].
  - apply Hfreed. exact Hin.
  - rewrite Hkept by exact Hnin. simpl.
    assert (a <> 4096 /\ a <> 4097 /\ a <> 8192 /\ a <> 8193)
      as (N1 & N2 & N3 & N4).
    { rewrite !not_elem_of_cons in Hnin. tauto. }
    repeat (rewrite lookup_insert_ne by congruence). apply lookup_empty.
Defined.

Lemma init_then_destroy_witness :
  exists s1 s2,
    xlink_dispatcher_init (Defs := sample_defs) (Alloc := sample_allocator)
      77 boot_sys = Some (X_LINK_SUCCESS, s1)
    /\ xlink_dispatcher_destroy (Defs := sample_defs) (Ext := mock_ok) s1
       = Some (X_LINK_SUCCESS, s2)
    /\ events s2 = ∅
    /\ is_Some (xlinkd s2).
Proof.
  destruct (init_then_destroy
              (Defs := sample_defs) (Ext := mock_ok) (Alloc := sample_allocator)
              boot_sys 77 sample_allocator_fresh sample_allocator_total eq_refl
              ltac:(simpl; lia))
    as (s1 & s2 & x2 & Hinit & Hrun & Hev & Hx & _).
  exists s1, s2. split; [exact Hinit |]. split; [exact Hrun |].
  split; [exact Hev |]. rewrite Hx. eexists. reflexivity.
Defined.

Lemma xlink_dispatcher_init_without_events_witness :
  exists s',
    xlink_dispatcher_init (Defs := sample_defs) (Alloc := no_event_allocator)
      77 boot_sys = Some (X_LINK_SUCCESS, s')
    /\ xlink_create_event (Defs := sample_defs) (Ext := mock_ok)
         0 XLINK_WRITE_REQ (Some sample_handle) 3 4 500 s' = Some (None, s').
Proof.
  destruct (xlink_dispatcher_init_without_events
              (Defs := sample_defs) (Ext := mock_ok) (Alloc := no_event_allocator)
              boot_sys 77 (fun _ => eq_refl) eq_refl)
    as (s' & x' & Hrun & _ & _ & _ & Hcreate).
  exists s'. split; [exact Hrun |]. apply Hcreate. lia.
Defined.

Lemma destroy_drains_pending_events_witness :
  exists s',
    destroy_pending_events (Defs := sample_defs)
      1 0 (pending_sys XLINK_DISPATCHER_STOPPED) = Some (tt, s')
    /\ log s'
       = [call_platform_deallocate 77 0x2000 0 4 64 XLINK_NORMAL_MEMORY].
Proof.
  destruct (destroy_drains_pending_events
              (Defs := sample_defs)
              (pending_sys XLINK_DISPATCHER_STOPPED) 0
              (set_dispatcher 0
                 (set_d_queue {| q_count := 1; q_capacity := 10000;
                                 q_head := [12288] |}
                    (sample_dispatcher 0 XLINK_DISPATCHER_STOPPED [4096; 4097]))
                 (sample_table XLINK_DISPATCHER_STOPPED [4096; 4097]))
              (set_d_queue {| q_count := 1; q_capacity := 10000;
                              q_head := [12288] |}
                 (sample_dispatcher 0 XLINK_DISPATCHER_STOPPED [4096; 4097]))
              eq_refl eq_refl eq_refl)
    as (s' & x' & d' & Hrun & _ & _ & _ & _ & _ & Hlog).
  { repeat constructor. exists (tx_event XLINK_WRITE_REQ 0 0).
    split; [reflexivity | simpl; lia]. }
  exists s'. split; [exact Hrun | exact Hlog].
Defined.
